(** * Task-Scheduler: the slot generator and the allocation engine

    A shallow embedding of [scheduler.py] ([_iter_study_slots] and
    [build_schedule]) together with the data model of [models.py], and the
    properties of the engine stated in the specification.  Around the
    engine: the table of todos that could not be placed in full (app.py),
    the calendar files (ics_export.py), the cut of the model's reply
    (llm_parser.py) and the search for app.py (launcher.py). *)

From stdpp Require Import gmap strings list sorting pretty.
From Stdlib Require Import ZArith Lia Ascii.

Local Open Scope Z_scope.

(** ** Naive datetimes

    A Python [datetime] without time zone is a point on the proleptic
    Gregorian time line with microsecond resolution.  It is modelled as the
    number of microseconds since 0001-01-01T00:00:00, and a [date] as the
    number of days since 0001-01-01 (Python's [toordinal() - 1]).  The time
    line is unbounded here, while Python's calendar ends with 9999-12-31 and
    a sum that leaves it raises [OverflowError]: a theorem that promises a
    return therefore assumes that the days reached lie in the calendar
    ([horizon_in_calendar] below).  Every datetime is naive, as
    [datetime.now()] is; datetimes that carry a time zone, whose comparison
    with a naive one raises [TypeError], are outside the model. *)

Abbreviation datetime := Z (only parsing).
Abbreviation date := Z (only parsing).

Module Datetime.

Definition US_PER_MINUTE : Z := 60000000.
Definition US_PER_HOUR : Z := 3600000000.
Definition US_PER_DAY : Z := 86400000000.

(** [dt.date()] *)
Definition to_date (dt : datetime) : date := dt / US_PER_DAY.

(** [datetime.combine(d, datetime.min.time())] *)
Definition combine_midnight (d : date) : datetime := d * US_PER_DAY.

(** [dt.hour] *)
Definition hour (dt : datetime) : Z := (dt mod US_PER_DAY) / US_PER_HOUR.

(** Day of the month of a date (1..31), by the usual era/day-of-era
    computation of the civil calendar, shifted so that day 0 is
    0001-01-01. *)
Definition day_of_month (d : date) : Z :=
  let z := d + 306 in
  let doe := z mod 146097 in
  let yoe := (doe - doe / 1460 + doe / 36524 - doe / 146096) / 365 in
  let doy := doe - (365 * yoe + yoe / 4 - yoe / 100) in
  let mp := (5 * doy + 2) / 153 in
  doy - (153 * mp + 2) / 5 + 1.

(** [dt.day] *)
Definition day (dt : datetime) : Z := day_of_month (to_date dt).

(** [dt + timedelta(days=n)] and [dt + timedelta(minutes=n)], for sums that
    stay in the calendar; past 9999-12-31 Python raises [OverflowError]
    where the time line goes on. *)
Definition add_days (dt : datetime) (n : Z) : datetime := dt + n * US_PER_DAY.
Definition add_minutes (dt : datetime) (n : Z) : datetime := dt + n * US_PER_MINUTE.

(** A clock time on a given date, for writing inputs down. *)
Definition at_time (d : date) (h m : Z) : datetime :=
  d * US_PER_DAY + h * US_PER_HOUR + m * US_PER_MINUTE.

End Datetime.

(** ** Results of Python computations

    A call returns a value, raises one of the exceptions the engine can run
    into, or (in the model only) is cut off because the loop budget was used
    up. *)

Inductive PyExn := TypeError | ValueError | OverflowError.

Inductive outcome (A : Type) :=
| Ret (a : A)
| Raise (e : PyExn)
| OutOfFuel.
Arguments Ret {A} a.
Arguments Raise {A} e.
Arguments OutOfFuel {A}.

#[global] Instance outcome_ret : MRet outcome := @Ret.
#[global] Instance outcome_bind : MBind outcome := fun A B f m =>
  match m with
  | Ret a => f a
  | Raise e => Raise e
  | OutOfFuel => OutOfFuel
  end.

(** [dt.replace(hour=h, minute=0, second=0, microsecond=0)].  CPython
    first converts the hour to a C [int], which fails with [OverflowError]
    outside 32 bits, and then checks it against 0..23. *)
Definition replace_hour (dt : datetime) (h : Z) : outcome datetime :=
  if (0 <=? h) && (h <=? 23)
  then Ret (Datetime.to_date dt * Datetime.US_PER_DAY + h * Datetime.US_PER_HOUR)
  else if (- 2 ^ 31 <=? h) && (h <? 2 ^ 31) then Raise ValueError
  else Raise OverflowError.

(** ** models.py *)

Module TodoTask.
(** [estimated_time_minutes] is declared [int]; [priority] is
    [Optional[int]] with default [None]. *)
Record t := mk {
  title : string;
  subject : option string;
  deadline : datetime;
  estimated_time_minutes : Z;
  difficulty : option Z;
  priority : option Z;
  exam_or_not : bool
}.
End TodoTask.

Module FixedEvent.
Record t := mk {
  title : string;
  start : datetime;
  end_ : datetime
}.
End FixedEvent.

Module ScheduledBlock.
Record t := mk {
  title : string;
  start : datetime;
  end_ : datetime;
  kind : string
}.
End ScheduledBlock.

Module ParsedInput.
(** [past_tasks] is not read by the engine and is left out. *)
Record t := mk {
  todos : list TodoTask.t;
  fixed_events : list FixedEvent.t
}.
End ParsedInput.

(** ** Python's [sorted(l, key=...)]

    A stable ascending sort that compares keys with [<] only.  The
    comparison may raise (ordering [None]), so the sort lives in [outcome].
    A list of fewer than two elements is returned without any comparison. *)

Section Sorted.
Context {A K : Type} (lt : K → K → outcome bool) (key : A → K).

Fixpoint insert_by (x : A) (l : list A) : outcome (list A) :=
  match l with
  | [] => Ret [x]
  | y :: l' =>
      b ← lt (key y) (key x);
      if b : bool then l'' ← insert_by x l'; Ret (y :: l'')
      else Ret (x :: y :: l')
  end.

Fixpoint sorted_by (l : list A) : outcome (list A) :=
  match l with
  | [] => Ret []
  | x :: l' => s ← sorted_by l'; insert_by x s
  end.
End Sorted.

(** [a < b] on ints and on naive datetimes, where it never raises.  (Between
    a naive datetime and one with a time zone Python raises [TypeError];
    such datetimes are not part of the model.) *)
Definition lt_int (a b : Z) : outcome bool := Ret (a <? b).

(** [a < b] on [Optional[int]]: ordering [None] is a [TypeError]. *)
Definition lt_optional_int (a b : option Z) : outcome bool :=
  match a, b with
  | Some x, Some y => Ret (x <? y)
  | _, _ => Raise TypeError
  end.

(** ** Sample inputs

    Monday 2025-03-10 is day 739319; the samples are read at 08:00 that day
    with blocks of 30 minutes and the window 19:00 to 23:00. *)

Module Sample.

Definition monday : date := 739319.
Definition now : datetime := Datetime.at_time monday 8 0.

Definition todo (title : string) (deadline : datetime) (minutes : Z)
    (priority : option Z) (exam : bool) : TodoTask.t :=
  TodoTask.mk title None deadline minutes None priority exam.

Definition block (title : string) (d : date) (h m : Z) (kind : string)
    : ScheduledBlock.t :=
  ScheduledBlock.mk title (Datetime.at_time d h m)
    (Datetime.at_time d h (m + 30)) kind.

(** An estimate that is not a multiple of the block length. *)
Definition essay : TodoTask.t :=
  todo "essay" (Datetime.at_time (monday + 1) 23 59) 45 (Some 101) false.

(** A deadline off the slot grid. *)
Definition quiz : TodoTask.t :=
  todo "quiz" (Datetime.at_time monday 19 10) 30 (Some 101) false.

(** A todo without priority. *)
Definition notes : TodoTask.t :=
  todo "notes" (Datetime.at_time (monday + 2) 20 0) 60 None false.

(** An exam on Wednesday 20:00. *)
Definition exam : TodoTask.t :=
  todo "exam" (Datetime.at_time (monday + 2) 20 0) 350 (Some 1) true.

(** Two todos under one title. *)
Definition reading : TodoTask.t :=
  todo "reading" (Datetime.at_time (monday + 1) 23 59) 30 (Some 101) false.

Definition reading_again : TodoTask.t :=
  todo "reading" (Datetime.at_time (monday + 2) 23 59) 30 (Some 101) false.

(** Due yesterday. *)
Definition overdue : TodoTask.t :=
  todo "report" (Datetime.at_time (monday - 1) 9 0) 60 (Some 1) false.

Definition lecture : FixedEvent.t :=
  FixedEvent.mk "lecture" (Datetime.at_time monday 19 0) (Datetime.at_time monday 20 0).

Definition dinner : FixedEvent.t :=
  FixedEvent.mk "dinner" (Datetime.at_time (monday + 1) 18 0)
    (Datetime.at_time (monday + 1) 20 0).

Definition homework : TodoTask.t :=
  todo "homework" (Datetime.at_time (monday + 3) 23 59) 90 (Some 2) false.

Definition week : ParsedInput.t :=
  ParsedInput.mk [homework; overdue; essay] [lecture; dinner].

Definition week_schedule : list ScheduledBlock.t :=
  [ ScheduledBlock.mk "lecture" (Datetime.at_time monday 19 0)
      (Datetime.at_time monday 20 0) "fixed";
    block "homework" monday 20 0 "todo";
    block "homework" monday 20 30 "todo";
    block "homework" monday 21 0 "todo";
    block "essay" monday 21 30 "todo";
    block "essay" monday 22 0 "todo";
    ScheduledBlock.mk "dinner" (Datetime.at_time (monday + 1) 18 0)
      (Datetime.at_time (monday + 1) 20 0) "fixed" ].


End Sample.

(** ** scheduler.py *)

Section Scheduler.

(** config.py is not part of the sources at hand; its three constants are
    parameters of the development. *)
Variables DEFAULT_STUDY_START_HOUR DEFAULT_STUDY_END_HOUR BLOCK_MINUTES : Z.

(** *** [_iter_study_slots]

    The generator object.  [g_left] counts the iterations of
    [for d in range(days)] that have not started yet, [g_d] is the next
    value of [d], and, when the generator is suspended at its [yield],
    [g_day] is the value [day] takes on resumption, after
    [day += timedelta(minutes=BLOCK_MINUTES)]. *)
Record slot_gen := SlotGen {
  g_start_dt : datetime;
  g_study_start_hour : Z;
  g_study_end_hour : Z;
  g_d : Z;
  g_left : nat;
  g_day : option datetime
}.

Definition _iter_study_slots
    (start_dt : datetime) (days study_start_hour study_end_hour : Z) : slot_gen :=
  {| g_start_dt := start_dt;
     g_study_start_hour := study_start_hour;
     g_study_end_hour := study_end_hour;
     g_d := 0;
     g_left := Z.to_nat days;
     g_day := None |}.

Definition suspend (g : slot_gen) (d : Z) (left : nat) (day : datetime) : slot_gen :=
  {| g_start_dt := g_start_dt g;
     g_study_start_hour := g_study_start_hour g;
     g_study_end_hour := g_study_end_hour g;
     g_d := d;
     g_left := left;
     g_day := Some (Datetime.add_minutes day BLOCK_MINUTES) |}.

(** Run the [for d in range(days)] loop from its head until the next
    [yield] or until the range is used up. *)
Fixpoint next_day (g : slot_gen) (left : nat) (d : Z)
    : outcome (option (datetime * slot_gen)) :=
  match left with
  | O => Ret None
  | S left' =>
      day ← replace_hour (Datetime.add_days (g_start_dt g) d) (g_study_start_hour g);
      if Datetime.hour day <? g_study_end_hour g
      then Ret (Some (day, suspend g (d + 1) left' day))
      else next_day g left' (d + 1)
  end.

(** [next(g)]: [Ret None] is [StopIteration]. *)
Definition gen_next (g : slot_gen) : outcome (option (datetime * slot_gen)) :=
  match g_day g with
  | Some day =>
      if Datetime.hour day <? g_study_end_hour g
      then Ret (Some (day, suspend g (g_d g) (g_left g) day))
      else next_day g (g_left g) (g_d g)
  | None => next_day g (g_left g) (g_d g)
  end.

(** A [for slot in g: ...] loop with [break] and [continue], threading the
    variables the body assigns. *)
Inductive flow (St : Type) :=
| Continue (st : St)
| Break (st : St).
Arguments Continue {St} st.
Arguments Break {St} st.

Fixpoint for_slots {St : Type} (fuel : nat)
    (body : datetime → St → outcome (flow St)) (g : slot_gen) (st : St)
    : outcome St :=
  match fuel with
  | O => OutOfFuel
  | S fuel' =>
      nx ← gen_next g;
      match nx with
      | None => Ret st
      | Some (slot, g') =>
          r ← body slot st;
          match r with
          | Break st' => Ret st'
          | Continue st' => for_slots fuel' body g' st'
          end
      end
  end.

(** [list(g)]: the slots drawn from [g] until it is exhausted. *)
Fixpoint list_slots (fuel : nat) (g : slot_gen) : outcome (list datetime) :=
  match fuel with
  | O => OutOfFuel
  | S fuel' =>
      nx ← gen_next g;
      match nx with
      | None => Ret []
      | Some (slot, g') => slots ← list_slots fuel' g'; Ret (slot :: slots)
      end
  end.

(** [list(itertools.islice(g, n))]: the first [n] slots of [g]. *)
Fixpoint first_slots (n : nat) (g : slot_gen) : outcome (list datetime) :=
  match n with
  | O => Ret []
  | S n' =>
      nx ← gen_next g;
      match nx with
      | None => Ret []
      | Some (slot, g') => slots ← first_slots n' g'; Ret (slot :: slots)
      end
  end.

(** *** [build_schedule] *)

(** [is_free], on the block list it closes over. *)
Definition is_free (blocks : list ScheduledBlock.t) (start end_ : datetime) : bool :=
  forallb
    (fun b => (end_ <=? ScheduledBlock.start b) || (start >=? ScheduledBlock.end_ b))
    blocks.

(** The variables the scheduling loops assign: the block list, the
    per-day minutes of todo blocks, and [remaining] of the current todo. *)
Record alloc := Alloc {
  blocks : list ScheduledBlock.t;
  day_todo_minutes : gmap Z Z;
  remaining : Z
}.

(** What the loop body does with one candidate slot. *)
Inductive verdict :=
| PastDeadline   (* [slot_start >= todo.deadline]: break *)
| Satisfied      (* [remaining <= 0]: break *)
| Deferred       (* cram mode: continue *)
| Capped         (* daily limit reached: continue *)
| Occupied       (* not [is_free]: next slot *)
| Commit.        (* a block is appended *)

(** [remaining = todo.estimated_time_minutes] *)
Definition begin_todo (todo : TodoTask.t) (st : alloc) : alloc :=
  {| blocks := blocks st;
     day_todo_minutes := day_todo_minutes st;
     remaining := TodoTask.estimated_time_minutes todo |}.

Section Call.
(** The locals of one [build_schedule] call that the loops read. *)
Variables (fuel : nat) (now : datetime) (days : Z) (start_base : datetime).
Variables (max_minutes_per_day : option Z) (study_start_hour study_end_hour : Z).
Variable (cram_or_not : bool).

(** [num_of_minutes] of the cram branch, as compared with the estimate. *)
Definition cram_minutes (todo : TodoTask.t) (slot_start : datetime)
    (bs : list ScheduledBlock.t) : outcome Z :=
  let num_of_days :=
    Datetime.day (TodoTask.deadline todo) - Datetime.day slot_start - 1 in
  cap ← match max_minutes_per_day with
        | Some m => Ret m
        | None => Raise TypeError
        end;
  let num_of_minutes := num_of_days * cap in
  let num_of_minutes :=
    num_of_minutes + Z.max (study_end_hour - Datetime.hour slot_start) 0 * 60 in
  let num_of_minutes :=
    num_of_minutes
    + Z.max (Datetime.hour (TodoTask.deadline todo) - study_start_hour) 0 * 60 in
  for_slots fuel
    (fun slot n =>
       if negb (is_free bs slot (Datetime.add_minutes slot BLOCK_MINUTES))
       then Ret (Continue (n - BLOCK_MINUTES))
       else Ret (Continue n))
    (_iter_study_slots slot_start (num_of_days + 2) study_start_hour study_end_hour)
    num_of_minutes.

Definition over_daily_limit (slot_start : datetime) (st : alloc) : bool :=
  match max_minutes_per_day with
  | Some cap =>
      let day_key := Datetime.to_date slot_start in
      let used := default 0 (day_todo_minutes st !! day_key) in
      used + BLOCK_MINUTES >? cap
  | None => false
  end.

Definition slot_verdict (todo : TodoTask.t) (slot_start : datetime) (st : alloc)
    : outcome verdict :=
  if slot_start >=? TodoTask.deadline todo then Ret PastDeadline
  else if remaining st <=? 0 then Ret Satisfied
  else
    defer ← (if cram_or_not && TodoTask.exam_or_not todo
             then n ← cram_minutes todo slot_start (blocks st);
                  Ret (n >? TodoTask.estimated_time_minutes todo)
             else Ret false);
    if defer : bool then Ret Deferred
    else
      let slot_end := Datetime.add_minutes slot_start BLOCK_MINUTES in
      if over_daily_limit slot_start st then Ret Capped
      else if is_free (blocks st) slot_start slot_end then Ret Commit
      else Ret Occupied.

Definition todo_block (todo : TodoTask.t) (slot_start : datetime) : ScheduledBlock.t :=
  ScheduledBlock.mk (TodoTask.title todo) slot_start
    (Datetime.add_minutes slot_start BLOCK_MINUTES) "todo".

Definition commit (todo : TodoTask.t) (slot_start : datetime) (st : alloc) : alloc :=
  {| blocks := blocks st ++ [todo_block todo slot_start];
     day_todo_minutes :=
       match max_minutes_per_day with
       | Some _ =>
           let day_key := Datetime.to_date slot_start in
           <[day_key := default 0 (day_todo_minutes st !! day_key) + BLOCK_MINUTES]>
             (day_todo_minutes st)
       | None => day_todo_minutes st
       end;
     remaining := remaining st - BLOCK_MINUTES |}.

Definition todo_body (todo : TodoTask.t) (slot_start : datetime) (st : alloc)
    : outcome (flow alloc) :=
  v ← slot_verdict todo slot_start st;
  match v with
  | PastDeadline | Satisfied => Ret (Break st)
  | Deferred | Capped | Occupied => Ret (Continue st)
  | Commit => Ret (Continue (commit todo slot_start st))
  end.

(** One iteration of [for todo in todos]. *)
Definition schedule_todo (todo : TodoTask.t) (st : alloc) : outcome alloc :=
  let st := begin_todo todo st in
  if TodoTask.deadline todo <=? now then Ret st
  else for_slots fuel (todo_body todo)
         (_iter_study_slots start_base days study_start_hour study_end_hour) st.

Fixpoint schedule_todos (todos : list TodoTask.t) (st : alloc) : outcome alloc :=
  match todos with
  | [] => Ret st
  | todo :: todos' => st' ← schedule_todo todo st; schedule_todos todos' st'
  end.
End Call.

(** The normalization of one todo's estimate.  The field is an [int], so
    of [is None or <= 0] only the comparison can hold. *)
Definition normalize_estimate (t : TodoTask.t) : TodoTask.t :=
  if TodoTask.estimated_time_minutes t <=? 0
  then TodoTask.mk (TodoTask.title t) (TodoTask.subject t) (TodoTask.deadline t) 120
         (TodoTask.difficulty t) (TodoTask.priority t) (TodoTask.exam_or_not t)
  else t.

Definition fixed_block (e : FixedEvent.t) : ScheduledBlock.t :=
  ScheduledBlock.mk (FixedEvent.title e) (FixedEvent.start e) (FixedEvent.end_ e) "fixed".

Definition effective_date (now : datetime) (start_date : option date) : date :=
  let today := Datetime.to_date now in
  match start_date with
  | None => today
  | Some d => Z.max d today
  end.

Definition effective_start_hour (study_start_hour : option Z) : Z :=
  default DEFAULT_STUDY_START_HOUR study_start_hour.

Definition effective_end_hour (study_start_hour study_end_hour : option Z) : Z :=
  let sh := effective_start_hour study_start_hour in
  let eh := default DEFAULT_STUDY_END_HOUR study_end_hour in
  if eh <=? sh then Z.min (sh + 1) 23 else eh.

(** The todos in the order the engine works through them. *)
Definition todo_order (parsed : ParsedInput.t) : outcome (list TodoTask.t) :=
  todos ← sorted_by lt_int TodoTask.deadline
            (normalize_estimate <$> ParsedInput.todos parsed);
  sorted_by lt_optional_int TodoTask.priority todos.

(** The loop variables before the first todo: one block per fixed event,
    no minutes on any day. *)
Definition first_alloc (parsed : ParsedInput.t) : alloc :=
  {| blocks := fixed_block <$> ParsedInput.fixed_events parsed;
     day_todo_minutes := ∅;
     remaining := 0 |}.

(** The block list before the final sort. *)
Definition allocate (fuel : nat) (now : datetime) (parsed : ParsedInput.t)
    (days : Z) (start_date : option date) (max_hours_per_day : option Z)
    (study_start_hour study_end_hour : option Z) (cram_or_not : bool)
    : outcome alloc :=
  let sh := effective_start_hour study_start_hour in
  let eh := effective_end_hour study_start_hour study_end_hour in
  let start_base := Datetime.combine_midnight (effective_date now start_date) in
  let max_minutes_per_day := (fun h => h * 60) <$> max_hours_per_day in
  todos ← todo_order parsed;
  schedule_todos fuel now days start_base max_minutes_per_day sh eh cram_or_not
    todos (first_alloc parsed).

(** [now] stands for the one reading of [datetime.now()]; [fuel] bounds the
    number of slots any single loop may draw. *)
Definition build_schedule (fuel : nat) (now : datetime) (parsed : ParsedInput.t)
    (days : Z) (start_date : option date) (max_hours_per_day : option Z)
    (study_start_hour study_end_hour : option Z) (cram_or_not : bool)
    : outcome (list ScheduledBlock.t) :=
  st ← allocate fuel now parsed days start_date max_hours_per_day
         study_start_hour study_end_hour cram_or_not;
  sorted_by lt_int ScheduledBlock.start (blocks st).

(** *** app.py: minutes scheduled per title

    The caller's tally of the engine's output,
    [scheduled_minutes_by_title], which counts blocks of kind "todo" only.
    [(b.end - b.start).total_seconds() // 60] is a floor division. *)
Definition block_minutes (b : ScheduledBlock.t) : Z :=
  (ScheduledBlock.end_ b - ScheduledBlock.start b) / Datetime.US_PER_MINUTE.

Definition scheduled_minutes_by_title (schedule : list ScheduledBlock.t)
    : gmap string Z :=
  foldl
    (λ acc b,
       if bool_decide (ScheduledBlock.kind b ≠ "todo") then acc
       else <[ScheduledBlock.title b :=
                default 0 (acc !! ScheduledBlock.title b) + block_minutes b]> acc)
    ∅ schedule.

(** [scheduled_minutes_by_title.get(title, 0)] *)
Definition scheduled (title : string) (schedule : list ScheduledBlock.t) : Z :=
  default 0 (scheduled_minutes_by_title schedule !! title).

(** ** Vocabulary of the properties *)

(** The generator states reached from [g0] by calls of [next], and the
    slots [g0] yields. *)
Inductive gen_reach (g0 : slot_gen) : slot_gen → Prop :=
| reach_start : gen_reach g0 g0
| reach_next g slot g' :
    gen_reach g0 g → gen_next g = Ret (Some (slot, g')) → gen_reach g0 g'.

Definition yields (g0 : slot_gen) (slot : datetime) : Prop :=
  ∃ g g', gen_reach g0 g ∧ gen_next g = Ret (Some (slot, g')).

Definition flow_state {St} (r : flow St) : St :=
  match r with Continue st | Break st => st end.

(** Midnight of the [d]-th day counted from the day of [start_dt]. *)
Definition day_base (start_dt : datetime) (d : Z) : datetime :=
  Datetime.combine_midnight (Datetime.to_date start_dt + d).

(** [slot] lies on the grid of day [d]: a whole number of blocks after
    [study_start_hour]:00 and before [study_end_hour]:00. *)
Definition slot_of_day (start_dt : datetime) (study_start_hour study_end_hour : Z)
    (d : Z) (slot : datetime) : Prop :=
  ∃ k, 0 ≤ k
       ∧ slot = day_base start_dt d + study_start_hour * Datetime.US_PER_HOUR
                + k * (BLOCK_MINUTES * Datetime.US_PER_MINUTE)
       ∧ slot < day_base start_dt d + study_end_hour * Datetime.US_PER_HOUR.

Definition in_window (start_dt : datetime) (days study_start_hour study_end_hour : Z)
    (slot : datetime) : Prop :=
  ∃ d, 0 ≤ d < days ∧ slot_of_day start_dt study_start_hour study_end_hour d slot.

(** What holds of the generator object between two calls of [next]. *)
Definition gen_inv (start_dt : datetime) (days study_start_hour study_end_hour : Z)
    (g : slot_gen) : Prop :=
  g_start_dt g = start_dt
  ∧ g_study_start_hour g = study_start_hour
  ∧ g_study_end_hour g = study_end_hour
  ∧ 0 ≤ g_d g
  ∧ g_d g + Z.of_nat (g_left g) = Z.max 0 days
  ∧ match g_day g with
    | None => True
    | Some day =>
        1 ≤ g_d g ∧ 0 ≤ study_start_hour ≤ 23
        ∧ slot_of_day start_dt study_start_hour study_end_hour (g_d g - 1)
            (day - BLOCK_MINUTES * Datetime.US_PER_MINUTE)
    end.

(** No later slot is earlier than this. *)
Definition gen_floor (start_dt : datetime) (g : slot_gen) : datetime :=
  match g_day g with
  | Some day => day
  | None => day_base start_dt (g_d g)
  end.

(** The order the engine realizes: smaller priority number first, earlier
    deadline first among equal priorities. *)
Definition goes_before (a b : TodoTask.t) : Prop :=
  ∃ pa pb, TodoTask.priority a = Some pa ∧ TodoTask.priority b = Some pb
           ∧ (pa < pb ∨ (pa = pb ∧ TodoTask.deadline a ≤ TodoTask.deadline b)).

(** Two blocks intersect when some instant lies in both half-open
    intervals. *)
Definition intersects (a b : ScheduledBlock.t) : Prop :=
  ∃ t, ScheduledBlock.start a ≤ t < ScheduledBlock.end_ a
       ∧ ScheduledBlock.start b ≤ t < ScheduledBlock.end_ b.

Definition non_overlapping (bs : list ScheduledBlock.t) : Prop :=
  ∀ i j a b, i ≠ j → bs !! i = Some a → bs !! j = Some b → ¬ intersects a b.

Fixpoint pairwise_apart (bs : list ScheduledBlock.t) : Prop :=
  match bs with
  | [] => True
  | b :: bs' => Forall (λ a, ¬ intersects b a) bs' ∧ pairwise_apart bs'
  end.

(** The minutes of the "todo" blocks that carry a given title. *)
Fixpoint todo_minutes (title : string) (bs : list ScheduledBlock.t) : Z :=
  match bs with
  | [] => 0
  | b :: bs' =>
      (if bool_decide (ScheduledBlock.kind b = "todo" ∧ ScheduledBlock.title b = title)
       then block_minutes b else 0)
      + todo_minutes title bs'
  end.

(** A block that was committed for one of [todos], still due at [now], at
    a slot that [g0] yields and that starts before the todo's deadline. *)
Definition granted (now : datetime) (g0 : slot_gen) (todos : list TodoTask.t)
    (b : ScheduledBlock.t) : Prop :=
  ∃ todo, todo ∈ todos
          ∧ b = todo_block todo (ScheduledBlock.start b)
          ∧ ScheduledBlock.start b < TodoTask.deadline todo
          ∧ now < TodoTask.deadline todo
          ∧ yields g0 (ScheduledBlock.start b).

Definition accounted (now : datetime) (g0 : slot_gen) (todos : list TodoTask.t)
    (bs : list ScheduledBlock.t) : Prop :=
  Forall (λ b, ScheduledBlock.kind b = "todo" → granted now g0 todos b) bs.

(** The three summands of the cram estimate before occupied slots are
    taken off, the slots the cram branch scans, and those of them that are
    not free. *)
Definition cram_capacity (cap study_start_hour study_end_hour : Z)
    (todo : TodoTask.t) (slot_start : datetime) : Z :=
  (Datetime.day (TodoTask.deadline todo) - Datetime.day slot_start - 1) * cap
  + Z.max (study_end_hour - Datetime.hour slot_start) 0 * 60
  + Z.max (Datetime.hour (TodoTask.deadline todo) - study_start_hour) 0 * 60.

Definition cram_window (study_start_hour study_end_hour : Z)
    (todo : TodoTask.t) (slot_start : datetime) : slot_gen :=
  _iter_study_slots slot_start
    (Datetime.day (TodoTask.deadline todo) - Datetime.day slot_start - 1 + 2)
    study_start_hour study_end_hour.

Definition occupied_slots (bs : list ScheduledBlock.t) (slots : list datetime)
    : list datetime :=
  filter
    (λ slot, is_free bs slot (Datetime.add_minutes slot BLOCK_MINUTES) = false)
    slots.

(** Three readings that the engine does not meet as they stand: no title
    is given more minutes than the estimate of a todo that carries it;
    every "todo" block ends by the deadline of a todo with its title; a slot
    is deferred exactly when the cram estimate exceeds the minutes the todo
    still needs. *)
Definition budget_respected (parsed : ParsedInput.t)
    (out : list ScheduledBlock.t) : Prop :=
  ∀ todo, todo ∈ normalize_estimate <$> ParsedInput.todos parsed →
          scheduled (TodoTask.title todo) out
          ≤ TodoTask.estimated_time_minutes todo.

Definition deadline_respected (parsed : ParsedInput.t)
    (out : list ScheduledBlock.t) : Prop :=
  ∀ b, b ∈ out → ScheduledBlock.kind b = "todo" →
       ∃ todo, todo ∈ ParsedInput.todos parsed
               ∧ TodoTask.title todo = ScheduledBlock.title b
               ∧ ScheduledBlock.end_ b ≤ TodoTask.deadline todo.


(** The generator is exhausted after finitely many slots, which ascend and
    stay inside the horizon of [days] days. *)
Definition finite_ascending_in_horizon (start_dt : datetime)
    (days study_start_hour study_end_hour : Z) : Prop :=
  ∃ fuel slots,
    list_slots fuel (_iter_study_slots start_dt days study_start_hour study_end_hour)
    = Ret slots
    ∧ StronglySorted Z.lt slots
    ∧ Forall (λ slot, day_base start_dt 0 ≤ slot < day_base start_dt days) slots.

(** A block lies on one of the [days] days from [first], between
    [start_hour]:00 and [end_hour]:00 of its day. *)
Definition within_horizon_and_window (first : date) (days start_hour end_hour : Z)
    (b : ScheduledBlock.t) : Prop :=
  let day := Datetime.to_date (ScheduledBlock.start b) in
  first ≤ day < first + days
  ∧ Datetime.at_time day start_hour 0 ≤ ScheduledBlock.start b
  ∧ ScheduledBlock.end_ b ≤ Datetime.at_time day end_hour 0
  ∧ Datetime.combine_midnight first ≤ ScheduledBlock.start b
  ∧ ScheduledBlock.end_ b < Datetime.combine_midnight (first + days).

(** The inputs on which no step of the engine meets a [None] it cannot
    handle: priorities are compared only when there are two todos, and the
    cram branch multiplies by the daily limit. *)
Definition priorities_comparable (todos : list TodoTask.t) : Prop :=
  Forall (λ t, is_Some (TodoTask.priority t)) todos ∨ (length todos ≤ 1)%nat.

Definition cram_defined (max_minutes_per_day : option Z) (cram_or_not : bool)
    (todo : TodoTask.t) : Prop :=
  cram_or_not = false ∨ TodoTask.exam_or_not todo = false
  ∨ is_Some max_minutes_per_day.

(** An estimate rounded up to a whole number of blocks. *)
Definition whole_blocks (minutes : Z) : Z :=
  BLOCK_MINUTES * ((minutes + BLOCK_MINUTES - 1) / BLOCK_MINUTES).

(** The rounded-up estimates of the todos that carry a given title. *)
Fixpoint title_budget (title : string) (todos : list TodoTask.t) : Z :=
  match todos with
  | [] => 0
  | t :: todos' =>
      (if bool_decide (TodoTask.title t = title)
       then whole_blocks (TodoTask.estimated_time_minutes t) else 0)
      + title_budget title todos'
  end.

(** *** Further vocabulary *)

(** The calendar of Python's [datetime]: day 3652058 is 9999-12-31, the
    last day there is, and a datetime lies between [datetime.min] and
    [datetime.max].  A sum that leaves the calendar raises [OverflowError]
    in Python and is just a number on the time line used here; so whatever
    is proved about a call that returns for all that the horizon holds is
    stated for horizons inside the calendar. *)
Definition LAST_DAY : date := 3652058.

Definition in_calendar (dt : datetime) : Prop :=
  0 ≤ dt < (LAST_DAY + 1) * Datetime.US_PER_DAY.

(** [start_dt] and the [days] days from its day lie in the calendar. *)
Definition horizon_in_calendar (start_dt : datetime) (days : Z) : Prop :=
  in_calendar start_dt ∧ Datetime.to_date start_dt + days ≤ LAST_DAY + 1.

(** The days the engine may reach from [start_base]: the horizon, and in
    cram mode up to 30 days more, which the scan of the cram branch covers
    from a slot of the last day. *)
Definition reach_in_calendar (start_base : datetime) (days : Z) (cram_or_not : bool)
    : Prop :=
  horizon_in_calendar start_base (if cram_or_not then Z.max 0 days + 30 else days).

(** The minutes of the "todo" blocks that start on a given date. *)
Fixpoint day_minutes (d : date) (bs : list ScheduledBlock.t) : Z :=
  match bs with
  | [] => 0
  | b :: bs' =>
      (if bool_decide (ScheduledBlock.kind b = "todo"
                       ∧ Datetime.to_date (ScheduledBlock.start b) = d)
       then block_minutes b else 0)
      + day_minutes d bs'
  end.

(** The per-day accumulator agrees with the block list. *)
Definition day_tally (st : alloc) : Prop :=
  ∀ d, default 0 (day_todo_minutes st !! d) = day_minutes d (blocks st).

(** ... and no day is over the limit. *)
Definition day_ledger (cap : Z) (st : alloc) : Prop :=
  day_tally st ∧ ∀ d, day_minutes d (blocks st) ≤ cap.

(** A relation that holds between any two elements of a list. *)
Fixpoint pairwise {A} (R : A → A → Prop) (l : list A) : Prop :=
  match l with
  | [] => True
  | x :: l' => Forall (R x) l' ∧ pairwise R l'
  end.

(** Two blocks, one of them a "todo" block, do not intersect. *)
Definition todo_clear (a b : ScheduledBlock.t) : Prop :=
  ScheduledBlock.kind a = "todo" ∨ ScheduledBlock.kind b = "todo" →
  ¬ intersects a b.

(** A slot in which the loop commits nothing more: it is taken, or its day
    has reached the daily limit. *)
Definition no_room (max_minutes_per_day : option Z) (slot : datetime) (st : alloc)
    : Prop :=
  is_free (blocks st) slot (Datetime.add_minutes slot BLOCK_MINUTES) = false
  ∨ over_daily_limit max_minutes_per_day slot st = true.

(** The same, read off a finished schedule. *)
Definition full (max_hours_per_day : option Z) (schedule : list ScheduledBlock.t)
    (slot : datetime) : Prop :=
  is_free schedule slot (Datetime.add_minutes slot BLOCK_MINUTES) = false
  ∨ ∃ hours, max_hours_per_day = Some hours
             ∧ hours * 60
               < day_minutes (Datetime.to_date slot) schedule + BLOCK_MINUTES.

(** Two results of the same kind, with related values. *)
Definition outcome_rel {A B} (R : A → B → Prop) (o1 : outcome A) (o2 : outcome B)
    : Prop :=
  match o1, o2 with
  | Ret a, Ret b => R a b
  | Raise e1, Raise e2 => e1 = e2
  | OutOfFuel, OutOfFuel => True
  | _, _ => False
  end.

Definition flow_rel {A B} (R : A → B → Prop) (r1 : flow A) (r2 : flow B) : Prop :=
  match r1, r2 with
  | Continue a, Continue b | Break a, Break b => R a b
  | _, _ => False
  end.

(** Loop variables that differ at most in the order of the blocks, the
    "todo" blocks being in the same order. *)
Definition same_blocks (s1 s2 : alloc) : Prop :=
  blocks s1 ≡ₚ blocks s2
  ∧ filter (λ b, ScheduledBlock.kind b = "todo") (blocks s1)
    = filter (λ b, ScheduledBlock.kind b = "todo") (blocks s2)
  ∧ day_todo_minutes s1 = day_todo_minutes s2
  ∧ remaining s1 = remaining s2.

(** [g] yields exactly the slots of the list, in that order, and is then
    exhausted. *)
Inductive drains : slot_gen → list datetime → Prop :=
| drains_nil g : gen_next g = Ret None → drains g []
| drains_cons g slot g' slots :
    gen_next g = Ret (Some (slot, g')) → drains g' slots →
    drains g (slot :: slots).

(** The grid of slot starts: on each of the [days] days from the day of
    [start_dt], one slot every [BLOCK_MINUTES] minutes from
    [study_start_hour]:00 for as long as the slot starts before
    [study_end_hour]:00. *)
Definition slots_per_day (study_start_hour study_end_hour : Z) : nat :=
  Z.to_nat (((study_end_hour - study_start_hour) * 60 + BLOCK_MINUTES - 1)
            / BLOCK_MINUTES).

Definition grid_slot (start_dt : datetime) (study_start_hour : Z) (d : Z) (k : nat)
    : datetime :=
  day_base start_dt d + study_start_hour * Datetime.US_PER_HOUR
  + Z.of_nat k * (BLOCK_MINUTES * Datetime.US_PER_MINUTE).

Definition day_slots (start_dt : datetime) (study_start_hour study_end_hour : Z)
    (d : Z) : list datetime :=
  grid_slot start_dt study_start_hour d
    <$> seq 0 (slots_per_day study_start_hour study_end_hour).

Definition slot_grid (start_dt : datetime) (days study_start_hour study_end_hour : Z)
    : list datetime :=
  concat (day_slots start_dt study_start_hour study_end_hour <$> seqZ 0 days).

(** A generator object made by [_iter_study_slots] with these arguments. *)
Definition tuned_to (start_dt : datetime) (study_start_hour study_end_hour : Z)
    (g : slot_gen) : Prop :=
  g_start_dt g = start_dt
  ∧ g_study_start_hour g = study_start_hour
  ∧ g_study_end_hour g = study_end_hour.

(** What a first step produces when the slots still to come are [slots]. *)
Definition steps_to (r : outcome (option (datetime * slot_gen)))
    (slots : list datetime) : Prop :=
  match slots with
  | [] => r = Ret None
  | slot :: slots' => ∃ g', r = Ret (Some (slot, g')) ∧ drains g' slots'
  end.

(** *** app.py: the todos that were not placed in full

    [build_schedule] assigns the normalized estimate to the todo objects of
    [parsed], so what app.py reads after the call is [todos_after_call].
    A row of the table keeps the todo and the three numbers shown for it;
    [t.estimated_time_minutes or 0] is the estimate itself, the field being
    an [int].  [now] is app.py's own, later reading of the clock. *)
Definition todos_after_call (parsed : ParsedInput.t) : list TodoTask.t :=
  normalize_estimate <$> ParsedInput.todos parsed.

Record shortfall := Shortfall {
  sf_todo : TodoTask.t;
  sf_estimate : Z;
  sf_scheduled : Z;
  sf_missing : Z
}.

Definition report_row (now : datetime) (schedule : list ScheduledBlock.t)
    (t : TodoTask.t) : option shortfall :=
  if TodoTask.deadline t <=? now then None
  else
    let est := TodoTask.estimated_time_minutes t in
    let done := scheduled (TodoTask.title t) schedule in
    if done <? est then Some (Shortfall t est done (est - done)) else None.

Definition unschedulable (now : datetime) (todos : list TodoTask.t)
    (schedule : list ScheduledBlock.t) : list shortfall :=
  omap (report_row now schedule) todos.

(** *** ics_export.py

    [strftime("%Y%m%dT%H%M%S")]: the civil date of a day number by the
    era/day-of-era computation that [Datetime.day_of_month] uses, then the
    clock time.  The month, the day and the clock fields are printed with
    two digits, the year as a decimal number (four digits from year 1000
    on; before that the C libraries differ, glibc prints the number as it
    is).  The fraction of a second is not printed. *)
Definition year_month_day (d : date) : Z * Z * Z :=
  let z := d + 306 in
  let era := z / 146097 in
  let doe := z mod 146097 in
  let yoe := (doe - doe / 1460 + doe / 36524 - doe / 146096) / 365 in
  let doy := doe - (365 * yoe + yoe / 4 - yoe / 100) in
  let mp := (5 * doy + 2) / 153 in
  let day := doy - (153 * mp + 2) / 5 + 1 in
  let month := if mp <? 10 then mp + 3 else mp - 9 in
  let year := yoe + era * 400 + (if month <=? 2 then 1 else 0) in
  (year, month, day).

Definition minute_of (dt : datetime) : Z :=
  (dt mod Datetime.US_PER_HOUR) / Datetime.US_PER_MINUTE.

Definition second_of (dt : datetime) : Z :=
  (dt mod Datetime.US_PER_MINUTE) / 1000000.

(** [%02d] of a number from 0 to 99. *)
Definition two_digits (n : Z) : string :=
  if n <? 10 then "0" +:+ pretty n else pretty n.

Definition strftime_basic (dt : datetime) : string :=
  let '(year, month, day) := year_month_day (Datetime.to_date dt) in
  pretty year +:+ two_digits month +:+ two_digits day +:+ "T"
  +:+ two_digits (Datetime.hour dt) +:+ two_digits (minute_of dt)
  +:+ two_digits (second_of dt).

(** *** Cram mode on the calendar

    The capacity estimate of the cram branch with the days counted on the
    calendar: the daily limit for every full day strictly between the slot
    and the deadline, the hours of the window left on the slot's day from
    the hour of the slot, and the hours of the window before the hour of
    the deadline on its day.  The scan for occupied slots runs over the
    window of every day from the slot's day to the deadline's day. *)
Definition same_month (a b : datetime) : Prop :=
  (year_month_day (Datetime.to_date a)).1 = (year_month_day (Datetime.to_date b)).1.

Definition days_between (slot_start deadline : datetime) : Z :=
  Datetime.to_date deadline - Datetime.to_date slot_start - 1.

Definition calendar_capacity (cap study_start_hour study_end_hour : Z)
    (todo : TodoTask.t) (slot_start : datetime) : Z :=
  days_between slot_start (TodoTask.deadline todo) * cap
  + Z.max (study_end_hour - Datetime.hour slot_start) 0 * 60
  + Z.max (Datetime.hour (TodoTask.deadline todo) - study_start_hour) 0 * 60.


(** *** Priority precedence, read as a guarantee

    Of two todos with different priority numbers, the one with the smaller
    number, if still due, has its (normalized) estimate met as soon as the
    other is given a slot that starts before its deadline. *)
Definition served_by_priority (now : datetime) (parsed : ParsedInput.t)
    (out : list ScheduledBlock.t) : Prop :=
  ∀ a b pa pb,
    a ∈ ParsedInput.todos parsed → b ∈ ParsedInput.todos parsed →
    TodoTask.priority a = Some pa → TodoTask.priority b = Some pb → pa < pb →
    now < TodoTask.deadline a →
    (∃ x, x ∈ out ∧ ScheduledBlock.kind x = "todo"
          ∧ ScheduledBlock.title x = TodoTask.title b
          ∧ ScheduledBlock.start x < TodoTask.deadline a) →
    TodoTask.estimated_time_minutes (normalize_estimate a)
    ≤ scheduled (TodoTask.title a) out.

Definition CAL_TZ : string := "Asia/Taipei".

Definition CRLF : string :=
  String (Ascii.ascii_of_nat 13) (String (Ascii.ascii_of_nat 10) EmptyString).

Definition ics_header : list string :=
  [ "BEGIN:VCALENDAR";
    "VERSION:2.0";
    "PRODID:-//HW Scheduler//TW//";
    "CALSCALE:GREGORIAN";
    "METHOD:PUBLISH" ].

(** [f"{idx}-{b.start.strftime('%Y%m%dT%H%M%S')}@hwscheduler"] *)
Definition event_uid (idx : nat) (b : ScheduledBlock.t) : string :=
  pretty idx +:+ "-" +:+ strftime_basic (ScheduledBlock.start b) +:+ "@hwscheduler".

(** The nine lines of one [VEVENT]. *)
Definition vevent (dtstamp : string) (idx : nat) (b : ScheduledBlock.t)
    : list string :=
  let dtstart_local := strftime_basic (ScheduledBlock.start b) in
  let dtend_local := strftime_basic (ScheduledBlock.end_ b) in
  let uid := event_uid idx b in
  let desc :=
    if bool_decide (ScheduledBlock.kind b = "fixed")
    then "固定行程" else "作業/複習" in
  let categories :=
    if bool_decide (ScheduledBlock.kind b = "fixed") then "Fixed" else "Task" in
  [ "BEGIN:VEVENT";
    "UID:" +:+ uid;
    "DTSTAMP:" +:+ dtstamp;
    "DTSTART;TZID=" +:+ CAL_TZ +:+ ":" +:+ dtstart_local;
    "DTEND;TZID=" +:+ CAL_TZ +:+ ":" +:+ dtend_local;
    "SUMMARY:" +:+ ScheduledBlock.title b;
    "DESCRIPTION:" +:+ desc;
    "CATEGORIES:" +:+ categories;
    "END:VEVENT" ].

(** [lines] before the join; [utcnow] stands for the reading of
    [datetime.utcnow()]. *)
Definition ics_lines (utcnow : datetime) (blocks : list ScheduledBlock.t)
    : list string :=
  let dtstamp := strftime_basic utcnow +:+ "Z" in
  ics_header ++ concat (imap (vevent dtstamp) blocks) ++ ["END:VCALENDAR"].

Definition schedule_to_ics (utcnow : datetime) (blocks : list ScheduledBlock.t)
    : string :=
  String.concat CRLF (ics_lines utcnow blocks).

(** Each of the two calls of [schedule_to_ics] reads the clock. *)
Definition split_schedule_to_ics_for_google (utcnow1 utcnow2 : datetime)
    (blocks : list ScheduledBlock.t) : string * string :=
  let fixed_blocks := filter (λ b, ScheduledBlock.kind b = "fixed") blocks in
  let todo_blocks := filter (λ b, ScheduledBlock.kind b = "todo") blocks in
  let fixed_ics := schedule_to_ics utcnow1 fixed_blocks in
  let todo_ics := schedule_to_ics utcnow2 todo_blocks in
  (fixed_ics, todo_ics).

(** A string without ["-"]. *)
Fixpoint dash_free (s : string) : Prop :=
  match s with
  | EmptyString => True
  | String c s' => c ≠ "-"%char ∧ dash_free s'
  end.

(** *** llm_parser.py: the cut between the outer braces

    [_parse_with_groq] asks a model over the network; what is modelled is
    the cut it makes in the reply: [raw.find("{")], [raw.rfind("}")], with
    [None] for Python's [-1], and the slice [raw[first : last + 1]].  A
    Python string is taken as the string of its UTF-8 bytes, among which a
    brace stands for nothing but itself. *)
Fixpoint find_char (c : ascii) (s : string) : option nat :=
  match s with
  | EmptyString => None
  | String a s' => if Ascii.eqb a c then Some 0%nat else S <$> find_char c s'
  end.

Fixpoint rfind_char (c : ascii) (s : string) : option nat :=
  match s with
  | EmptyString => None
  | String a s' =>
      match rfind_char c s' with
      | Some i => Some (S i)
      | None => if Ascii.eqb a c then Some 0%nat else None
      end
  end.

Definition json_str (raw : string) : option string :=
  match find_char "{" raw, rfind_char "}" raw with
  | Some first, Some last => Some (String.substring first (S last - first) raw)
  | _, _ => None
  end.

(** *** launcher.py: where app.py is looked for

    The launcher's surroundings are parameters: [path_join] and
    [path_exists] stand for [os.path.join] and [os.path.exists], and the
    arguments of [_find_project_dir] for [sys.frozen], [sys._MEIPASS],
    [os.path.dirname(sys.executable)] and the directory of launcher.py. *)
Section Launcher.
Variables (path_join : string → string → string) (path_exists : string → bool).

(** [if meipass:] holds of a string that is not empty. *)
Definition candidates (meipass : option string) (exe_dir : string) : list string :=
  match meipass with
  | Some m => if bool_decide (m = EmptyString) then [] else [m]
  | None => []
  end
  ++ [exe_dir; path_join exe_dir "_internal"].

(** [for c in candidates: if os.path.exists(...): return c] *)
Fixpoint first_with_app (cs : list string) : option string :=
  match cs with
  | [] => None
  | c :: cs' =>
      if path_exists (path_join c "app.py") then Some c else first_with_app cs'
  end.

Definition _find_project_dir (frozen : bool) (meipass : option string)
    (exe_dir here : string) : string :=
  if frozen then default exe_dir (first_with_app (candidates meipass exe_dir))
  else here.

(** The file [main] hands to streamlit; [None] when it reports that
    app.py is missing and returns. *)
Definition main_app_path (frozen : bool) (meipass : option string)
    (exe_dir here : string) : option string :=
  let project_dir := _find_project_dir frozen meipass exe_dir here in
  let app_path := path_join project_dir "app.py" in
  if path_exists app_path then Some app_path else None.

End Launcher.

(** *** Further samples

    A seminar that overlaps the lecture, three hours of work due on Monday
    night, and the two together with the lecture. *)
Definition seminar : FixedEvent.t :=
  FixedEvent.mk "seminar" (Datetime.at_time Sample.monday 19 30)
    (Datetime.at_time Sample.monday 20 30).

Definition thesis : TodoTask.t :=
  Sample.todo "thesis" (Datetime.at_time Sample.monday 23 59) 180 (Some 1) false.

Definition crowded : ParsedInput.t :=
  ParsedInput.mk [thesis] [Sample.lecture; seminar].

(** Two todos after the same evening hours: a midterm on Tuesday at 20:00
    that needs two and a half hours, and a worksheet of two hours. *)
Definition midterm : TodoTask.t :=
  Sample.todo "midterm" (Datetime.at_time (Sample.monday + 1) 20 0) 150 (Some 1) true.

Definition worksheet : TodoTask.t :=
  Sample.todo "worksheet" (Datetime.at_time (Sample.monday + 2) 23 59) 120 (Some 2)
    false.

Definition rivals : ParsedInput.t := ParsedInput.mk [worksheet; midterm] [].

(** What the engine makes of them in the window 19:00 to 21:00 with a
    daily limit of two hours, in cram mode. *)
Definition rivals_schedule : list ScheduledBlock.t :=
  [ Sample.block "worksheet" Sample.monday 19 0 "todo";
    Sample.block "worksheet" Sample.monday 19 30 "todo";
    Sample.block "midterm" Sample.monday 20 0 "todo";
    Sample.block "midterm" Sample.monday 20 30 "todo";
    Sample.block "midterm" (Sample.monday + 1) 19 0 "todo";
    Sample.block "midterm" (Sample.monday + 1) 19 30 "todo";
    Sample.block "worksheet" (Sample.monday + 1) 20 0 "todo";
    Sample.block "worksheet" (Sample.monday + 1) 20 30 "todo" ].

(** The same without cram mode. *)
Definition rivals_plain_schedule : list ScheduledBlock.t :=
  [ Sample.block "midterm" Sample.monday 19 0 "todo";
    Sample.block "midterm" Sample.monday 19 30 "todo";
    Sample.block "midterm" Sample.monday 20 0 "todo";
    Sample.block "midterm" Sample.monday 20 30 "todo";
    Sample.block "midterm" (Sample.monday + 1) 19 0 "todo";
    Sample.block "worksheet" (Sample.monday + 1) 19 30 "todo";
    Sample.block "worksheet" (Sample.monday + 1) 20 0 "todo";
    Sample.block "worksheet" (Sample.monday + 1) 20 30 "todo";
    Sample.block "worksheet" (Sample.monday + 2) 19 0 "todo" ].

Definition crowded_schedule : list ScheduledBlock.t :=
  [ fixed_block Sample.lecture;
    fixed_block seminar;
    Sample.block "thesis" Sample.monday 20 30 "todo";
    Sample.block "thesis" Sample.monday 21 0 "todo";
    Sample.block "thesis" Sample.monday 21 30 "todo" ].


(** ** Properties *)

(** *** Results *)

Lemma bind_Ret {A B} (m : outcome A) (f : A → outcome B) (b : B) :
  m ≫= f = Ret b → ∃ a, m = Ret a ∧ f a = Ret b.
Proof. destruct m as [a| |]; [eauto | discriminate | discriminate]. Qed.

Lemma bind_Ret_l {A B} (a : A) (f : A → outcome B) : Ret a ≫= f = f a.
Proof. done. Qed.

(** *** Sorting *)

Lemma insert_by_perm {A K} (lt : K → K → outcome bool) (key : A → K) x l s :
  insert_by lt key x l = Ret s → s ≡ₚ x :: l.
Proof.
  revert s. induction l as [|y l IH]; intros s H; simpl in H.
  - by injection H as <-.
  - apply bind_Ret in H as ([] & _ & H).
    + apply bind_Ret in H as (s' & Hs' & H). injection H as <-.
      rewrite (IH _ Hs'). apply Permutation_swap.
    + by injection H as <-.
Qed.

Lemma sorted_by_perm {A K} (lt : K → K → outcome bool) (key : A → K) l s :
  sorted_by lt key l = Ret s → s ≡ₚ l.
Proof.
  revert s. induction l as [|x l IH]; intros s H; simpl in H.
  - by injection H as <-.
  - apply bind_Ret in H as (s' & Hs' & H).
    rewrite (insert_by_perm _ _ _ _ _ H). by rewrite (IH _ Hs').
Qed.

Lemma insert_by_int_total {A} (key : A → Z) x l :
  ∃ s, insert_by lt_int key x l = Ret s.
Proof.
  induction l as [|y l [s IH]]; simpl; [eauto|].
  destruct (key y <? key x); simpl; [rewrite IH|]; simpl; eauto.
Qed.

Lemma sorted_by_int_total {A} (key : A → Z) l :
  ∃ s, sorted_by lt_int key l = Ret s.
Proof.
  induction l as [|x l [s IH]]; simpl; [eauto|].
  rewrite IH. simpl. apply insert_by_int_total.
Qed.

Lemma insert_by_int_sorted {A} (key : A → Z) x l s :
  StronglySorted (λ a b, key a ≤ key b) l →
  insert_by lt_int key x l = Ret s →
  StronglySorted (λ a b, key a ≤ key b) s.
Proof.
  revert s. induction l as [|y l IH]; intros s Hl H; simpl in H.
  - injection H as <-. repeat constructor.
  - apply StronglySorted_inv in Hl as [Hl Hy].
    unfold lt_int in H. simpl in H.
    destruct (Z.ltb_spec (key y) (key x)) as [Hlt|Hge].
    + apply bind_Ret in H as (s' & Hs' & H). injection H as <-.
      constructor; [by eapply IH|].
      rewrite (insert_by_perm _ _ _ _ _ Hs'). constructor; [lia | done].
    + injection H as <-. constructor; [by constructor|].
      constructor; [done|]. eapply Forall_impl; [exact Hy|]. simpl. lia.
Qed.

Lemma sorted_by_int_sorted {A} (key : A → Z) l s :
  sorted_by lt_int key l = Ret s → StronglySorted (λ a b, key a ≤ key b) s.
Proof.
  revert s. induction l as [|x l IH]; intros s H; simpl in H.
  - injection H as <-. constructor.
  - apply bind_Ret in H as (s' & Hs' & H).
    eapply insert_by_int_sorted; [|exact H]. by apply IH.
Qed.

Lemma insert_by_priority_sorted x l s :
  StronglySorted goes_before l →
  Forall (λ y, TodoTask.deadline x ≤ TodoTask.deadline y) l →
  insert_by lt_optional_int TodoTask.priority x l = Ret s →
  StronglySorted goes_before s.
Proof.
  revert s. induction l as [|y l IH]; intros s Hl Hx H; simpl in H.
  - injection H as <-. repeat constructor.
  - apply StronglySorted_inv in Hl as [Hl Hy].
    apply Forall_cons in Hx as [Hxy Hx].
    apply bind_Ret in H as (b & Hb & H). unfold lt_optional_int in Hb.
    destruct (TodoTask.priority y) as [py|] eqn:Epy; [|discriminate].
    destruct (TodoTask.priority x) as [px|] eqn:Epx; [|discriminate].
    injection Hb as <-.
    destruct (Z.ltb_spec py px) as [Hlt|Hge].
    + apply bind_Ret in H as (s' & Hs' & H). injection H as <-.
      constructor; [by eapply IH|].
      rewrite (insert_by_perm _ _ _ _ _ Hs'). constructor; [|done].
      exists py, px. auto.
    + injection H as <-.
      constructor; [by constructor|].
      constructor; [exists px, py; split_and!; auto; lia|].
      apply Forall_forall. intros z Hz.
      rewrite Forall_forall in Hy, Hx.
      destruct (Hy z Hz) as (py' & pz & Epy' & Epz & Hord).
      specialize (Hx z Hz). exists px, pz. split_and!; auto.
      assert (py' = py) by congruence. lia.
Qed.

Lemma sorted_by_priority_sorted l s :
  StronglySorted (λ a b, TodoTask.deadline a ≤ TodoTask.deadline b) l →
  sorted_by lt_optional_int TodoTask.priority l = Ret s →
  StronglySorted goes_before s.
Proof.
  revert s. induction l as [|x l IH]; intros s Hl H; simpl in H.
  - injection H as <-. constructor.
  - apply StronglySorted_inv in Hl as [Hl Hx].
    apply bind_Ret in H as (s' & Hs' & H).
    eapply insert_by_priority_sorted; [by apply IH| |exact H].
    by rewrite (sorted_by_perm _ _ _ _ Hs').
Qed.

(** *** The slot generator *)

Lemma list_slots_S fuel g :
  list_slots (S fuel) g
  = gen_next g ≫= λ nx,
      match nx with
      | None => Ret []
      | Some (slot, g') => list_slots fuel g' ≫= λ slots, Ret (slot :: slots)
      end.
Proof. done. Qed.

Lemma to_date_add_days dt d :
  Datetime.to_date (Datetime.add_days dt d) = Datetime.to_date dt + d.
Proof.
  unfold Datetime.to_date, Datetime.add_days. rewrite Z.div_add; [done|].
  unfold Datetime.US_PER_DAY. lia.
Qed.

Lemma to_date_on_day c x :
  c * Datetime.US_PER_DAY ≤ x < c * Datetime.US_PER_DAY + Datetime.US_PER_DAY →
  Datetime.to_date x = c.
Proof.
  unfold Datetime.to_date, Datetime.US_PER_DAY. intros H.
  Z.to_euclidean_division_equations. lia.
Qed.

Lemma hour_on_day c x e :
  c * Datetime.US_PER_DAY ≤ x < c * Datetime.US_PER_DAY + Datetime.US_PER_DAY →
  Datetime.hour x < e ↔ x < c * Datetime.US_PER_DAY + e * Datetime.US_PER_HOUR.
Proof.
  unfold Datetime.hour, Datetime.US_PER_DAY, Datetime.US_PER_HOUR. intros H.
  Z.to_euclidean_division_equations. lia.
Qed.

Lemma replace_hour_Ret dt h day :
  replace_hour dt h = Ret day →
  0 ≤ h ≤ 23
  ∧ day = Datetime.to_date dt * Datetime.US_PER_DAY + h * Datetime.US_PER_HOUR.
Proof.
  unfold replace_hour.
  destruct (Z.leb_spec 0 h), (Z.leb_spec h 23); simpl;
    try (destruct (_ && _); discriminate); intros [= <-]; lia.
Qed.

Section Generator.
Variables (start_dt : datetime) (days sh eh : Z).
Hypothesis HB : 0 < BLOCK_MINUTES ≤ 60.
Hypothesis Heh : eh ≤ 23.

Local Abbreviation inv := (gen_inv start_dt days sh eh).
Local Abbreviation floor := (gen_floor start_dt).

Ltac units :=
  unfold day_base, Datetime.combine_midnight, Datetime.add_minutes,
    Datetime.US_PER_DAY, Datetime.US_PER_HOUR, Datetime.US_PER_MINUTE in *.

Lemma iter_study_slots_inv : inv (_iter_study_slots start_dt days sh eh).
Proof. unfold gen_inv. simpl. split_and!; try done. lia. Qed.

Lemma slot_of_day_bounds d slot :
  0 ≤ sh →
  slot_of_day start_dt sh eh d slot →
  day_base start_dt d ≤ slot
  ∧ slot + BLOCK_MINUTES * Datetime.US_PER_MINUTE
    < day_base start_dt d + Datetime.US_PER_DAY.
Proof. intros Hsh (k & Hk & -> & Hlt). units. nia. Qed.

Lemma next_day_step g left d slot g' :
  g_start_dt g = start_dt → g_study_start_hour g = sh → g_study_end_hour g = eh →
  0 ≤ d → d + Z.of_nat left = Z.max 0 days →
  next_day g left d = Ret (Some (slot, g')) →
  in_window start_dt days sh eh slot ∧ inv g'
  ∧ day_base start_dt d ≤ slot
  ∧ floor g' = slot + BLOCK_MINUTES * Datetime.US_PER_MINUTE
  ∧ 0 ≤ sh ≤ 23.
Proof.
  intros Hs Hsh Hehg. revert d.
  induction left as [|left IH]; intros d Hd Hleft H; simpl in H; [discriminate|].
  apply bind_Ret in H as (day & Hday & H).
  apply replace_hour_Ret in Hday as [Hrange ->].
  rewrite Hs, Hsh, to_date_add_days in *. rewrite Hehg in H.
  set (day := (Datetime.to_date start_dt + d) * Datetime.US_PER_DAY
              + sh * Datetime.US_PER_HOUR) in *.
  assert ((Datetime.to_date start_dt + d) * Datetime.US_PER_DAY ≤ day
          < (Datetime.to_date start_dt + d) * Datetime.US_PER_DAY
            + Datetime.US_PER_DAY) as Hon.
  { subst day. units. lia. }
  destruct (Z.ltb_spec (Datetime.hour day) eh) as [Hlt|Hge].
  - injection H as <- <-.
    apply (hour_on_day _ _ _ Hon) in Hlt.
    assert (slot_of_day start_dt sh eh d day) as Hslot.
    { exists 0. subst day. units. split_and!; lia. }
    split_and!.
    + exists d. split; [lia | done].
    + unfold gen_inv, suspend. simpl. split_and!; try done; try lia.
      replace (d + 1 - 1) with d by lia.
      replace (Datetime.add_minutes day BLOCK_MINUTES
               - BLOCK_MINUTES * Datetime.US_PER_MINUTE) with day
        by (units; lia).
      done.
    + subst day. units. lia.
    + unfold gen_floor, suspend. simpl. units. lia.
    + lia.
    + lia.
  - destruct (IH (d + 1)) as (Hw & Hinv & Hfloor & Hnext & _);
      [lia | lia | done |].
    split_and!; try done; try lia. units. lia.
Qed.

Lemma gen_next_step g slot g' :
  inv g →
  gen_next g = Ret (Some (slot, g')) →
  in_window start_dt days sh eh slot ∧ inv g'
  ∧ floor g ≤ slot
  ∧ floor g' = slot + BLOCK_MINUTES * Datetime.US_PER_MINUTE
  ∧ 0 ≤ sh ≤ 23.
Proof.
  intros (Hs & Hsh & Hehg & Hd & Hleft & Hday) H.
  unfold gen_next in H. unfold gen_floor at 1.
  destruct (g_day g) as [day|];
    [|by apply (next_day_step g (g_left g) (g_d g))].
  destruct Hday as (Hd1 & Hrange & Hprev).
  pose proof (slot_of_day_bounds _ _ (proj1 Hrange) Hprev) as [Hlo Hhi].
  rewrite Hehg in H.
  destruct (Z.ltb_spec (Datetime.hour day) eh) as [Hlt|Hge].
  - injection H as <- <-.
    assert (slot_of_day start_dt sh eh (g_d g - 1) day) as Hslot.
    { destruct Hprev as (k & Hk & Hprev & _). exists (k + 1).
      split_and!; [lia | lia |].
      apply (hour_on_day (Datetime.to_date start_dt + (g_d g - 1))) in Hlt;
        [done|]. units. lia. }
    split_and!.
    + exists (g_d g - 1). split; [lia | done].
    + unfold gen_inv, suspend. simpl. split_and!; try done; try lia.
      replace (Datetime.add_minutes day BLOCK_MINUTES
               - BLOCK_MINUTES * Datetime.US_PER_MINUTE) with day
        by (units; lia).
      done.
    + lia.
    + unfold gen_floor, suspend. simpl. units. lia.
    + lia.
    + lia.
  - apply next_day_step in H as (Hw & Hinv & Hfloor & Hnext & _); try done.
    split_and!; try done; try lia. units. lia.
Qed.

Lemma gen_reach_inv g : gen_reach (_iter_study_slots start_dt days sh eh) g → inv g.
Proof.
  induction 1 as [|g slot g' _ IH Hnext]; [apply iter_study_slots_inv|].
  by apply (gen_next_step _ _ _ IH) in Hnext as (_ & ? & _).
Qed.

Lemma yields_in_window slot :
  yields (_iter_study_slots start_dt days sh eh) slot →
  in_window start_dt days sh eh slot ∧ 0 ≤ sh ≤ 23.
Proof.
  intros (g & g' & Hg & Hnext). apply gen_reach_inv in Hg.
  by apply (gen_next_step _ _ _ Hg) in Hnext as (? & _ & _ & _ & ?).
Qed.

Lemma in_window_horizon slot :
  0 ≤ sh →
  in_window start_dt days sh eh slot →
  day_base start_dt 0 ≤ slot < day_base start_dt days.
Proof.
  intros Hsh (d & Hd & Hslot).
  apply slot_of_day_bounds in Hslot as [Hlo Hhi]; [|done]. units. nia.
Qed.

(** With a block length that divides the hour, a slot's block ends
    inside the window. *)
Lemma slot_of_day_block_end d slot :
  (BLOCK_MINUTES | 60) →
  slot_of_day start_dt sh eh d slot →
  slot + BLOCK_MINUTES * Datetime.US_PER_MINUTE
  ≤ day_base start_dt d + eh * Datetime.US_PER_HOUR.
Proof.
  intros [c Hc] (k & Hk & -> & Hlt).
  assert (k < (eh - sh) * c) as Hk'.
  { apply (Z.mul_lt_mono_pos_r (BLOCK_MINUTES * Datetime.US_PER_MINUTE));
      [units; lia|].
    units. nia. }
  assert ((k + 1) * (BLOCK_MINUTES * Datetime.US_PER_MINUTE)
          ≤ ((eh - sh) * c) * (BLOCK_MINUTES * Datetime.US_PER_MINUTE)) as Hle.
  { apply Z.mul_le_mono_nonneg_r; [units; lia | lia]. }
  units. nia.
Qed.

Lemma next_day_total g left d :
  0 ≤ sh ≤ 23 → g_study_start_hour g = sh → ∃ r, next_day g left d = Ret r.
Proof.
  intros Hsh Hg. revert d. induction left as [|left IH]; intros d; simpl; [eauto|].
  unfold replace_hour. rewrite Hg.
  destruct (Z.leb_spec 0 sh); [|lia]. destruct (Z.leb_spec sh 23); [|lia]. simpl.
  destruct (_ <? _); eauto.
Qed.

Lemma gen_next_total g : 0 ≤ sh ≤ 23 → inv g → ∃ r, gen_next g = Ret r.
Proof.
  intros Hsh (_ & Hg & _). unfold gen_next.
  destruct (g_day g) as [day|]; [destruct (_ <? _); [eauto|]|];
    by apply next_day_total.
Qed.

Lemma gen_floor_horizon g :
  inv g → floor g ≤ day_base start_dt (Z.max 0 days).
Proof.
  intros (_ & _ & _ & Hd & Hleft & Hday). unfold gen_floor.
  destruct (g_day g) as [day|].
  - destruct Hday as (Hd1 & Hrange & Hprev).
    apply slot_of_day_bounds in Hprev as [_ Hhi]; [|lia]. units. nia.
  - units. nia.
Qed.

Lemma list_slots_total n g :
  0 ≤ sh ≤ 23 → inv g →
  day_base start_dt (Z.max 0 days) - floor g ≤ Z.of_nat n →
  ∃ slots,
    list_slots (S n) g = Ret slots
    ∧ StronglySorted Z.lt slots
    ∧ Forall (λ slot, floor g ≤ slot ∧ in_window start_dt days sh eh slot) slots.
Proof.
  intros Hsh. revert g. induction n as [|n IH]; intros g Hg Hn.
  - destruct (gen_next_total g Hsh Hg) as [[[slot g']|] Hnext].
    + pose proof (gen_next_step _ _ _ Hg Hnext) as (_ & Hg' & Hlo & Hfl & _).
      pose proof (gen_floor_horizon _ Hg'). units. lia.
    + exists []. simpl. rewrite Hnext. simpl. by split_and!; constructor.
  - destruct (gen_next_total g Hsh Hg) as [[[slot g']|] Hnext].
    + pose proof (gen_next_step _ _ _ Hg Hnext) as (Hw & Hg' & Hlo & Hfl & _).
      destruct (IH g' Hg') as (slots & Hslots & Hsorted & Hall).
      { units. lia. }
      exists (slot :: slots). split_and!.
      * rewrite list_slots_S, Hnext, bind_Ret_l. cbv beta iota.
        by rewrite Hslots.
      * constructor; [done|]. eapply Forall_impl; [exact Hall|].
        simpl. intros s [Hs _]. units. lia.
      * constructor; [done|]. eapply Forall_impl; [exact Hall|].
        simpl. intros s [Hs ?]. split; [|done]. units. lia.
    + exists []. simpl. rewrite Hnext. simpl. by split_and!; constructor.
Qed.

End Generator.

Lemma list_slots_more fuel fuel' g slots :
  list_slots fuel g = Ret slots → (fuel ≤ fuel')%nat →
  list_slots fuel' g = Ret slots.
Proof.
  revert fuel' g slots.
  induction fuel as [|fuel IH]; intros fuel' g slots H Hle; [discriminate|].
  destruct fuel' as [|fuel']; [lia|]. simpl in *.
  destruct (gen_next g) as [[[slot g']|]| |]; simpl in *; try done.
  apply bind_Ret in H as (slots' & Hslots' & H).
  rewrite (IH fuel' _ _ Hslots') by lia. done.
Qed.

Lemma hour_lt_24 dt : Datetime.hour dt < 24.
Proof.
  unfold Datetime.hour, Datetime.US_PER_DAY, Datetime.US_PER_HOUR.
  Z.to_euclidean_division_equations. lia.
Qed.

(** With an end hour of 24 or more the [while] test never fails: once a day
    has begun, the generator yields at every call. *)
Lemma list_slots_open_end fuel g day slots :
  24 ≤ g_study_end_hour g → g_day g = Some day → list_slots fuel g ≠ Ret slots.
Proof.
  revert g day slots.
  induction fuel as [|fuel IH]; intros g day slots Heh Hday H; [discriminate|].
  rewrite list_slots_S in H. unfold gen_next in H. rewrite Hday in H.
  pose proof (hour_lt_24 day).
  destruct (Z.ltb_spec (Datetime.hour day) (g_study_end_hour g)); [|lia].
  rewrite bind_Ret_l in H. apply bind_Ret in H as (slots' & H & _).
  by eapply IH in H.
Qed.

(** Inside a horizon that lies in the calendar, a slot and the end of the
    block that starts there lie in the calendar too: the sums the generator
    forms are all datetimes. *)
Lemma in_window_in_calendar start_dt days sh eh slot :
  0 < BLOCK_MINUTES ≤ 60 → 0 ≤ sh → eh ≤ 23 →
  horizon_in_calendar start_dt days →
  in_window start_dt days sh eh slot →
  in_calendar slot ∧ in_calendar (Datetime.add_minutes slot BLOCK_MINUTES).
Proof.
  intros HB Hsh Heh [[Hlo _] Hend] (d & Hd & Hslot).
  apply slot_of_day_bounds in Hslot as [Hlo' Hhi]; [|done..].
  assert (0 ≤ Datetime.to_date start_dt).
  { unfold Datetime.to_date, Datetime.US_PER_DAY.
    Z.to_euclidean_division_equations. lia. }
  unfold in_calendar, LAST_DAY, day_base, Datetime.combine_midnight,
    Datetime.add_minutes, Datetime.US_PER_DAY, Datetime.US_PER_HOUR,
    Datetime.US_PER_MINUTE in *.
  nia.
Qed.

(** C5, as the generator has it.  With a block of at most an hour, a start
    hour from 0 to 23, an end hour of at most 23 and a horizon that ends by
    9999-12-31, the last day of the calendar, the generator is exhausted
    after finitely many slots, in strictly ascending order, each inside the
    horizon of [days] days and inside the daily window, and each a datetime
    of the calendar together with the end of its block. *)
Theorem iter_study_slots_finite_ascending start_dt days study_start_hour
    study_end_hour :
  0 < BLOCK_MINUTES ≤ 60 →
  0 ≤ study_start_hour ≤ 23 →
  study_end_hour ≤ 23 →
  horizon_in_calendar start_dt days →
  ∃ fuel slots,
    (∀ fuel', (fuel ≤ fuel')%nat →
       list_slots fuel'
         (_iter_study_slots start_dt days study_start_hour study_end_hour)
       = Ret slots)
    ∧ StronglySorted Z.lt slots
    ∧ Forall
        (λ slot,
           day_base start_dt 0 ≤ slot < day_base start_dt days
           ∧ in_window start_dt days study_start_hour study_end_hour slot
           ∧ in_calendar slot
           ∧ in_calendar (Datetime.add_minutes slot BLOCK_MINUTES))
        slots.
Proof.
  intros HB Hsh Heh Hcal.
  pose (n := Z.to_nat (day_base start_dt (Z.max 0 days)
                       - gen_floor start_dt
                           (_iter_study_slots start_dt days study_start_hour
                              study_end_hour))).
  destruct (list_slots_total start_dt days study_start_hour study_end_hour
              HB Heh n _ Hsh
              (iter_study_slots_inv start_dt days study_start_hour study_end_hour))
    as (slots & Hslots & Hsorted & Hall); [lia|].
  exists (S n), slots. split_and!; [|done|].
  - intros fuel' Hle. by apply (list_slots_more (S n)).
  - eapply Forall_impl; [exact Hall|]. simpl. intros slot [_ Hw].
    split_and!; [| |done| |].
    + eapply in_window_horizon in Hw; [lia|exact HB|exact Heh|lia].
    + eapply in_window_horizon in Hw; [lia|exact HB|exact Heh|lia].
    + eapply in_window_in_calendar in Hw as [? _]; [done|done|lia|done|done].
    + eapply in_window_in_calendar in Hw as [_ ?]; [done|done|lia|done|done].
Qed.

(** *** Loops over the slot generator *)

Lemma for_slots_inv {St} (P : St → Prop) (body : datetime → St → outcome (flow St)) g0 :
  (∀ slot st r, yields g0 slot → P st → body slot st = Ret r → P (flow_state r)) →
  ∀ fuel g st st',
    gen_reach g0 g → P st → for_slots fuel body g st = Ret st' → P st'.
Proof.
  intros Hbody. induction fuel as [|fuel IH]; intros g st st' Hg Hst H; simpl in H.
  - discriminate.
  - apply bind_Ret in H as (nx & Hnx & H).
    destruct nx as [[slot g']|]; [|by injection H as <-].
    apply bind_Ret in H as (r & Hr & H).
    assert (P (flow_state r)) as Hr'.
    { eapply Hbody; [|exact Hst|exact Hr]. by exists g, g'. }
    destruct r as [st1|st1]; simpl in Hr'.
    + eapply IH; [|exact Hr'|exact H]. by eapply reach_next.
    + by injection H as <-.
Qed.

Lemma for_slots_ext {St} (body1 body2 : datetime → St → outcome (flow St)) :
  (∀ slot st, body1 slot st = body2 slot st) →
  ∀ fuel g st, for_slots fuel body1 g st = for_slots fuel body2 g st.
Proof.
  intros Hext. induction fuel as [|fuel IH]; intros g st; simpl; [done|].
  destruct (gen_next g) as [[[slot g']|]| |]; simpl; try done.
  rewrite Hext. destruct (body2 slot st) as [[st1|st1]| |]; simpl; auto.
Qed.

(** *** Intervals *)

Lemma intersects_sym a b : intersects a b → intersects b a.
Proof. intros (t & ? & ?). by exists t. Qed.

Lemma pairwise_apart_snoc bs x :
  pairwise_apart bs → Forall (λ a, ¬ intersects a x) bs → pairwise_apart (bs ++ [x]).
Proof.
  induction bs as [|b bs IH]; simpl; intros Hbs Hx.
  - split; [constructor | done].
  - destruct Hbs as [Hb Hbs]. apply Forall_cons in Hx as [Hbx Hx].
    split; [|by apply IH].
    apply Forall_app. split; [done|]. by repeat constructor.
Qed.

Lemma is_free_apart bs start end_ title kind :
  is_free bs start end_ = true →
  Forall (λ a, ¬ intersects a (ScheduledBlock.mk title start end_ kind)) bs.
Proof.
  unfold is_free. intros H. apply Forall_forall. intros a Ha.
  rewrite forallb_forall in H. specialize (H a).
  rewrite <- list_elem_of_In in H. specialize (H Ha).
  intros (t & ? & Ht). simpl in Ht. lia.
Qed.

Lemma pairwise_apart_perm bs bs' :
  bs ≡ₚ bs' → pairwise_apart bs → pairwise_apart bs'.
Proof.
  induction 1 as [|x l l' Hp IH|x y l|l l' l'' _ IH1 _ IH2]; simpl.
  - done.
  - intros [Hx Hl]. split; [by rewrite <- Hp | by apply IH].
  - intros [Hy [Hx Hl]]. apply Forall_cons in Hy as [Hyx Hy].
    split_and!; [|done|done].
    constructor; [|done]. intros Hxy. by apply Hyx, intersects_sym.
  - auto.
Qed.

Lemma pairwise_apart_lookup bs : pairwise_apart bs → non_overlapping bs.
Proof.
  induction bs as [|x bs IH]; intros Hbs i j a b Hij Ha Hb; [done|].
  destruct Hbs as [Hx Hbs]. rewrite Forall_forall in Hx.
  destruct i as [|i], j as [|j]; simpl in Ha, Hb; [done| | |].
  - injection Ha as <-. apply Hx. by eapply list_elem_of_lookup_2.
  - injection Hb as <-. intros Hab. apply intersects_sym in Hab.
    revert Hab. apply Hx. by eapply list_elem_of_lookup_2.
  - apply (IH Hbs i j); [congruence | done | done].
Qed.

Lemma non_overlapping_pairwise bs : non_overlapping bs → pairwise_apart bs.
Proof.
  induction bs as [|x bs IH]; intros Hbs; simpl; [done|]. split.
  - apply Forall_forall. intros a Ha.
    apply list_elem_of_lookup in Ha as [j Hj].
    by apply (Hbs 0%nat (S j)).
  - apply IH. intros i j a b Hij Ha Hb.
    apply (Hbs (S i) (S j)); [congruence | done | done].
Qed.

(** *** The tally per title *)

Lemma scheduled_foldl title bs (acc : gmap string Z) :
  default 0
    (foldl
       (λ acc b,
          if bool_decide (ScheduledBlock.kind b ≠ "todo") then acc
          else <[ScheduledBlock.title b :=
                   default 0 (acc !! ScheduledBlock.title b) + block_minutes b]> acc)
       acc bs !! title)
  = default 0 (acc !! title) + todo_minutes title bs.
Proof.
  revert acc. induction bs as [|b bs IH]; intros acc; simpl; [lia|].
  rewrite IH. clear IH.
  destruct (decide (ScheduledBlock.kind b = "todo")) as [Hk|Hk].
  - rewrite (bool_decide_eq_false_2 (ScheduledBlock.kind b ≠ "todo")) by tauto.
    destruct (decide (ScheduledBlock.title b = title)) as [Ht|Ht].
    + rewrite bool_decide_eq_true_2 by done.
      rewrite Ht, lookup_insert_eq. simpl. lia.
    + rewrite bool_decide_eq_false_2 by tauto.
      by rewrite lookup_insert_ne.
  - rewrite (bool_decide_eq_true_2 (ScheduledBlock.kind b ≠ "todo")) by done.
    rewrite bool_decide_eq_false_2 by tauto. done.
Qed.

Lemma scheduled_todo_minutes title bs : scheduled title bs = todo_minutes title bs.
Proof.
  unfold scheduled, scheduled_minutes_by_title.
  rewrite scheduled_foldl, lookup_empty. simpl. lia.
Qed.

Lemma todo_minutes_app title bs1 bs2 :
  todo_minutes title (bs1 ++ bs2) = todo_minutes title bs1 + todo_minutes title bs2.
Proof. induction bs1 as [|b bs1 IH]; simpl; lia. Qed.

Lemma todo_minutes_perm title bs bs' :
  bs ≡ₚ bs' → todo_minutes title bs = todo_minutes title bs'.
Proof. induction 1; simpl; lia. Qed.

Lemma todo_minutes_fixed title (events : list FixedEvent.t) :
  todo_minutes title (fixed_block <$> events) = 0.
Proof. induction events as [|e events IH]; csimpl; [done|]. by rewrite IH. Qed.

Lemma block_minutes_todo_block todo slot :
  block_minutes (todo_block todo slot) = BLOCK_MINUTES.
Proof.
  unfold block_minutes, todo_block, Datetime.add_minutes, Datetime.US_PER_MINUTE.
  simpl. Z.to_euclidean_division_equations. lia.
Qed.

Lemma todo_minutes_todo_blocks title todo (slots : list datetime) :
  todo_minutes title (todo_block todo <$> slots)
  = if bool_decide (TodoTask.title todo = title)
    then BLOCK_MINUTES * Z.of_nat (length slots) else 0.
Proof.
  induction slots as [|slot slots IH]; csimpl.
  - case_bool_decide; lia.
  - rewrite IH. fold (todo_block todo slot). rewrite block_minutes_todo_block.
    destruct (decide (TodoTask.title todo = title)) as [Ht|Ht].
    + rewrite !bool_decide_eq_true_2 by auto. lia.
    + rewrite !bool_decide_eq_false_2 by tauto. lia.
Qed.

Lemma title_budget_perm title todos todos' :
  todos ≡ₚ todos' → title_budget title todos = title_budget title todos'.
Proof. induction 1; simpl; lia. Qed.

Lemma whole_blocks_bound n minutes :
  0 < BLOCK_MINUTES →
  BLOCK_MINUTES * n < minutes + BLOCK_MINUTES →
  BLOCK_MINUTES * n ≤ whole_blocks minutes.
Proof.
  intros HB Hn. unfold whole_blocks.
  assert (n ≤ (minutes + BLOCK_MINUTES - 1) / BLOCK_MINUTES); [|nia].
  apply Z.div_le_lower_bound; lia.
Qed.

Lemma whole_blocks_exact minutes :
  0 < BLOCK_MINUTES → (BLOCK_MINUTES | minutes) → whole_blocks minutes = minutes.
Proof.
  intros HB [k ->]. unfold whole_blocks.
  replace (k * BLOCK_MINUTES + BLOCK_MINUTES - 1)
    with ((BLOCK_MINUTES - 1) + k * BLOCK_MINUTES) by lia.
  rewrite Z.div_add by lia. rewrite Z.div_small by lia. lia.
Qed.

Lemma whole_blocks_lt minutes :
  0 < BLOCK_MINUTES → whole_blocks minutes < minutes + BLOCK_MINUTES.
Proof.
  intros HB. unfold whole_blocks.
  pose proof (Z.mul_div_le (minutes + BLOCK_MINUTES - 1) BLOCK_MINUTES HB). lia.
Qed.

(** *** One candidate slot *)

Section Body.
Variables (fuel : nat) (max_minutes_per_day : option Z).
Variables (study_start_hour study_end_hour : Z) (cram_or_not : bool).

Lemma todo_body_cases todo slot st r :
  todo_body fuel max_minutes_per_day study_start_hour study_end_hour cram_or_not
    todo slot st = Ret r →
  r = Break st ∨ r = Continue st
  ∨ (r = Continue (commit max_minutes_per_day todo slot st)
     ∧ slot < TodoTask.deadline todo
     ∧ 0 < remaining st
     ∧ is_free (blocks st) slot (Datetime.add_minutes slot BLOCK_MINUTES) = true).
Proof.
  intros H. apply bind_Ret in H as (v & Hv & H).
  destruct v; injection H as <-; auto.
  right; right. split; [done|].
  unfold slot_verdict in Hv.
  destruct (Z.geb_spec slot (TodoTask.deadline todo)); [discriminate|].
  destruct (Z.leb_spec (remaining st) 0); [discriminate|].
  apply bind_Ret in Hv as (defer & _ & Hv).
  destruct defer; [discriminate|].
  destruct (over_daily_limit _ _ _); [discriminate|].
  destruct (is_free _ _ _) eqn:Hfree; [|discriminate].
  split_and!; [lia | lia | done].
Qed.
End Body.

Section Loops.
Variables (fuel : nat) (now : datetime) (days : Z) (start_base : datetime).
Variables (max_minutes_per_day : option Z).
Variables (study_start_hour study_end_hour : Z) (cram_or_not : bool).

Local Abbreviation g0 :=
  (_iter_study_slots start_base days study_start_hour study_end_hour).
Local Abbreviation run_todo :=
  (schedule_todo fuel now days start_base max_minutes_per_day
     study_start_hour study_end_hour cram_or_not).
Local Abbreviation run_todos :=
  (schedule_todos fuel now days start_base max_minutes_per_day
     study_start_hour study_end_hour cram_or_not).

(** A property of the loop variables that every commit preserves holds
    when the todo's turn is over. *)
Lemma schedule_todo_inv (P : alloc → Prop) todo st st' :
  (∀ slot s,
     yields g0 slot → P s →
     slot < TodoTask.deadline todo → now < TodoTask.deadline todo →
     0 < remaining s →
     is_free (blocks s) slot (Datetime.add_minutes slot BLOCK_MINUTES) = true →
     P (commit max_minutes_per_day todo slot s)) →
  P (begin_todo todo st) →
  run_todo todo st = Ret st' →
  P st'.
Proof.
  intros Hcommit Hst H. unfold schedule_todo in H.
  destruct (Z.leb_spec (TodoTask.deadline todo) now) as [|Hnow].
  { by injection H as <-. }
  eapply (for_slots_inv P); [|apply reach_start|exact Hst|exact H].
  intros slot s r Hy Hs Hr.
  apply todo_body_cases in Hr as [->|[->|(-> & ? & ? & ?)]]; simpl; auto.
Qed.

Lemma schedule_todos_app l1 l2 st st' :
  run_todos (l1 ++ l2) st = Ret st' ↔
  ∃ st1, run_todos l1 st = Ret st1 ∧ run_todos l2 st1 = Ret st'.
Proof.
  revert st. induction l1 as [|t l1 IH]; intros st; simpl.
  - split; [eauto|]. by intros (st1 & [= <-] & H).
  - split.
    + intros H. apply bind_Ret in H as (st1 & Ht & H).
      apply IH in H as (st2 & H1 & H2). exists st2. by rewrite Ht.
    + intros (st2 & H & H2). apply bind_Ret in H as (st1 & Ht & H).
      rewrite Ht. simpl. apply IH. eauto.
Qed.

(** Every "todo" block in the list stems from a commit. *)
Lemma schedule_todo_accounted all todo st st' :
  todo ∈ all →
  accounted now g0 all (blocks st) →
  run_todo todo st = Ret st' →
  accounted now g0 all (blocks st').
Proof.
  intros Hin Hst.
  apply (schedule_todo_inv (λ s, accounted now g0 all (blocks s))); [|done].
  intros slot s Hy Hs Hdl Hnow _ _. unfold accounted, commit. simpl.
  apply Forall_app. split; [done|]. constructor; [|constructor].
  intros _. exists todo. by split_and!.
Qed.

Lemma schedule_todos_accounted all todos st st' :
  todos ⊆ all →
  accounted now g0 all (blocks st) →
  run_todos todos st = Ret st' →
  accounted now g0 all (blocks st').
Proof.
  revert st. induction todos as [|t todos IH]; intros st Hsub Hst H; simpl in H.
  - by injection H as <-.
  - apply bind_Ret in H as (st1 & Ht & H).
    eapply IH; [set_solver| |exact H].
    eapply schedule_todo_accounted; [|exact Hst|exact Ht]. set_solver.
Qed.

(** What one todo's turn appends, and how much. *)
Lemma schedule_todo_appends todo st st' :
  0 < BLOCK_MINUTES →
  0 < TodoTask.estimated_time_minutes todo →
  run_todo todo st = Ret st' →
  ∃ slots : list datetime,
    blocks st' = blocks st ++ (todo_block todo <$> slots)
    ∧ BLOCK_MINUTES * Z.of_nat (length slots)
      < TodoTask.estimated_time_minutes todo + BLOCK_MINUTES.
Proof.
  intros HB Hest H.
  pose (P := λ s : alloc,
    ∃ slots : list datetime,
      blocks s = blocks st ++ (todo_block todo <$> slots)
      ∧ remaining s
        = TodoTask.estimated_time_minutes todo
          - BLOCK_MINUTES * Z.of_nat (length slots)
      ∧ (slots = [] ∨ - BLOCK_MINUTES < remaining s)).
  assert (P st') as (slots & Hbs & Hrem & Hlast).
  { apply (schedule_todo_inv P todo st); [| |done].
    - intros slot s _ (slots & Hbs & Hrem & _) _ _ Hpos _.
      exists (slots ++ [slot]). unfold commit. simpl.
      rewrite Hbs, fmap_app, length_app, <- (assoc_L (++)). simpl.
      split_and!; [done | lia | right; lia].
    - exists []. simpl. rewrite (right_id_L [] (++)).
      split_and!; [done | lia | by left]. }
  exists slots. split; [done|].
  destruct Hlast as [->|]; simpl; lia.
Qed.

Lemma schedule_todos_budget title todos st st' :
  0 < BLOCK_MINUTES →
  Forall (λ t, 0 < TodoTask.estimated_time_minutes t) todos →
  run_todos todos st = Ret st' →
  todo_minutes title (blocks st')
  ≤ todo_minutes title (blocks st) + title_budget title todos.
Proof.
  intros HB. revert st.
  induction todos as [|t todos IH]; intros st Hest H; simpl in H.
  - injection H as <-. simpl. lia.
  - apply bind_Ret in H as (st1 & Ht & H).
    apply Forall_cons in Hest as [Hest Hests].
    specialize (IH _ Hests H).
    apply schedule_todo_appends in Ht as (slots & Hbs & Hlen); [|done|done].
    rewrite Hbs, todo_minutes_app, todo_minutes_todo_blocks in IH.
    apply whole_blocks_bound in Hlen; [|done].
    simpl. case_bool_decide; lia.
Qed.

(** A commit keeps the blocks apart. *)
Lemma schedule_todo_apart todo st st' :
  pairwise_apart (blocks st) →
  run_todo todo st = Ret st' →
  pairwise_apart (blocks st').
Proof.
  intros Hst.
  apply (schedule_todo_inv (λ s, pairwise_apart (blocks s))); [|done].
  intros slot s _ Hs _ _ _ Hfree. unfold commit. simpl.
  apply pairwise_apart_snoc; [done|].
  by apply is_free_apart.
Qed.

Lemma schedule_todos_apart todos st st' :
  pairwise_apart (blocks st) →
  run_todos todos st = Ret st' →
  pairwise_apart (blocks st').
Proof.
  revert st. induction todos as [|t todos IH]; intros st Hst H; simpl in H.
  - by injection H as <-.
  - apply bind_Ret in H as (st1 & Ht & H).
    eapply IH; [|exact H]. by eapply schedule_todo_apart.
Qed.

End Loops.

(** *** The whole call *)

Lemma normalize_estimate_title t :
  TodoTask.title (normalize_estimate t) = TodoTask.title t.
Proof. unfold normalize_estimate. by destruct (_ <=? _). Qed.

Lemma normalize_estimate_deadline t :
  TodoTask.deadline (normalize_estimate t) = TodoTask.deadline t.
Proof. unfold normalize_estimate. by destruct (_ <=? _). Qed.

Lemma normalize_estimate_priority t :
  TodoTask.priority (normalize_estimate t) = TodoTask.priority t.
Proof. unfold normalize_estimate. by destruct (_ <=? _). Qed.

Lemma normalize_estimate_exam t :
  TodoTask.exam_or_not (normalize_estimate t) = TodoTask.exam_or_not t.
Proof. unfold normalize_estimate. by destruct (_ <=? _). Qed.

Lemma normalize_estimate_pos t :
  0 < TodoTask.estimated_time_minutes (normalize_estimate t).
Proof.
  unfold normalize_estimate.
  destruct (Z.leb_spec (TodoTask.estimated_time_minutes t) 0); simpl; lia.
Qed.

Lemma todo_order_perm parsed order :
  todo_order parsed = Ret order →
  order ≡ₚ normalize_estimate <$> ParsedInput.todos parsed.
Proof.
  intros H. apply bind_Ret in H as (l & Hl & H).
  rewrite (sorted_by_perm _ _ _ _ H). by apply sorted_by_perm in Hl.
Qed.

Lemma fixed_blocks_accounted now g0 todos (events : list FixedEvent.t) :
  accounted now g0 todos (fixed_block <$> events).
Proof. apply Forall_fmap, Forall_forall. intros e _. simpl. discriminate. Qed.

(** The shape of a call that returns. *)
Lemma build_schedule_Ret fuel now parsed days start_date max_hours_per_day
    study_start_hour study_end_hour cram_or_not out :
  build_schedule fuel now parsed days start_date max_hours_per_day
    study_start_hour study_end_hour cram_or_not = Ret out →
  ∃ order st,
    todo_order parsed = Ret order
    ∧ schedule_todos fuel now days
        (Datetime.combine_midnight (effective_date now start_date))
        ((λ h, h * 60) <$> max_hours_per_day)
        (effective_start_hour study_start_hour)
        (effective_end_hour study_start_hour study_end_hour)
        cram_or_not order (first_alloc parsed) = Ret st
    ∧ out ≡ₚ blocks st.
Proof.
  intros H. apply bind_Ret in H as (st & Hst & H).
  apply bind_Ret in Hst as (order & Horder & Hst).
  exists order, st. split_and!; [done | done |]. by apply sorted_by_perm in H.
Qed.

(** Every "todo" block of the output was committed for one of the input's
    todos. *)
Lemma build_schedule_accounted fuel now parsed days start_date max_hours_per_day
    study_start_hour study_end_hour cram_or_not out :
  build_schedule fuel now parsed days start_date max_hours_per_day
    study_start_hour study_end_hour cram_or_not = Ret out →
  accounted now
    (_iter_study_slots (Datetime.combine_midnight (effective_date now start_date))
       days (effective_start_hour study_start_hour)
       (effective_end_hour study_start_hour study_end_hour))
    (normalize_estimate <$> ParsedInput.todos parsed) out.
Proof.
  intros H. apply build_schedule_Ret in H as (order & st & Horder & Hst & Hout).
  unfold accounted. rewrite Hout.
  eapply schedule_todos_accounted in Hst; [exact Hst| |apply fixed_blocks_accounted].
  apply todo_order_perm in Horder. intros t. by rewrite Horder.
Qed.

Lemma title_budget_none title (todos : list TodoTask.t) :
  filter (λ t, TodoTask.title t = title) todos = [] →
  title_budget title (normalize_estimate <$> todos) = 0.
Proof.
  induction todos as [|t todos IH]; csimpl; [done|].
  rewrite filter_cons, normalize_estimate_title.
  destruct (decide (TodoTask.title t = title)); [done|].
  intros H. rewrite bool_decide_eq_false_2 by done. rewrite IH by done. lia.
Qed.

Lemma title_budget_unique title (todos : list TodoTask.t) todo :
  filter (λ t, TodoTask.title t = title) todos = [todo] →
  title_budget title (normalize_estimate <$> todos)
  = whole_blocks (TodoTask.estimated_time_minutes (normalize_estimate todo)).
Proof.
  induction todos as [|t todos IH]; csimpl; [done|].
  rewrite filter_cons, normalize_estimate_title.
  destruct (decide (TodoTask.title t = title)).
  - intros [= -> H]. rewrite bool_decide_eq_true_2 by done.
    rewrite title_budget_none by done. lia.
  - intros H. rewrite bool_decide_eq_false_2 by done. rewrite IH by done. lia.
Qed.

(** **** Budget *)

(** C1, as the engine has it.  The minutes the output holds for a title are
    at most the estimates of the todos with that title, each (after
    normalization) rounded up to a whole number of blocks.  So a todo whose
    title no other todo carries gets less than its estimate plus one block,
    and at most its estimate when that is a multiple of [BLOCK_MINUTES]. *)
Theorem budget_respect_whole_blocks fuel now parsed days start_date
    max_hours_per_day study_start_hour study_end_hour cram_or_not out :
  0 < BLOCK_MINUTES →
  build_schedule fuel now parsed days start_date max_hours_per_day
    study_start_hour study_end_hour cram_or_not = Ret out →
  (∀ title,
     scheduled title out
     ≤ title_budget title (normalize_estimate <$> ParsedInput.todos parsed))
  ∧ (∀ todo,
       filter (λ t, TodoTask.title t = TodoTask.title todo)
         (ParsedInput.todos parsed) = [todo] →
       scheduled (TodoTask.title todo) out
       < TodoTask.estimated_time_minutes (normalize_estimate todo) + BLOCK_MINUTES
       ∧ ((BLOCK_MINUTES | TodoTask.estimated_time_minutes (normalize_estimate todo)) →
          scheduled (TodoTask.title todo) out
          ≤ TodoTask.estimated_time_minutes (normalize_estimate todo))).
Proof.
  intros HB H.
  assert (∀ title,
    scheduled title out
    ≤ title_budget title (normalize_estimate <$> ParsedInput.todos parsed)) as Hall.
  { intros title.
    apply build_schedule_Ret in H as (order & st & Horder & Hst & Hout).
    apply todo_order_perm in Horder.
    rewrite scheduled_todo_minutes, (todo_minutes_perm _ _ _ Hout).
    rewrite <- (title_budget_perm _ _ _ Horder).
    apply (schedule_todos_budget _ _ _ _ _ _ _ _ title) in Hst; [|done|].
    - simpl in Hst. rewrite todo_minutes_fixed in Hst. lia.
    - rewrite Horder. apply Forall_fmap, Forall_forall.
      intros t _. apply normalize_estimate_pos. }
  split; [done|].
  intros todo Huniq. specialize (Hall (TodoTask.title todo)).
  rewrite (title_budget_unique _ _ _ Huniq) in Hall.
  split.
  - pose proof (whole_blocks_lt
      (TodoTask.estimated_time_minutes (normalize_estimate todo)) HB). lia.
  - intros Hdiv. by rewrite whole_blocks_exact in Hall.
Qed.

(** **** Deadlines *)

(** C2, as the engine has it.  Every "todo" block of the output is one
    block long and starts before the deadline of a todo with its title, so
    it ends less than [BLOCK_MINUTES] after that deadline. *)
Theorem todo_block_starts_before_deadline fuel now parsed days start_date
    max_hours_per_day study_start_hour study_end_hour cram_or_not out b :
  build_schedule fuel now parsed days start_date max_hours_per_day
    study_start_hour study_end_hour cram_or_not = Ret out →
  b ∈ out →
  ScheduledBlock.kind b = "todo" →
  ∃ todo,
    todo ∈ ParsedInput.todos parsed
    ∧ TodoTask.title todo = ScheduledBlock.title b
    ∧ ScheduledBlock.start b < TodoTask.deadline todo
    ∧ ScheduledBlock.end_ b
      = Datetime.add_minutes (ScheduledBlock.start b) BLOCK_MINUTES
    ∧ ScheduledBlock.end_ b
      < Datetime.add_minutes (TodoTask.deadline todo) BLOCK_MINUTES.
Proof.
  intros H Hb Hkind. apply build_schedule_accounted in H.
  unfold accounted in H. rewrite Forall_forall in H.
  destruct (H b Hb Hkind) as (todo' & Hin & Heq & Hdl & _ & _).
  apply list_elem_of_fmap in Hin as (todo & -> & Hin).
  exists todo. rewrite normalize_estimate_deadline in Hdl.
  assert (ScheduledBlock.end_ b
          = Datetime.add_minutes (ScheduledBlock.start b) BLOCK_MINUTES) as Hend
    by (by rewrite Heq at 1).
  split_and!; [done| |done|done|].
  - rewrite Heq. simpl. by rewrite normalize_estimate_title.
  - rewrite Hend. unfold Datetime.add_minutes. lia.
Qed.

(** **** No overlap *)

(** C3.  When the fixed events are mutually non-overlapping, no two blocks
    of the output, fixed or todo, intersect. *)
Theorem build_schedule_no_overlap fuel now parsed days start_date
    max_hours_per_day study_start_hour study_end_hour cram_or_not out :
  non_overlapping (fixed_block <$> ParsedInput.fixed_events parsed) →
  build_schedule fuel now parsed days start_date max_hours_per_day
    study_start_hour study_end_hour cram_or_not = Ret out →
  non_overlapping out.
Proof.
  intros Hfixed H.
  apply build_schedule_Ret in H as (order & st & _ & Hst & Hout).
  apply pairwise_apart_lookup.
  apply (pairwise_apart_perm (blocks st)); [done|].
  eapply schedule_todos_apart in Hst; [done|].
  simpl. by apply non_overlapping_pairwise.
Qed.

(** **** Overdue todos *)

(** C8.  The turn of a todo whose deadline is at or before [now] leaves the
    block list and the daily minutes as they are, whatever the
    configuration; and when no todo with its title is still due, the output
    has no "todo" block with that title. *)
Theorem overdue_exclusion fuel now parsed days start_date
    max_hours_per_day study_start_hour study_end_hour cram_or_not todo :
  todo ∈ ParsedInput.todos parsed →
  TodoTask.deadline todo ≤ now →
  (∀ start_base max_minutes_per_day start_hour end_hour st,
     ∃ st',
       schedule_todo fuel now days start_base max_minutes_per_day
         start_hour end_hour cram_or_not (normalize_estimate todo) st = Ret st'
       ∧ blocks st' = blocks st
       ∧ day_todo_minutes st' = day_todo_minutes st)
  ∧ (∀ out,
       build_schedule fuel now parsed days start_date max_hours_per_day
         study_start_hour study_end_hour cram_or_not = Ret out →
       (∀ t, t ∈ ParsedInput.todos parsed →
             TodoTask.title t = TodoTask.title todo → TodoTask.deadline t ≤ now) →
       ∀ b, b ∈ out → ScheduledBlock.kind b = "todo" →
            ScheduledBlock.title b ≠ TodoTask.title todo).
Proof.
  intros Hin Hdue. split.
  - intros start_base cap sh eh st. exists (begin_todo (normalize_estimate todo) st).
    unfold schedule_todo. rewrite normalize_estimate_deadline.
    destruct (Z.leb_spec (TodoTask.deadline todo) now); [done | lia].
  - intros out H Hall b Hb Hkind Htitle.
    apply build_schedule_accounted in H.
    unfold accounted in H. rewrite Forall_forall in H.
    destruct (H b Hb Hkind) as (todo' & Hin' & Heq & _ & Hnow & _).
    apply list_elem_of_fmap in Hin' as (t & -> & Ht).
    rewrite normalize_estimate_deadline in Hnow.
    assert (TodoTask.title t = ScheduledBlock.title b) as Ht'.
    { rewrite Heq. simpl. by rewrite normalize_estimate_title. }
    specialize (Hall t Ht). rewrite Ht', Htitle in Hall.
    specialize (Hall eq_refl). lia.
Qed.

(** **** Horizon and window *)

(** C9, as the engine has it.  With a block length that divides the hour
    and a (normalized) end hour of at most 23, every "todo" block of the
    output lies on one of the [days] days from the effective start date,
    inside that day's window from the start hour to the end hour. *)
Theorem horizon_containment fuel now parsed days start_date
    max_hours_per_day study_start_hour study_end_hour cram_or_not out b :
  0 < BLOCK_MINUTES →
  (BLOCK_MINUTES | 60) →
  effective_end_hour study_start_hour study_end_hour ≤ 23 →
  build_schedule fuel now parsed days start_date max_hours_per_day
    study_start_hour study_end_hour cram_or_not = Ret out →
  b ∈ out →
  ScheduledBlock.kind b = "todo" →
  within_horizon_and_window (effective_date now start_date) days
    (effective_start_hour study_start_hour)
    (effective_end_hour study_start_hour study_end_hour) b.
Proof.
  intros HB Hdiv Heh H Hb Hkind.
  unfold within_horizon_and_window.
  set (first := effective_date now start_date).
  set (day := Datetime.to_date (ScheduledBlock.start b)).
  assert (BLOCK_MINUTES ≤ 60) as HB60 by (apply Z.divide_pos_le; [lia | done]).
  apply build_schedule_accounted in H.
  unfold accounted in H. rewrite Forall_forall in H.
  destruct (H b Hb Hkind) as (todo & _ & Heq & _ & _ & Hy).
  apply yields_in_window in Hy as [(d & Hd & Hslot) Hsh]; [|lia|done].
  assert (ScheduledBlock.start b + BLOCK_MINUTES * Datetime.US_PER_MINUTE
          ≤ day_base (Datetime.combine_midnight (effective_date now start_date)) d
            + effective_end_hour study_start_hour study_end_hour
              * Datetime.US_PER_HOUR) as Hend
    by (eapply slot_of_day_block_end; eauto; lia).
  pose proof Hslot as (k & Hk & Hstart & Hlt).
  assert (ScheduledBlock.end_ b
          = ScheduledBlock.start b + BLOCK_MINUTES * Datetime.US_PER_MINUTE) as ->.
  { by rewrite Heq at 1. }
  unfold day_base in *.
  replace (Datetime.to_date (Datetime.combine_midnight (effective_date now start_date)))
    with first in *
    by (unfold Datetime.to_date, Datetime.combine_midnight;
        rewrite Z.div_mul; [done | unfold Datetime.US_PER_DAY; lia]).
  assert (day = first + d) as Hday.
  { subst day. apply to_date_on_day.
    unfold Datetime.combine_midnight, Datetime.US_PER_DAY, Datetime.US_PER_HOUR,
      Datetime.US_PER_MINUTE in *. nia. }
  rewrite Hday.
  unfold Datetime.at_time, Datetime.combine_midnight, Datetime.US_PER_DAY,
    Datetime.US_PER_HOUR, Datetime.US_PER_MINUTE in *.
  split_and!; nia.
Qed.

(** **** Order of the todos *)

Lemma schedule_todo_prefix fuel now days start_base max_minutes_per_day
    study_start_hour study_end_hour cram_or_not todo st st' :
  schedule_todo fuel now days start_base max_minutes_per_day study_start_hour
    study_end_hour cram_or_not todo st = Ret st' →
  blocks st `prefix_of` blocks st'.
Proof.
  apply (schedule_todo_inv _ _ _ _ _ _ _ _ (λ s, blocks st `prefix_of` blocks s));
    [|done].
  intros slot s _ Hs _ _ _ _. unfold commit. simpl. by apply prefix_app_r.
Qed.

Lemma schedule_todos_prefix fuel now days start_base max_minutes_per_day
    study_start_hour study_end_hour cram_or_not todos st st' :
  schedule_todos fuel now days start_base max_minutes_per_day study_start_hour
    study_end_hour cram_or_not todos st = Ret st' →
  blocks st `prefix_of` blocks st'.
Proof.
  revert st. induction todos as [|t todos IH]; intros st H; simpl in H.
  - by injection H as <-.
  - apply bind_Ret in H as (st1 & Ht & H).
    etrans; [by eapply schedule_todo_prefix | by apply IH].
Qed.

Lemma todo_order_sorted parsed order :
  todo_order parsed = Ret order → StronglySorted goes_before order.
Proof.
  intros H. apply bind_Ret in H as (l & Hl & H).
  eapply sorted_by_priority_sorted; [|exact H].
  by eapply sorted_by_int_sorted.
Qed.

Lemma sorted_split a b pa pb order :
  StronglySorted goes_before order →
  a ∈ order → b ∈ order →
  TodoTask.priority a = Some pa → TodoTask.priority b = Some pb → pa < pb →
  ∃ l1 l2 l3, order = l1 ++ a :: l2 ++ b :: l3.
Proof.
  intros Hsorted Ha Hb Hpa Hpb Hlt.
  apply list_elem_of_split in Hb as (l & l3 & ->).
  assert (a ∈ l) as Hal.
  { apply elem_of_app in Ha as [|Ha]; [done|].
    apply elem_of_cons in Ha as [->|Ha]; [assert (pa = pb) by congruence; lia|].
    apply StronglySorted_app_1_r, StronglySorted_inv in Hsorted as [_ Hb].
    rewrite Forall_forall in Hb.
    destruct (Hb a Ha) as (pb' & pa' & ? & ? & ?).
    assert (pb' = pb) by congruence. assert (pa' = pa) by congruence. lia. }
  apply list_elem_of_split in Hal as (l1 & l2 & ->).
  exists l1, l2, l3. by rewrite <- (assoc_L (++)).
Qed.

Lemma schedule_todo_appends_blocks fuel now days start_base max_minutes_per_day
    study_start_hour study_end_hour cram_or_not todo st st' :
  schedule_todo fuel now days start_base max_minutes_per_day study_start_hour
    study_end_hour cram_or_not todo st = Ret st' →
  ∃ slots : list datetime, blocks st' = blocks st ++ (todo_block todo <$> slots).
Proof.
  apply (schedule_todo_inv _ _ _ _ _ _ _ _
           (λ s, ∃ slots : list datetime,
                   blocks s = blocks st ++ (todo_block todo <$> slots))).
  - intros slot s _ [slots Hs] _ _ _ _. exists (slots ++ [slot]).
    unfold commit. simpl. by rewrite Hs, fmap_app, <- (assoc_L (++)).
  - exists []. simpl. by rewrite (right_id_L [] (++)).
Qed.

(** **** Cram mode *)

Lemma for_slots_fold {St} (f : datetime → St → St) fuel g st :
  for_slots fuel (λ slot s, Ret (Continue (f slot s))) g st
  = list_slots fuel g ≫= λ slots, Ret (foldl (λ s slot, f slot s) st slots).
Proof.
  revert g st. induction fuel as [|fuel IH]; intros g st; simpl; [done|].
  destruct (gen_next g) as [[[slot g']|]| |]; simpl; try done.
  rewrite IH. by destruct (list_slots fuel g').
Qed.

Lemma foldl_occupied bs (slots : list datetime) n :
  foldl
    (λ n slot,
       if negb (is_free bs slot (Datetime.add_minutes slot BLOCK_MINUTES))
       then n - BLOCK_MINUTES else n)
    n slots
  = n - BLOCK_MINUTES * Z.of_nat (length (occupied_slots bs slots)).
Proof.
  unfold occupied_slots. revert n.
  induction slots as [|slot slots IH]; intros n; simpl; [lia|].
  rewrite IH, filter_cons.
  case_decide as Hfree; [|apply not_false_is_true in Hfree];
    rewrite Hfree; simpl; lia.
Qed.

(** The cram estimate in closed form. *)
Lemma cram_minutes_spec fuel max_minutes_per_day study_start_hour study_end_hour
    todo slot_start bs :
  cram_minutes fuel max_minutes_per_day study_start_hour study_end_hour
    todo slot_start bs
  = match max_minutes_per_day with
    | Some cap =>
        list_slots fuel (cram_window study_start_hour study_end_hour todo slot_start)
        ≫= λ slots,
          Ret (cram_capacity cap study_start_hour study_end_hour todo slot_start
               - BLOCK_MINUTES * Z.of_nat (length (occupied_slots bs slots)))
    | None => Raise TypeError
    end.
Proof.
  unfold cram_minutes. destruct max_minutes_per_day as [cap|]; [|done].
  rewrite bind_Ret_l.
  erewrite for_slots_ext; [rewrite for_slots_fold|].
  - unfold cram_window. destruct (list_slots _ _); simpl; [|done|done].
    by rewrite foldl_occupied.
  - intros slot n. simpl. by destruct (negb _).
Qed.





Lemma slot_verdict_no_exam fuel max_minutes_per_day study_start_hour
    study_end_hour cram_or_not todo slot_start st :
  TodoTask.exam_or_not todo = false →
  slot_verdict fuel max_minutes_per_day study_start_hour study_end_hour
    cram_or_not todo slot_start st
  = slot_verdict fuel max_minutes_per_day study_start_hour study_end_hour
      false todo slot_start st.
Proof. intros Hexam. unfold slot_verdict. by rewrite Hexam, andb_false_r. Qed.

Lemma schedule_todos_no_exam fuel now days start_base max_minutes_per_day
    study_start_hour study_end_hour cram_or_not todos st :
  Forall (λ t, TodoTask.exam_or_not t = false) todos →
  schedule_todos fuel now days start_base max_minutes_per_day study_start_hour
    study_end_hour cram_or_not todos st
  = schedule_todos fuel now days start_base max_minutes_per_day study_start_hour
      study_end_hour false todos st.
Proof.
  intros Hall. revert st.
  induction Hall as [|t todos Ht _ IH]; intros st; simpl; [done|].
  assert (schedule_todo fuel now days start_base max_minutes_per_day
            study_start_hour study_end_hour cram_or_not t st
          = schedule_todo fuel now days start_base max_minutes_per_day
              study_start_hour study_end_hour false t st) as ->.
  { unfold schedule_todo. destruct (_ <=? _); [done|].
    apply for_slots_ext. intros slot s. unfold todo_body.
    by rewrite (slot_verdict_no_exam _ _ _ _ cram_or_not). }
  destruct (schedule_todo _ _ _ _ _ _ _ _ _ _); simpl; auto.
Qed.

(** C10.  When no todo of the input is an exam, the call with cram mode on
    has the same result as the call with cram mode off. *)
Theorem cram_only_affects_exams fuel now parsed days start_date
    max_hours_per_day study_start_hour study_end_hour :
  Forall (λ t, TodoTask.exam_or_not t = false) (ParsedInput.todos parsed) →
  build_schedule fuel now parsed days start_date max_hours_per_day
    study_start_hour study_end_hour true
  = build_schedule fuel now parsed days start_date max_hours_per_day
      study_start_hour study_end_hour false.
Proof.
  intros Hall. unfold build_schedule, allocate.
  destruct (todo_order parsed) as [order| |] eqn:Horder; [|done|done].
  rewrite !bind_Ret_l. rewrite schedule_todos_no_exam; [done|].
  rewrite (todo_order_perm _ _ Horder).
  apply Forall_fmap. eapply Forall_impl; [exact Hall|].
  simpl. intros t Ht. by rewrite normalize_estimate_exam.
Qed.

(** **** Returning *)

Lemma day_of_month_range d : 1 ≤ Datetime.day_of_month d ≤ 31.
Proof.
  unfold Datetime.day_of_month. cbv zeta.
  Z.to_euclidean_division_equations. lia.
Qed.

Lemma list_slots_returns start_dt days study_start_hour study_end_hour fuel :
  0 < BLOCK_MINUTES ≤ 60 →
  0 ≤ study_start_hour ≤ 23 →
  study_end_hour ≤ 23 →
  Z.max 0 days * Datetime.US_PER_DAY < Z.of_nat fuel →
  ∃ slots,
    list_slots fuel (_iter_study_slots start_dt days study_start_hour study_end_hour)
    = Ret slots.
Proof.
  intros HB Hsh Heh Hfuel.
  destruct fuel as [|n]; [unfold Datetime.US_PER_DAY in Hfuel; lia|].
  destruct (list_slots_total start_dt days study_start_hour study_end_hour
              HB Heh n _ Hsh
              (iter_study_slots_inv start_dt days study_start_hour study_end_hour))
    as (slots & Hslots & _); [|by exists slots].
  unfold gen_floor, day_base, Datetime.combine_midnight. simpl. lia.
Qed.

Lemma for_slots_returns {St} fuel (body : datetime → St → outcome (flow St)) g st slots :
  list_slots fuel g = Ret slots →
  (∀ slot s, ∃ r, body slot s = Ret r) →
  ∃ st', for_slots fuel body g st = Ret st'.
Proof.
  intros Hslots Hbody. revert g st slots Hslots.
  induction fuel as [|fuel IH]; intros g st slots Hslots; [discriminate|].
  rewrite list_slots_S in Hslots. apply bind_Ret in Hslots as (nx & Hnx & Hslots).
  simpl. rewrite Hnx, bind_Ret_l.
  destruct nx as [[slot g']|]; [|eauto].
  apply bind_Ret in Hslots as (slots' & Hslots' & _).
  destruct (Hbody slot st) as [[st1|st1] ->]; rewrite bind_Ret_l; eauto.
Qed.

Section Returning.
Variables (now : datetime) (days : Z) (start_base : datetime).
Variables (max_minutes_per_day : option Z).
Variables (study_start_hour study_end_hour : Z) (cram_or_not : bool).
Hypothesis HB : 0 < BLOCK_MINUTES ≤ 60.
Hypothesis Hsh : 0 ≤ study_start_hour ≤ 23.
Hypothesis Heh : study_end_hour ≤ 23.

Lemma cram_minutes_returns fuel cap todo slot_start bs :
  31 * Datetime.US_PER_DAY < Z.of_nat fuel →
  ∃ n, cram_minutes fuel (Some cap) study_start_hour study_end_hour
         todo slot_start bs = Ret n.
Proof.
  intros Hfuel. rewrite cram_minutes_spec. unfold cram_window.
  destruct (list_slots_returns slot_start
              (Datetime.day (TodoTask.deadline todo) - Datetime.day slot_start - 1 + 2)
              study_start_hour study_end_hour fuel HB Hsh Heh) as [slots ->];
    [|rewrite bind_Ret_l; eauto].
  pose proof (day_of_month_range (Datetime.to_date (TodoTask.deadline todo))).
  pose proof (day_of_month_range (Datetime.to_date slot_start)).
  unfold Datetime.day, Datetime.US_PER_DAY in *. lia.
Qed.

Lemma todo_body_returns fuel todo slot_start st :
  31 * Datetime.US_PER_DAY < Z.of_nat fuel →
  cram_defined max_minutes_per_day cram_or_not todo →
  ∃ r, todo_body fuel max_minutes_per_day study_start_hour study_end_hour
         cram_or_not todo slot_start st = Ret r.
Proof.
  intros Hfuel Hcram. unfold todo_body, slot_verdict.
  destruct (_ >=? _); [rewrite bind_Ret_l; eauto|].
  destruct (_ <=? _); [rewrite bind_Ret_l; eauto|].
  assert (∃ defer : bool,
    (if cram_or_not && TodoTask.exam_or_not todo
     then cram_minutes fuel max_minutes_per_day study_start_hour study_end_hour
            todo slot_start (blocks st)
          ≫= λ n, Ret (n >? TodoTask.estimated_time_minutes todo)
     else Ret false) = Ret defer) as [defer ->].
  { destruct (cram_or_not && TodoTask.exam_or_not todo) eqn:Hboth; [|eauto].
    apply andb_true_iff in Hboth as [Hc He].
    destruct Hcram as [?|[?|[cap ->]]]; [congruence | congruence |].
    destruct (cram_minutes_returns fuel cap todo slot_start (blocks st) Hfuel)
      as [n ->].
    rewrite bind_Ret_l. eauto. }
  rewrite bind_Ret_l.
  destruct defer; [rewrite bind_Ret_l; eauto|].
  destruct (over_daily_limit _ _ _); [rewrite bind_Ret_l; eauto|].
  destruct (is_free _ _ _); rewrite bind_Ret_l; eauto.
Qed.

Lemma schedule_todos_returns fuel todos st :
  31 * Datetime.US_PER_DAY < Z.of_nat fuel →
  Z.max 0 days * Datetime.US_PER_DAY < Z.of_nat fuel →
  Forall (cram_defined max_minutes_per_day cram_or_not) todos →
  ∃ st',
    schedule_todos fuel now days start_base max_minutes_per_day study_start_hour
      study_end_hour cram_or_not todos st = Ret st'.
Proof.
  intros Hcram Hmain Hall. revert st.
  induction Hall as [|t todos Ht _ IH]; intros st; simpl; [eauto|].
  assert (∃ st1,
    schedule_todo fuel now days start_base max_minutes_per_day study_start_hour
      study_end_hour cram_or_not t st = Ret st1) as [st1 ->].
  { unfold schedule_todo. destruct (_ <=? _); [eauto|].
    destruct (list_slots_returns start_base days study_start_hour study_end_hour
                fuel HB Hsh Heh Hmain) as [slots Hslots].
    eapply for_slots_returns; [exact Hslots|].
    intros slot s. by apply todo_body_returns. }
  rewrite bind_Ret_l. apply IH.
Qed.

End Returning.

Lemma insert_by_priority_returns x l :
  is_Some (TodoTask.priority x) →
  Forall (λ t, is_Some (TodoTask.priority t)) l →
  ∃ s, insert_by lt_optional_int TodoTask.priority x l = Ret s.
Proof.
  intros [px Hpx]. induction 1 as [|y l [py Hpy] _ [s IH]]; simpl; [eauto|].
  rewrite Hpx, Hpy. simpl. destruct (py <? px); [|eauto].
  rewrite IH. simpl. eauto.
Qed.

Lemma sorted_by_priority_returns l :
  priorities_comparable l →
  ∃ s, sorted_by lt_optional_int TodoTask.priority l = Ret s.
Proof.
  intros [Hall|Hshort].
  - induction Hall as [|x l Hx Hall [s IH]]; simpl; [eauto|].
    rewrite IH, bind_Ret_l. apply insert_by_priority_returns; [done|].
    by rewrite (sorted_by_perm _ _ _ _ IH).
  - destruct l as [|x [|y l]]; simpl in *; [eauto | eauto | lia].
Qed.

(** More fuel does not change a result. *)
Lemma for_slots_more {St} fuel fuel' (body body' : datetime → St → outcome (flow St))
    g st st' :
  (∀ slot s r, body slot s = Ret r → body' slot s = Ret r) →
  (fuel ≤ fuel')%nat →
  for_slots fuel body g st = Ret st' →
  for_slots fuel' body' g st = Ret st'.
Proof.
  intros Hbody. revert fuel' g st.
  induction fuel as [|fuel IH]; intros fuel' g st Hle H; [discriminate|].
  destruct fuel' as [|fuel']; [lia|]. simpl in *.
  apply bind_Ret in H as (nx & -> & H). rewrite bind_Ret_l.
  destruct nx as [[slot g']|]; [|done].
  apply bind_Ret in H as (r & Hr & H).
  rewrite (Hbody _ _ _ Hr), bind_Ret_l.
  destruct r; [|done]. apply IH; [lia | done].
Qed.

Lemma todo_body_more fuel fuel' max_minutes_per_day study_start_hour study_end_hour
    cram_or_not todo slot_start st r :
  (fuel ≤ fuel')%nat →
  todo_body fuel max_minutes_per_day study_start_hour study_end_hour cram_or_not
    todo slot_start st = Ret r →
  todo_body fuel' max_minutes_per_day study_start_hour study_end_hour cram_or_not
    todo slot_start st = Ret r.
Proof.
  intros Hle H. unfold todo_body, slot_verdict in *.
  destruct (_ >=? _); [done|]. destruct (_ <=? _); [done|].
  destruct (cram_or_not && TodoTask.exam_or_not todo); [|done].
  apply bind_Ret in H as (v & Hv & H). apply bind_Ret in Hv as (defer & Hd & Hv).
  apply bind_Ret in Hd as (n & Hn & Hd).
  assert (cram_minutes fuel' max_minutes_per_day study_start_hour study_end_hour
            todo slot_start (blocks st) = Ret n) as ->.
  { unfold cram_minutes in *.
    destruct max_minutes_per_day as [cap|]; [|done]. rewrite bind_Ret_l in *.
    eapply for_slots_more; [|exact Hle|exact Hn]. auto. }
  rewrite bind_Ret_l, Hd, bind_Ret_l, Hv, bind_Ret_l. done.
Qed.

Lemma schedule_todos_more fuel fuel' now days start_base max_minutes_per_day
    study_start_hour study_end_hour cram_or_not todos st st' :
  (fuel ≤ fuel')%nat →
  schedule_todos fuel now days start_base max_minutes_per_day study_start_hour
    study_end_hour cram_or_not todos st = Ret st' →
  schedule_todos fuel' now days start_base max_minutes_per_day study_start_hour
    study_end_hour cram_or_not todos st = Ret st'.
Proof.
  intros Hle. revert st. induction todos as [|t todos IH]; intros st H; [done|].
  simpl in *. apply bind_Ret in H as (st1 & Ht & H).
  assert (schedule_todo fuel' now days start_base max_minutes_per_day
            study_start_hour study_end_hour cram_or_not t st = Ret st1) as ->.
  { unfold schedule_todo in *. destruct (_ <=? _); [done|].
    eapply for_slots_more; [|exact Hle|exact Ht].
    intros slot s r. by apply todo_body_more. }
  rewrite bind_Ret_l. by apply IH.
Qed.

Lemma build_schedule_more fuel fuel' now parsed days start_date max_hours_per_day
    study_start_hour study_end_hour cram_or_not out :
  (fuel ≤ fuel')%nat →
  build_schedule fuel now parsed days start_date max_hours_per_day
    study_start_hour study_end_hour cram_or_not = Ret out →
  build_schedule fuel' now parsed days start_date max_hours_per_day
    study_start_hour study_end_hour cram_or_not = Ret out.
Proof.
  intros Hle H. unfold build_schedule, allocate in *.
  apply bind_Ret in H as (st & Hst & H). apply bind_Ret in Hst as (order & -> & Hst).
  rewrite bind_Ret_l. by rewrite (schedule_todos_more _ _ _ _ _ _ _ _ _ _ _ _ Hle Hst).
Qed.

(** A list that sorts by priority without raising has no [None] to compare. *)
Lemma insert_by_priority_Ret x l s :
  insert_by lt_optional_int TodoTask.priority x l = Ret s →
  l ≠ [] →
  is_Some (TodoTask.priority x).
Proof.
  destruct l as [|y l]; [done|]. intros H _. simpl in H.
  apply bind_Ret in H as (b & Hb & _). unfold lt_optional_int in Hb.
  destruct (TodoTask.priority y); [|discriminate].
  by destruct (TodoTask.priority x).
Qed.

Lemma sorted_by_priority_Ret l s :
  sorted_by lt_optional_int TodoTask.priority l = Ret s →
  priorities_comparable l.
Proof.
  revert s. induction l as [|x l IH]; intros s H; [left; constructor|].
  simpl in H. apply bind_Ret in H as (s' & Hs' & H).
  pose proof (sorted_by_perm _ _ _ _ Hs') as Hperm.
  destruct l as [|y l]; [right; simpl; lia|]. left.
  assert (s' ≠ []) as Hne.
  { intros ->. by apply Permutation_nil_cons in Hperm. }
  constructor; [by eapply insert_by_priority_Ret|].
  destruct (IH _ Hs') as [Hall|Hshort]; [done|].
  destruct l as [|z l]; [|simpl in Hshort; lia].
  simpl in Hs'. injection Hs' as <-. simpl in H.
  apply bind_Ret in H as (b & Hb & _). unfold lt_optional_int in Hb.
  destruct (TodoTask.priority y) eqn:Hy; [|discriminate].
  constructor; [by rewrite Hy | constructor].
Qed.

Lemma sorted_by_priority_outcome l :
  (∃ s, sorted_by lt_optional_int TodoTask.priority l = Ret s)
  ∨ sorted_by lt_optional_int TodoTask.priority l = Raise TypeError.
Proof.
  induction l as [|x l [[s IH]|IH]]; simpl; [eauto| |by rewrite IH; right].
  rewrite IH, bind_Ret_l. clear IH.
  induction s as [|y s [[s' IH]|IH]]; simpl; [eauto| |].
  - destruct (TodoTask.priority y), (TodoTask.priority x); simpl; eauto.
    destruct (_ <? _); [|eauto]. rewrite IH. simpl. eauto.
  - destruct (TodoTask.priority y), (TodoTask.priority x); simpl; eauto.
    destruct (_ <? _); [|eauto]. rewrite IH. simpl. eauto.
Qed.

(** With two or more todos, one of them without priority, the call raises
    [TypeError], whatever the parameters. *)
Lemma build_schedule_raises_without_priority fuel now parsed days start_date
    max_hours_per_day study_start_hour study_end_hour cram_or_not :
  ¬ priorities_comparable (ParsedInput.todos parsed) →
  build_schedule fuel now parsed days start_date max_hours_per_day
    study_start_hour study_end_hour cram_or_not = Raise TypeError.
Proof.
  intros Hprio. unfold build_schedule, allocate, todo_order.
  destruct (sorted_by_int_total TodoTask.deadline
              (normalize_estimate <$> ParsedInput.todos parsed)) as [l1 Hl1].
  rewrite Hl1, bind_Ret_l.
  pose proof (sorted_by_perm _ _ _ _ Hl1) as Hp1.
  destruct (sorted_by_priority_outcome l1) as [[s Hs]| ->]; [|done].
  destruct Hprio. apply sorted_by_priority_Ret in Hs as [Hall|Hshort]; [left|right].
  - rewrite Hp1, Forall_fmap in Hall.
    eapply Forall_impl; [exact Hall|]. simpl. intros t.
    by rewrite normalize_estimate_priority.
  - by rewrite Hp1, length_fmap in Hshort.
Qed.

(** X14.  On naive datetimes the engine returns on every input without the two
    [None] cases, as long as the hours are hours of the day and the days it
    may reach (the horizon from the start date, and in cram mode 30 days
    more) end by 9999-12-31. *)
Theorem build_schedule_returns now parsed days start_date max_hours_per_day
    study_start_hour study_end_hour cram_or_not :
  0 < BLOCK_MINUTES ≤ 60 →
  0 ≤ effective_start_hour study_start_hour ≤ 23 →
  effective_end_hour study_start_hour study_end_hour ≤ 23 →
  reach_in_calendar (Datetime.combine_midnight (effective_date now start_date))
    days cram_or_not →
  priorities_comparable (ParsedInput.todos parsed) →
  Forall (cram_defined max_hours_per_day cram_or_not) (ParsedInput.todos parsed) →
  ∃ fuel out, ∀ fuel', (fuel ≤ fuel')%nat →
    build_schedule fuel' now parsed days start_date max_hours_per_day
      study_start_hour study_end_hour cram_or_not = Ret out.
Proof.
  intros HB Hsh Heh _ Hprio Hcram.
  enough (∀ fuel, (S (Z.to_nat (Z.max 31 days * Datetime.US_PER_DAY)) ≤ fuel)%nat →
    ∃ out,
      build_schedule fuel now parsed days start_date max_hours_per_day
        study_start_hour study_end_hour cram_or_not = Ret out) as Hret.
  { destruct (Hret _ (le_n _)) as [out Hout].
    eexists _, out. intros fuel' Hle. eapply build_schedule_more; [exact Hle|exact Hout]. }
  intros fuel Hfuel.
  unfold build_schedule, allocate, todo_order.
  destruct (sorted_by_int_total TodoTask.deadline
              (normalize_estimate <$> ParsedInput.todos parsed)) as [l1 Hl1].
  rewrite Hl1, bind_Ret_l.
  pose proof (sorted_by_perm _ _ _ _ Hl1) as Hp1.
  destruct (sorted_by_priority_returns l1) as [order Horder].
  { destruct Hprio as [Hall|Hshort]; [left|right].
    - rewrite Hp1. apply Forall_fmap. eapply Forall_impl; [exact Hall|].
      simpl. intros t. by rewrite normalize_estimate_priority.
    - by rewrite Hp1, length_fmap. }
  rewrite Horder, bind_Ret_l.
  pose proof (sorted_by_perm _ _ _ _ Horder) as Hp2.
  edestruct (schedule_todos_returns now days
               (Datetime.combine_midnight (effective_date now start_date))
               ((λ h, h * 60) <$> max_hours_per_day)
               (effective_start_hour study_start_hour)
               (effective_end_hour study_start_hour study_end_hour)
               cram_or_not HB Hsh Heh fuel order) as [st ->].
  - unfold Datetime.US_PER_DAY in *. lia.
  - unfold Datetime.US_PER_DAY in *. lia.
  - rewrite Hp2, Hp1. apply Forall_fmap. eapply Forall_impl; [exact Hcram|].
    simpl. intros t. unfold cram_defined.
    rewrite normalize_estimate_exam, fmap_is_Some. done.
  - rewrite bind_Ret_l. apply sorted_by_int_total.
Qed.

(** *** Every commit, with its reasons *)

Section Turn.
Variables (fuel : nat) (now : datetime) (days : Z) (start_base : datetime).
Variables (max_minutes_per_day : option Z).
Variables (study_start_hour study_end_hour : Z) (cram_or_not : bool).

Local Abbreviation g0 :=
  (_iter_study_slots start_base days study_start_hour study_end_hour).
Local Abbreviation body :=
  (todo_body fuel max_minutes_per_day study_start_hour study_end_hour cram_or_not).
Local Abbreviation run_todo :=
  (schedule_todo fuel now days start_base max_minutes_per_day
     study_start_hour study_end_hour cram_or_not).
Local Abbreviation run_todos :=
  (schedule_todos fuel now days start_base max_minutes_per_day
     study_start_hour study_end_hour cram_or_not).

(** What the loop body does with a slot, and why. *)
Lemma todo_body_reasons todo slot st r :
  body todo slot st = Ret r →
  (TodoTask.deadline todo ≤ slot ∧ r = Break st)
  ∨ (slot < TodoTask.deadline todo ∧ remaining st ≤ 0 ∧ r = Break st)
  ∨ (slot < TodoTask.deadline todo ∧ 0 < remaining st
     ∧ ((cram_or_not = true ∧ TodoTask.exam_or_not todo = true ∧ r = Continue st)
        ∨ (no_room max_minutes_per_day slot st ∧ r = Continue st)
        ∨ (over_daily_limit max_minutes_per_day slot st = false
           ∧ is_free (blocks st) slot (Datetime.add_minutes slot BLOCK_MINUTES) = true
           ∧ r = Continue (commit max_minutes_per_day todo slot st)))).
Proof.
  intros H. apply bind_Ret in H as (v & Hv & H).
  unfold slot_verdict in Hv.
  destruct (Z.geb_spec slot (TodoTask.deadline todo)) as [Hge|Hlt].
  { injection Hv as <-. injection H as <-. left. split; [lia | done]. }
  destruct (Z.leb_spec (remaining st) 0) as [Hle|Hpos].
  { injection Hv as <-. injection H as <-. right; left. by split_and!. }
  right; right. split_and!; [done | done |].
  apply bind_Ret in Hv as (defer & Hdefer & Hv).
  destruct defer.
  { injection Hv as <-. injection H as <-. left.
    destruct cram_or_not, (TodoTask.exam_or_not todo); simpl in Hdefer;
      try discriminate. done. }
  right. unfold no_room.
  destruct (over_daily_limit max_minutes_per_day slot st) eqn:Hlimit.
  { injection Hv as <-. injection H as <-. left. split; [by right | done]. }
  destruct (is_free (blocks st) slot (Datetime.add_minutes slot BLOCK_MINUTES))
    eqn:Hfree; injection Hv as <-; injection H as <-.
  - right. done.
  - left. split; [by left | done].
Qed.

(** A property of the loop variables that [remaining = ...] and every
    commit preserve holds after any number of turns. *)
Lemma schedule_todo_commits (P : alloc → Prop) todo st st' :
  (∀ slot s,
     P s →
     over_daily_limit max_minutes_per_day slot s = false →
     is_free (blocks s) slot (Datetime.add_minutes slot BLOCK_MINUTES) = true →
     P (commit max_minutes_per_day todo slot s)) →
  P (begin_todo todo st) →
  run_todo todo st = Ret st' →
  P st'.
Proof.
  intros Hcommit Hst H. unfold schedule_todo in H.
  destruct (Z.leb_spec (TodoTask.deadline todo) now) as [|Hnow].
  { by injection H as <-. }
  eapply (for_slots_inv P); [|apply reach_start|exact Hst|exact H].
  intros slot s r _ Hs Hr.
  apply todo_body_reasons in Hr
    as [[_ ->]|[(_ & _ & ->)|(_ & _ & [(_ & _ & ->)|[[_ ->]|(? & ? & ->)]])]];
    simpl; auto.
Qed.

Lemma schedule_todos_commits (P : alloc → Prop) todos st st' :
  (∀ todo s, P s → P (begin_todo todo s)) →
  (∀ todo slot s,
     P s →
     over_daily_limit max_minutes_per_day slot s = false →
     is_free (blocks s) slot (Datetime.add_minutes slot BLOCK_MINUTES) = true →
     P (commit max_minutes_per_day todo slot s)) →
  P st →
  run_todos todos st = Ret st' →
  P st'.
Proof.
  intros Hbegin Hcommit. revert st.
  induction todos as [|t todos IH]; intros st Hst H; simpl in H.
  - by injection H as <-.
  - apply bind_Ret in H as (st1 & Ht & H).
    eapply IH; [|exact H].
    eapply schedule_todo_commits; [|apply Hbegin, Hst|exact Ht]. apply Hcommit.
Qed.

End Turn.

(** *** The daily limit *)

Lemma day_minutes_app d bs1 bs2 :
  day_minutes d (bs1 ++ bs2) = day_minutes d bs1 + day_minutes d bs2.
Proof. induction bs1 as [|b bs1 IH]; simpl; lia. Qed.

Lemma day_minutes_perm d bs bs' :
  bs ≡ₚ bs' → day_minutes d bs = day_minutes d bs'.
Proof. induction 1; simpl; lia. Qed.

Lemma day_minutes_fixed d (events : list FixedEvent.t) :
  day_minutes d (fixed_block <$> events) = 0.
Proof. induction events as [|e events IH]; csimpl; [done|]. by rewrite IH. Qed.

Lemma day_minutes_todo_block d todo slot :
  day_minutes d [todo_block todo slot]
  = if bool_decide (Datetime.to_date slot = d) then BLOCK_MINUTES else 0.
Proof.
  cbn [day_minutes]. fold (todo_block todo slot).
  rewrite block_minutes_todo_block.
  destruct (decide (Datetime.to_date slot = d)) as [Hd|Hd].
  - rewrite !bool_decide_eq_true_2; [lia | done | done].
  - rewrite !bool_decide_eq_false_2; [lia | done | tauto].
Qed.

Lemma commit_day_tally cap todo slot st :
  day_tally st → day_tally (commit (Some cap) todo slot st).
Proof.
  intros Hst d. unfold commit. simpl.
  rewrite day_minutes_app, day_minutes_todo_block.
  specialize (Hst d).
  destruct (decide (Datetime.to_date slot = d)) as [<-|Hne].
  - rewrite lookup_insert_eq, bool_decide_eq_true_2 by done. simpl. lia.
  - rewrite lookup_insert_ne, bool_decide_eq_false_2 by done. lia.
Qed.

Lemma commit_day_ledger cap todo slot st :
  day_ledger cap st →
  over_daily_limit (Some cap) slot st = false →
  day_ledger cap (commit (Some cap) todo slot st).
Proof.
  intros [Htally Hcap] Hlimit. split; [by apply commit_day_tally|].
  intros d. unfold commit. simpl.
  rewrite day_minutes_app, day_minutes_todo_block.
  specialize (Hcap d). unfold over_daily_limit in Hlimit.
  destruct (decide (Datetime.to_date slot = d)) as [<-|Hne].
  - rewrite bool_decide_eq_true_2 by done.
    rewrite (Htally (Datetime.to_date slot)) in Hlimit. lia.
  - rewrite bool_decide_eq_false_2 by done. lia.
Qed.

(** *** Intervals, again *)

Lemma pairwise_snoc {A} (R : A → A → Prop) l x :
  pairwise R l → Forall (λ a, R a x) l → pairwise R (l ++ [x]).
Proof.
  induction l as [|b l IH]; simpl; intros Hl Hx.
  - split; [constructor | done].
  - destruct Hl as [Hb Hl]. apply Forall_cons in Hx as [Hbx Hx].
    split; [|by apply IH].
    apply Forall_app. split; [done|]. by repeat constructor.
Qed.

Lemma pairwise_perm {A} (R : A → A → Prop) l l' :
  (∀ a b, R a b → R b a) →
  l ≡ₚ l' → pairwise R l → pairwise R l'.
Proof.
  intros Hsym.
  induction 1 as [|x l l' Hp IH|x y l|l l' l'' _ IH1 _ IH2]; simpl.
  - done.
  - intros [Hx Hl]. split; [by rewrite <- Hp | by apply IH].
  - intros [Hy [Hx Hl]]. apply Forall_cons in Hy as [Hyx Hy].
    split_and!; [|done|done]. constructor; [by apply Hsym | done].
  - auto.
Qed.

Lemma pairwise_lookup {A} (R : A → A → Prop) l i j a b :
  (∀ a b, R a b → R b a) →
  pairwise R l → i ≠ j → l !! i = Some a → l !! j = Some b → R a b.
Proof.
  intros Hsym. revert i j.
  induction l as [|x l IH]; intros i j Hl Hij Ha Hb; [done|].
  destruct Hl as [Hx Hl]. rewrite Forall_forall in Hx.
  destruct i as [|i], j as [|j]; simpl in Ha, Hb; [done| | |].
  - injection Ha as <-. apply Hx. by eapply list_elem_of_lookup_2.
  - injection Hb as <-. apply Hsym, Hx. by eapply list_elem_of_lookup_2.
  - apply (IH i j); [done | congruence | done | done].
Qed.

Lemma pairwise_intro {A} (R : A → A → Prop) l :
  (∀ a b, a ∈ l → b ∈ l → R a b) → pairwise R l.
Proof.
  induction l as [|x l IH]; intros H; simpl; [done|]. split.
  - apply Forall_forall. intros a Ha. apply H; [left | by right].
  - apply IH. intros a b Ha Hb. apply H; by right.
Qed.

Lemma todo_clear_sym a b : todo_clear a b → todo_clear b a.
Proof.
  unfold todo_clear. intros H Hk Hi. apply H; [tauto | by apply intersects_sym].
Qed.

Lemma fixed_blocks_todo_clear (events : list FixedEvent.t) :
  pairwise todo_clear (fixed_block <$> events).
Proof.
  apply pairwise_intro. intros a b Ha Hb.
  apply list_elem_of_fmap in Ha as (ea & -> & _).
  apply list_elem_of_fmap in Hb as (eb & -> & _).
  intros [Hk|Hk]; simpl in Hk; discriminate.
Qed.

(** *** Sorting and filtering *)

Lemma insert_by_int_front {A} (key : A → Z) x l :
  Forall (λ y, key x ≤ key y) l → insert_by lt_int key x l = Ret (x :: l).
Proof.
  destruct 1 as [|y l Hy _]; simpl; [done|].
  unfold lt_int. simpl. destruct (Z.ltb_spec (key y) (key x)); [lia | done].
Qed.

Lemma insert_by_int_filter {A} (P : A → Prop) `{Hdec : !∀ x, Decision (P x)}
    (key : A → Z) x l s :
  StronglySorted (λ a b, key a ≤ key b) l →
  insert_by lt_int key x l = Ret s →
  if decide (P x)
  then insert_by lt_int key x (filter P l) = Ret (filter P s)
  else filter P s = filter P l.
Proof.
  revert s. induction l as [|y l IH]; intros s Hl H; simpl in H.
  - injection H as <-. rewrite filter_cons, filter_nil.
    by destruct (decide (P x)).
  - apply StronglySorted_inv in Hl as [Hl Hy].
    unfold lt_int in H. simpl in H.
    destruct (Z.ltb_spec (key y) (key x)) as [Hlt|Hge].
    + apply bind_Ret in H as (s' & Hs' & H). injection H as <-.
      specialize (IH _ Hl Hs'). revert IH. rewrite !(filter_cons _ y).
      destruct (decide (P x)), (decide (P y)); intros IH; try done.
      * cbn [insert_by]. change (lt_int (key y) (key x)) with (Ret (key y <? key x)).
        rewrite bind_Ret_l.
        destruct (Z.ltb_spec (key y) (key x)); [|lia].
        by rewrite IH.
      * by rewrite IH.
    + injection H as <-. rewrite (filter_cons _ x).
      destruct (decide (P x)); [|done].
      apply insert_by_int_front.
      apply Forall_forall. intros z Hz.
      apply list_elem_of_filter in Hz as [_ Hz].
      apply elem_of_cons in Hz as [->|Hz]; [done|].
      rewrite Forall_forall in Hy. specialize (Hy z Hz). simpl in Hy. lia.
Qed.

(** A stable sort commutes with a filter. *)
Lemma sorted_by_int_filter {A} (P : A → Prop) `{Hdec : !∀ x, Decision (P x)}
    (key : A → Z) l s :
  sorted_by lt_int key l = Ret s →
  sorted_by lt_int key (filter P l) = Ret (filter P s).
Proof.
  revert s. induction l as [|x l IH]; intros s H; simpl in H.
  - by injection H as <-.
  - apply bind_Ret in H as (s' & Hs' & H).
    pose proof (sorted_by_int_sorted _ _ _ Hs') as Hsorted.
    pose proof (insert_by_int_filter P key x s' s Hsorted H) as Hins.
    revert Hins. rewrite filter_cons. destruct (decide (P x)); intros Hins.
    + simpl. by rewrite (IH _ Hs'), bind_Ret_l.
    + rewrite Hins. by apply IH.
Qed.

(** *** More on the whole call *)

Lemma build_schedule_commits (P : alloc → Prop) fuel now parsed days start_date
    max_hours_per_day study_start_hour study_end_hour cram_or_not out :
  (∀ todo s, P s → P (begin_todo todo s)) →
  (∀ todo slot s,
     P s →
     over_daily_limit ((λ h, h * 60) <$> max_hours_per_day) slot s = false →
     is_free (blocks s) slot (Datetime.add_minutes slot BLOCK_MINUTES) = true →
     P (commit ((λ h, h * 60) <$> max_hours_per_day) todo slot s)) →
  P (first_alloc parsed) →
  build_schedule fuel now parsed days start_date max_hours_per_day
    study_start_hour study_end_hour cram_or_not = Ret out →
  ∃ st, P st ∧ sorted_by lt_int ScheduledBlock.start (blocks st) = Ret out.
Proof.
  intros Hbegin Hcommit Hfirst H.
  apply bind_Ret in H as (st & Hst & H).
  apply bind_Ret in Hst as (order & _ & Hst).
  exists st. split; [|done].
  by eapply schedule_todos_commits in Hst.
Qed.

(** X1.  With a daily limit of [hours] hours, the "todo" blocks that start on
    any one date add up to at most [hours * 60] minutes; fixed events do
    not count. *)
Theorem daily_cap_respected fuel now parsed days start_date hours
    study_start_hour study_end_hour cram_or_not out d :
  0 ≤ hours →
  build_schedule fuel now parsed days start_date (Some hours)
    study_start_hour study_end_hour cram_or_not = Ret out →
  day_minutes d out ≤ hours * 60.
Proof.
  intros Hhours H.
  apply (build_schedule_commits (day_ledger (hours * 60))) in H
    as (st & Hst & Hout).
  - apply sorted_by_perm in Hout. rewrite (day_minutes_perm _ _ _ Hout).
    apply Hst.
  - done.
  - intros todo slot s Hs Hlimit _. by apply commit_day_ledger.
  - split; intros d'; simpl; rewrite ?lookup_empty, day_minutes_fixed; simpl; lia.
Qed.

(** X3.  The output is in ascending order of start. *)
Theorem build_schedule_sorted_by_start fuel now parsed days start_date
    max_hours_per_day study_start_hour study_end_hour cram_or_not out :
  build_schedule fuel now parsed days start_date max_hours_per_day
    study_start_hour study_end_hour cram_or_not = Ret out →
  StronglySorted (λ a b, ScheduledBlock.start a ≤ ScheduledBlock.start b) out.
Proof.
  intros H. apply bind_Ret in H as (st & _ & H).
  by apply sorted_by_int_sorted in H.
Qed.

(** X4.  A "todo" block of the output intersects no other block of the output,
    fixed or todo, also when fixed events overlap one another. *)
Theorem todo_blocks_overlap_nothing fuel now parsed days start_date
    max_hours_per_day study_start_hour study_end_hour cram_or_not out i j a b :
  build_schedule fuel now parsed days start_date max_hours_per_day
    study_start_hour study_end_hour cram_or_not = Ret out →
  i ≠ j → out !! i = Some a → out !! j = Some b →
  ScheduledBlock.kind a = "todo" →
  ¬ intersects a b.
Proof.
  intros H Hij Ha Hb Hkind.
  apply (build_schedule_commits (λ s, pairwise todo_clear (blocks s))) in H
    as (st & Hst & Hout).
  - apply sorted_by_perm in Hout.
    apply (pairwise_perm _ _ out todo_clear_sym) in Hst; [|done].
    apply (pairwise_lookup todo_clear out i j a b todo_clear_sym); auto.
  - done.
  - intros todo slot s Hs _ Hfree. unfold commit. simpl.
    apply pairwise_snoc; [done|].
    eapply Forall_impl; [by apply is_free_apart|].
    simpl. intros c Hc _. exact Hc.
  - apply fixed_blocks_todo_clear.
Qed.

Lemma filter_fixed_blocks (events : list FixedEvent.t) :
  filter (λ b, ScheduledBlock.kind b = "fixed") (fixed_block <$> events)
  = fixed_block <$> events.
Proof.
  induction events as [|e events IH]; csimpl; [done|].
  rewrite filter_cons. simpl. by rewrite IH.
Qed.

(** The block list before the final sort: the fixed events, then "todo"
    blocks. *)
Lemma build_schedule_kinds fuel now parsed days start_date max_hours_per_day
    study_start_hour study_end_hour cram_or_not out :
  build_schedule fuel now parsed days start_date max_hours_per_day
    study_start_hour study_end_hour cram_or_not = Ret out →
  ∃ st,
    sorted_by lt_int ScheduledBlock.start (blocks st) = Ret out
    ∧ filter (λ b, ScheduledBlock.kind b = "fixed") (blocks st)
      = fixed_block <$> ParsedInput.fixed_events parsed
    ∧ Forall (λ b, ScheduledBlock.kind b = "fixed" ∨ ScheduledBlock.kind b = "todo")
        (blocks st).
Proof.
  intros H.
  apply (build_schedule_commits
           (λ s, filter (λ b, ScheduledBlock.kind b = "fixed") (blocks s)
                 = fixed_block <$> ParsedInput.fixed_events parsed
                 ∧ Forall (λ b, ScheduledBlock.kind b = "fixed"
                                ∨ ScheduledBlock.kind b = "todo") (blocks s))) in H
    as (st & [Hfixed Hkinds] & Hout).
  - by exists st.
  - done.
  - intros todo slot s [Hfixed Hkinds] _ _. unfold commit. simpl. split.
    + rewrite filter_app, Hfixed. rewrite filter_cons. simpl.
      by rewrite filter_nil, (right_id_L [] (++)).
    + apply Forall_app. split; [done|]. constructor; [by right | constructor].
  - split; [apply filter_fixed_blocks|].
    apply Forall_fmap, Forall_forall. intros e _. by left.
Qed.

(** X2.  The fixed events come out unchanged, each once, in ascending order of
    start and in the order of the input where starts are equal: the "fixed"
    blocks of the output are the stably sorted fixed events, whatever the
    todos and the parameters. *)
Theorem fixed_events_kept_in_order fuel now parsed days start_date
    max_hours_per_day study_start_hour study_end_hour cram_or_not out :
  build_schedule fuel now parsed days start_date max_hours_per_day
    study_start_hour study_end_hour cram_or_not = Ret out →
  sorted_by lt_int ScheduledBlock.start
    (fixed_block <$> ParsedInput.fixed_events parsed)
  = Ret (filter (λ b, ScheduledBlock.kind b = "fixed") out).
Proof.
  intros H. apply build_schedule_kinds in H as (st & Hout & Hfixed & _).
  rewrite <- Hfixed. by apply sorted_by_int_filter.
Qed.

(** *** Nothing to schedule *)

Lemma hour_replaced c h :
  0 ≤ h ≤ 23 →
  Datetime.hour (c * Datetime.US_PER_DAY + h * Datetime.US_PER_HOUR) = h.
Proof.
  unfold Datetime.hour, Datetime.US_PER_DAY, Datetime.US_PER_HOUR. intros Hh.
  Z.to_euclidean_division_equations. lia.
Qed.

Lemma next_day_empty_window g left d :
  0 ≤ g_study_start_hour g ≤ 23 →
  g_study_end_hour g ≤ g_study_start_hour g →
  next_day g left d = Ret None.
Proof.
  intros Hsh Heh. revert d. induction left as [|left IH]; intros d; simpl; [done|].
  unfold replace_hour.
  destruct (Z.leb_spec 0 (g_study_start_hour g)); [|lia].
  destruct (Z.leb_spec (g_study_start_hour g) 23); [|lia].
  simpl. rewrite hour_replaced by done.
  destruct (Z.ltb_spec (g_study_start_hour g) (g_study_end_hour g)); [lia|].
  apply IH.
Qed.

Lemma schedule_todos_idle fuel now days start_base max_minutes_per_day
    study_start_hour study_end_hour cram_or_not todos st :
  (0 < fuel)%nat →
  gen_next (_iter_study_slots start_base days study_start_hour study_end_hour)
  = Ret None
  ∨ Forall (λ t, TodoTask.deadline t ≤ now) todos →
  ∃ st',
    schedule_todos fuel now days start_base max_minutes_per_day study_start_hour
      study_end_hour cram_or_not todos st = Ret st'
    ∧ blocks st' = blocks st.
Proof.
  intros Hfuel Hidle. revert st.
  induction todos as [|t todos IH]; intros st; simpl; [eauto|].
  assert (schedule_todo fuel now days start_base max_minutes_per_day
            study_start_hour study_end_hour cram_or_not t st
          = Ret (begin_todo t st)) as ->.
  { unfold schedule_todo.
    destruct (Z.leb_spec (TodoTask.deadline t) now) as [|Hdue]; [done|].
    destruct Hidle as [Hnone|Hall].
    - destruct fuel as [|fuel]; [lia|]. simpl. by rewrite Hnone.
    - apply Forall_cons in Hall as [? _]. lia. }
  rewrite bind_Ret_l.
  destruct IH with (st := begin_todo t st) as (st' & -> & Hst'); [|eauto].
  destruct Hidle as [?|Hall]; [by left | right].
  by apply Forall_cons in Hall as [_ ?].
Qed.

(** X5.  With no day to plan ([days <= 0]), with an empty daily window (the
    normalized end hour is not after the start hour, as for a start hour of
    23) over a horizon that ends by 9999-12-31, or with overdue todos only,
    the call returns the fixed events in ascending order of start and
    nothing else. *)
Theorem nothing_to_schedule fuel now parsed days start_date max_hours_per_day
    study_start_hour study_end_hour cram_or_not :
  (0 < fuel)%nat →
  priorities_comparable (ParsedInput.todos parsed) →
  days ≤ 0
  ∨ (0 ≤ effective_start_hour study_start_hour ≤ 23
     ∧ effective_end_hour study_start_hour study_end_hour
       ≤ effective_start_hour study_start_hour
     ∧ horizon_in_calendar
         (Datetime.combine_midnight (effective_date now start_date)) days)
  ∨ Forall (λ t, TodoTask.deadline t ≤ now) (ParsedInput.todos parsed) →
  build_schedule fuel now parsed days start_date max_hours_per_day
    study_start_hour study_end_hour cram_or_not
  = sorted_by lt_int ScheduledBlock.start
      (fixed_block <$> ParsedInput.fixed_events parsed).
Proof.
  intros Hfuel Hprio Hidle.
  assert (days ≤ 0
          ∨ (0 ≤ effective_start_hour study_start_hour ≤ 23
             ∧ effective_end_hour study_start_hour study_end_hour
               ≤ effective_start_hour study_start_hour)
          ∨ Forall (λ t, TodoTask.deadline t ≤ now) (ParsedInput.todos parsed))
    as Hidle' by (destruct Hidle as [?|[(? & ? & _)|?]]; auto).
  clear Hidle. rename Hidle' into Hidle.
  unfold build_schedule, allocate, todo_order.
  destruct (sorted_by_int_total TodoTask.deadline
              (normalize_estimate <$> ParsedInput.todos parsed)) as [l1 Hl1].
  rewrite Hl1, bind_Ret_l.
  pose proof (sorted_by_perm _ _ _ _ Hl1) as Hp1.
  destruct (sorted_by_priority_returns l1) as [order Horder].
  { destruct Hprio as [Hall|Hshort]; [left|right].
    - rewrite Hp1. apply Forall_fmap. eapply Forall_impl; [exact Hall|].
      simpl. intros t. by rewrite normalize_estimate_priority.
    - by rewrite Hp1, length_fmap. }
  rewrite Horder, bind_Ret_l.
  pose proof (sorted_by_perm _ _ _ _ Horder) as Hp2.
  edestruct (schedule_todos_idle fuel now days
               (Datetime.combine_midnight (effective_date now start_date))
               ((λ h, h * 60) <$> max_hours_per_day)
               (effective_start_hour study_start_hour)
               (effective_end_hour study_start_hour study_end_hour)
               cram_or_not order (first_alloc parsed) Hfuel)
    as (st & -> & Hst).
  - destruct Hidle as [Hdays|[[Hsh Heh]|Hall]].
    + left. unfold gen_next. simpl.
      replace (Z.to_nat days) with 0%nat by lia. done.
    + left. unfold gen_next. simpl. by apply next_day_empty_window.
    + right. rewrite Hp2, Hp1. apply Forall_fmap.
      eapply Forall_impl; [exact Hall|]. simpl. intros t.
      by rewrite normalize_estimate_deadline.
  - rewrite bind_Ret_l. by rewrite Hst.
Qed.

(** *** The slots as a list *)

Lemma drains_steps g slots : drains g slots ↔ steps_to (gen_next g) slots.
Proof.
  split.
  - destruct 1 as [g Hg|g slot g' slots Hg Hrest]; simpl; eauto.
  - destruct slots as [|slot slots]; simpl.
    + by constructor.
    + intros (g' & Hg & Hrest). by econstructor.
Qed.

Lemma drains_unique g slots1 slots2 :
  drains g slots1 → drains g slots2 → slots1 = slots2.
Proof.
  intros H1. revert slots2.
  induction H1 as [g Hg|g slot g' slots Hg _ IH]; intros slots2 H2.
  - destruct H2 as [|g slot g' slots Hg']; [done | congruence].
  - destruct H2 as [g Hg'|g slot2 g2 slots2 Hg' H2]; [congruence|].
    assert (slot2 = slot ∧ g2 = g') as [-> ->] by (split; congruence).
    f_equal. by apply IH.
Qed.

Lemma list_slots_drains fuel g slots : list_slots fuel g = Ret slots → drains g slots.
Proof.
  revert g slots. induction fuel as [|fuel IH]; intros g slots H; [discriminate|].
  rewrite list_slots_S in H. apply bind_Ret in H as (nx & Hnx & H).
  destruct nx as [[slot g']|].
  - apply bind_Ret in H as (slots' & Hslots' & H). injection H as <-.
    econstructor; [exact Hnx | by apply IH].
  - injection H as <-. by constructor.
Qed.

Lemma drains_list_slots g slots fuel :
  drains g slots → (length slots < fuel)%nat → list_slots fuel g = Ret slots.
Proof.
  intros H. revert fuel.
  induction H as [g Hg|g slot g' slots Hg _ IH]; intros fuel Hfuel;
    (destruct fuel as [|fuel]; [simpl in Hfuel; lia|]);
    rewrite list_slots_S, Hg, bind_Ret_l.
  - done.
  - rewrite IH by (simpl in Hfuel; lia). done.
Qed.

Lemma drains_reach g0 g slots :
  gen_reach g0 g → drains g0 slots →
  ∃ seen rest, slots = seen ++ rest ∧ drains g rest.
Proof.
  intros Hg H0. induction Hg as [|g s g' _ IH Hnext].
  - by exists [], slots.
  - destruct IH as (seen & rest & -> & Hrest).
    destruct Hrest as [g Hg'|g s2 g2 rest Hg' Hrest]; [congruence|].
    assert (s2 = s ∧ g2 = g') as [-> ->] by (split; congruence).
    exists (seen ++ [s]), rest. by rewrite <- (assoc_L (++)).
Qed.

Lemma yields_drained g0 slots slot :
  drains g0 slots → yields g0 slot → slot ∈ slots.
Proof.
  intros H0 (g & g' & Hg & Hnext).
  destruct (drains_reach g0 g slots Hg H0) as (seen & rest & -> & Hrest).
  destruct Hrest as [g Hg'|g s2 g2 rest Hg' Hrest]; [congruence|].
  assert (s2 = slot) as -> by congruence.
  apply elem_of_app. right. left.
Qed.

Section Grid.
Variables (start_dt : datetime) (sh eh : Z).
Hypothesis HB : 0 < BLOCK_MINUTES ≤ 60.
Hypothesis Hsh : 0 ≤ sh ≤ 23.
Hypothesis Heh : eh ≤ 23.

Local Abbreviation per_day := (slots_per_day sh eh).
Local Abbreviation later d left :=
  (concat (day_slots start_dt sh eh <$> seqZ d (Z.of_nat left))).

Ltac units :=
  unfold grid_slot, day_base, Datetime.combine_midnight, Datetime.add_minutes,
    Datetime.US_PER_DAY, Datetime.US_PER_HOUR, Datetime.US_PER_MINUTE in *.

Lemma per_day_bounds (k : nat) :
  ((k < per_day)%nat → Z.of_nat k * BLOCK_MINUTES < (eh - sh) * 60)
  ∧ ((per_day ≤ k)%nat → (eh - sh) * 60 ≤ Z.of_nat k * BLOCK_MINUTES)
  ∧ ((k ≤ per_day)%nat → sh * 60 + Z.of_nat k * BLOCK_MINUTES < 1440).
Proof.
  unfold slots_per_day.
  set (a := (eh - sh) * 60 + BLOCK_MINUTES - 1).
  assert (BLOCK_MINUTES * (a / BLOCK_MINUTES) ≤ a) as Hlo
    by (apply Z.mul_div_le; lia).
  assert (a < BLOCK_MINUTES * Z.succ (a / BLOCK_MINUTES)) as Hhi
    by (apply Z.mul_succ_div_gt; lia).
  split_and!; intros Hk; nia.
Qed.

Lemma grid_slot_on_day d (k : nat) :
  (k ≤ per_day)%nat →
  (Datetime.to_date start_dt + d) * Datetime.US_PER_DAY ≤ grid_slot start_dt sh d k
  < (Datetime.to_date start_dt + d) * Datetime.US_PER_DAY + Datetime.US_PER_DAY.
Proof.
  intros Hk. destruct (per_day_bounds k) as (_ & _ & Hday).
  specialize (Hday Hk). units. nia.
Qed.

Lemma grid_slot_hour d (k : nat) :
  (k ≤ per_day)%nat →
  (Datetime.hour (grid_slot start_dt sh d k) <? eh) = bool_decide (k < per_day)%nat.
Proof.
  intros Hk. pose proof (grid_slot_on_day d k Hk) as Hon.
  pose proof (hour_on_day _ _ eh Hon) as Hhour.
  destruct (per_day_bounds k) as (Hlt & Hge & _).
  destruct (decide (k < per_day)%nat) as [Hk'|Hk'].
  - rewrite bool_decide_eq_true_2 by done. apply Z.ltb_lt, Hhour.
    specialize (Hlt Hk'). units. nia.
  - rewrite bool_decide_eq_false_2 by done. apply Z.ltb_ge.
    assert (¬ Datetime.hour (grid_slot start_dt sh d k) < eh); [|lia].
    rewrite Hhour. specialize (Hge ltac:(lia)). units. nia.
Qed.

Lemma later_S d left :
  later d (S left) = day_slots start_dt sh eh d ++ later (d + 1) left.
Proof.
  rewrite seqZ_cons by lia. csimpl.
  by replace (Z.pred (Z.of_nat (S left))) with (Z.of_nat left) by lia.
Qed.

Local Abbreviation tuned := (tuned_to start_dt sh eh).

(** The rest of a day that has begun, then the days to come. *)
Lemma rest_of_day left :
  (∀ g d, tuned g → steps_to (next_day g left d) (later d left)) →
  ∀ m (k : nat) g d,
    tuned g → g_d g = d → g_left g = left →
    (k + m = per_day)%nat →
    g_day g = Some (grid_slot start_dt sh (d - 1) k) →
    steps_to (gen_next g)
      ((grid_slot start_dt sh (d - 1) <$> seq k m) ++ later d left).
Proof.
  intros Hnext. induction m as [|m IH]; intros k g d Hg Hd Hleft Hk Hday.
  - unfold gen_next. rewrite Hday.
    destruct Hg as (Hs & Hgsh & Hgeh). rewrite Hgeh.
    rewrite grid_slot_hour, bool_decide_eq_false_2 by lia.
    rewrite Hleft, Hd. simpl. by apply Hnext.
  - unfold gen_next. rewrite Hday.
    pose proof Hg as (Hs & Hgsh & Hgeh). rewrite Hgeh.
    rewrite grid_slot_hour, bool_decide_eq_true_2 by lia.
    csimpl. eexists. split; [done|].
    apply drains_steps. apply (IH (S k) _ d); try done; try lia.
    unfold suspend. simpl. f_equal. units. lia.
Qed.

Lemma days_to_come left :
  (∀ g d, tuned g → steps_to (next_day g left d) (later d left))
  ∧ (∀ (k : nat) g d,
       tuned g → g_d g = d → g_left g = left →
       (k ≤ per_day)%nat →
       g_day g = Some (grid_slot start_dt sh (d - 1) k) →
       steps_to (gen_next g)
         ((grid_slot start_dt sh (d - 1) <$> seq k (per_day - k)) ++ later d left)).
Proof.
  induction left as [|left [IHnext IHday]].
  - assert (∀ g d, tuned g → steps_to (next_day g 0 d) (later d 0)) as Hnext
      by done.
    split; [done|]. intros k g d Hg Hd Hleft Hk Hday.
    apply (rest_of_day 0 Hnext); try done. lia.
  - assert (∀ g d, tuned g → steps_to (next_day g (S left) d) (later d (S left)))
      as Hnext.
    { intros g d Hg. pose proof Hg as (Hs & Hgsh & Hgeh).
      rewrite later_S. simpl. rewrite Hs, Hgsh, Hgeh.
      unfold replace_hour.
      destruct (Z.leb_spec 0 sh); [|lia]. destruct (Z.leb_spec sh 23); [|lia].
      simpl. rewrite to_date_add_days.
      change ((Datetime.to_date start_dt + d) * Datetime.US_PER_DAY
              + sh * Datetime.US_PER_HOUR)
        with (day_base start_dt d + sh * Datetime.US_PER_HOUR).
      replace (day_base start_dt d + sh * Datetime.US_PER_HOUR)
        with (grid_slot start_dt sh d 0) by (units; lia).
      rewrite grid_slot_hour by lia.
      destruct (decide (0 < per_day)%nat) as [Hn|Hn].
      - rewrite bool_decide_eq_true_2 by done.
        assert (day_slots start_dt sh eh d
                = grid_slot start_dt sh d 0
                  :: (grid_slot start_dt sh d <$> seq 1 (per_day - 1))) as ->.
        { unfold day_slots. destruct per_day; [lia|]. csimpl.
          by rewrite Nat.sub_0_r. }
        csimpl. eexists. split; [done|]. apply drains_steps.
        specialize (IHday 1%nat (suspend g (d + 1) left (grid_slot start_dt sh d 0))
                      (d + 1)).
        replace (d + 1 - 1) with d in IHday by lia.
        apply IHday; try done; try lia.
        unfold suspend. simpl. f_equal. units. lia.
      - rewrite bool_decide_eq_false_2 by done.
        assert (day_slots start_dt sh eh d = []) as ->.
        { unfold day_slots. by replace per_day with 0%nat by lia. }
        simpl. by apply IHnext. }
    split; [done|]. intros k g d Hg Hd Hleft Hk Hday.
    apply (rest_of_day (S left) Hnext); try done. lia.
Qed.

Lemma iter_study_slots_drains days :
  drains (_iter_study_slots start_dt days sh eh) (slot_grid start_dt days sh eh).
Proof.
  apply drains_steps. unfold gen_next. simpl.
  destruct (days_to_come (Z.to_nat days)) as [Hnext _].
  specialize (Hnext (_iter_study_slots start_dt days sh eh) 0).
  unfold slot_grid.
  replace (seqZ 0 days) with (seqZ 0 (Z.of_nat (Z.to_nat days)))
    by (unfold seqZ; by rewrite Nat2Z.id).
  by apply Hnext.
Qed.

End Grid.

Lemma slot_grid_length start_dt days study_start_hour study_end_hour :
  length (slot_grid start_dt days study_start_hour study_end_hour)
  = (Z.to_nat days * slots_per_day study_start_hour study_end_hour)%nat.
Proof.
  unfold slot_grid, seqZ. generalize (Z.to_nat days) 0%nat. intros n.
  induction n as [|n IH]; intros m; csimpl; [done|].
  rewrite length_app, IH. unfold day_slots. by rewrite length_fmap, length_seq.
Qed.

Lemma slot_grid_in_window start_dt days sh eh :
  0 < BLOCK_MINUTES ≤ 60 → 0 ≤ sh ≤ 23 → eh ≤ 23 →
  Forall (in_window start_dt days sh eh) (slot_grid start_dt days sh eh).
Proof.
  intros HB Hsh Heh.
  pose (n := Z.to_nat (day_base start_dt (Z.max 0 days)
                       - gen_floor start_dt (_iter_study_slots start_dt days sh eh))).
  destruct (list_slots_total start_dt days sh eh HB Heh n _ Hsh
              (iter_study_slots_inv start_dt days sh eh))
    as (slots & Hslots & _ & Hall); [lia|].
  pose proof (iter_study_slots_drains start_dt sh eh HB Hsh Heh days) as Hgrid.
  set (m := S (length (slot_grid start_dt days sh eh))).
  apply (drains_list_slots _ _ m) in Hgrid; [|lia].
  eapply list_slots_more in Hslots; [|apply (Nat.le_max_l _ m)].
  eapply list_slots_more in Hgrid; [|apply (Nat.le_max_r (S n))].
  rewrite Hslots in Hgrid. injection Hgrid as <-.
  eapply Forall_impl; [exact Hall|]. by intros slot [_ ?].
Qed.

(** X6.  With a block of at most an hour, a start hour from 0 to 23, an end hour
    of at most 23 and a horizon that ends by 9999-12-31, the generator
    yields exactly the grid: day after day, one slot every [BLOCK_MINUTES]
    minutes from the start hour for as long as the slot starts before the
    end hour; that is [days] times the window's length divided by the block
    length, rounded up.  Every slot of the grid and the end of its block
    are datetimes of the calendar. *)
Theorem iter_study_slots_grid start_dt days study_start_hour study_end_hour fuel :
  0 < BLOCK_MINUTES ≤ 60 →
  0 ≤ study_start_hour ≤ 23 →
  study_end_hour ≤ 23 →
  horizon_in_calendar start_dt days →
  (Z.to_nat days * slots_per_day study_start_hour study_end_hour < fuel)%nat →
  list_slots fuel (_iter_study_slots start_dt days study_start_hour study_end_hour)
  = Ret (slot_grid start_dt days study_start_hour study_end_hour)
  ∧ Forall
      (λ slot,
         in_calendar slot ∧ in_calendar (Datetime.add_minutes slot BLOCK_MINUTES))
      (slot_grid start_dt days study_start_hour study_end_hour).
Proof.
  intros HB Hsh Heh Hcal Hfuel.
  pose proof (iter_study_slots_drains start_dt study_start_hour
                study_end_hour HB Hsh Heh days) as Hdrains.
  split.
  - apply drains_list_slots; [done|]. by rewrite slot_grid_length.
  - apply Forall_forall. intros slot Hslot.
    apply (in_window_in_calendar start_dt days study_start_hour study_end_hour);
      [exact HB|lia|exact Heh|exact Hcal|].
    pose proof (slot_grid_in_window start_dt days study_start_hour study_end_hour
                  HB Hsh Heh) as Hw.
    by apply (proj1 (Forall_forall _ _) Hw).
Qed.

(** *** First fit *)

Lemma is_free_app bs1 bs2 start end_ :
  is_free (bs1 ++ bs2) start end_ = is_free bs1 start end_ && is_free bs2 start end_.
Proof. apply forallb_app. Qed.

Lemma is_free_perm bs bs' start end_ :
  bs ≡ₚ bs' → is_free bs start end_ = is_free bs' start end_.
Proof.
  unfold is_free. induction 1 as [|x l l' _ IH|x y l|l l' l'' _ IH1 _ IH2]; simpl.
  - done.
  - by rewrite IH.
  - by rewrite !andb_assoc, (andb_comm (_ || _) (_ || _)).
  - congruence.
Qed.

Lemma no_room_commit cap todo slot st x :
  0 ≤ BLOCK_MINUTES →
  no_room cap x st → no_room cap x (commit cap todo slot st).
Proof.
  intros HB [Hfree|Hlimit]; [left|right].
  - unfold commit. simpl. by rewrite is_free_app, Hfree.
  - unfold over_daily_limit, commit in *. destruct cap as [cap|]; [|done]. simpl.
    destruct (decide (Datetime.to_date slot = Datetime.to_date x)) as [Heq|Hne].
    + rewrite Heq, lookup_insert_eq. simpl. lia.
    + by rewrite lookup_insert_ne.
Qed.

Lemma no_room_taken cap todo slot st :
  0 < BLOCK_MINUTES → no_room cap slot (commit cap todo slot st).
Proof.
  intros HB. left. unfold commit. simpl. rewrite is_free_app.
  apply andb_false_iff. right. unfold is_free. simpl.
  unfold Datetime.add_minutes, Datetime.US_PER_MINUTE. lia.
Qed.

Section FirstFit.
Variables (fuel : nat) (max_minutes_per_day : option Z).
Variables (study_start_hour study_end_hour : Z) (cram_or_not : bool).
Variable (todo : TodoTask.t).
Hypothesis HB : 0 < BLOCK_MINUTES.
Hypothesis Hplain : cram_or_not = false ∨ TodoTask.exam_or_not todo = false.

Local Abbreviation body :=
  (todo_body fuel max_minutes_per_day study_start_hour study_end_hour cram_or_not
     todo).

Lemma for_slots_no_room n g st st' x :
  no_room max_minutes_per_day x st →
  for_slots n body g st = Ret st' →
  no_room max_minutes_per_day x st'.
Proof.
  intros Hx H.
  eapply (for_slots_inv (no_room max_minutes_per_day x) body g);
    [|apply reach_start|exact Hx|exact H].
  intros slot s r _ Hs Hr.
  apply todo_body_reasons in Hr
    as [[_ ->]|[(_ & _ & ->)|(_ & _ & [(_ & _ & ->)|[[_ ->]|(_ & _ & ->)]])]];
    simpl; auto.
  apply no_room_commit; [lia | done].
Qed.

(** The loop goes through the slots in order, leaves every slot it passes
    taken or on a day at its limit, and stops only when the slots are used
    up, the next one is at or after the deadline, or nothing remains to be
    placed. *)
Lemma for_slots_first_fit g slots :
  drains g slots →
  StronglySorted Z.lt slots →
  ∀ n st st',
    for_slots n body g st = Ret st' →
    ∃ passed rest committed : list datetime,
      slots = passed ++ rest
      ∧ blocks st' = blocks st ++ (todo_block todo <$> committed)
      ∧ remaining st' = remaining st - BLOCK_MINUTES * Z.of_nat (length committed)
      ∧ committed ⊆ passed
      ∧ Forall (λ s, s < TodoTask.deadline todo
                     ∧ no_room max_minutes_per_day s st') passed
      ∧ (remaining st' ≤ 0 ∨ Forall (λ s, TodoTask.deadline todo ≤ s) rest).
Proof.
  induction 1 as [g Hg|g slot g' slots Hg _ IH]; intros Hsorted n st st' H;
    (destruct n as [|n]; [discriminate|]); simpl in H;
    rewrite Hg, bind_Ret_l in H.
  - injection H as <-. exists [], [], []. simpl.
    rewrite (right_id_L [] (++)). split_and!; try done; [lia | by right].
  - apply StronglySorted_inv in Hsorted as [Hsorted Hslot].
    apply bind_Ret in H as (r & Hr & H).
    apply todo_body_reasons in Hr
      as [[Hdl ->]|[(_ & Hrem & ->)
         |(Hdl & _ & [(Hc & He & _)|[[Hfull ->]|(_ & _ & ->)]])]].
    + injection H as <-. exists [], (slot :: slots), []. simpl.
      rewrite (right_id_L [] (++)). split_and!; try done; [lia|].
      right. constructor; [done|].
      eapply Forall_impl; [exact Hslot|]. simpl. lia.
    + injection H as <-. exists [], (slot :: slots), []. simpl.
      rewrite (right_id_L [] (++)). split_and!; try done; [lia | by left].
    + destruct Hplain; congruence.
    + destruct (IH Hsorted _ _ _ H)
        as (passed & rest & committed & -> & Hbs & Hrem & Hsub & Hpassed & Hstop).
      exists (slot :: passed), rest, committed.
      split_and!; try done; [intros x Hx; right; by apply Hsub|].
      constructor; [|done]. split; [done|]. by eapply for_slots_no_room.
    + destruct (IH Hsorted _ _ _ H)
        as (passed & rest & committed & -> & Hbs & Hrem & Hsub & Hpassed & Hstop).
      exists (slot :: passed), rest, (slot :: committed).
      split_and!; try done.
      * rewrite Hbs. unfold commit. simpl. by rewrite <- (assoc_L (++)).
      * rewrite Hrem. unfold commit. simpl. lia.
      * intros x Hx. apply elem_of_cons in Hx as [->|Hx]; [left|].
        right. by apply Hsub.
      * constructor; [|done]. split; [done|].
        eapply for_slots_no_room; [|exact H]. by apply no_room_taken.
Qed.

End FirstFit.

Lemma slot_grid_sorted start_dt days study_start_hour study_end_hour :
  0 < BLOCK_MINUTES ≤ 60 →
  0 ≤ study_start_hour ≤ 23 →
  study_end_hour ≤ 23 →
  StronglySorted Z.lt (slot_grid start_dt days study_start_hour study_end_hour).
Proof.
  intros HB Hsh Heh.
  pose (n := Z.to_nat (day_base start_dt (Z.max 0 days)
                       - gen_floor start_dt
                           (_iter_study_slots start_dt days study_start_hour
                              study_end_hour))).
  destruct (list_slots_total start_dt days study_start_hour study_end_hour
              HB Heh n _ Hsh
              (iter_study_slots_inv start_dt days study_start_hour study_end_hour))
    as (slots & Hslots & Hsorted & _); [lia|].
  apply list_slots_drains in Hslots.
  by rewrite (drains_unique _ _ _
                (iter_study_slots_drains start_dt study_start_hour study_end_hour
                   HB Hsh Heh days) Hslots).
Qed.

Section TurnFirstFit.
Variables (fuel : nat) (now : datetime) (days : Z) (start_base : datetime).
Variables (max_minutes_per_day : option Z).
Variables (study_start_hour study_end_hour : Z) (cram_or_not : bool).
Hypothesis HB : 0 < BLOCK_MINUTES ≤ 60.
Hypothesis Hsh : 0 ≤ study_start_hour ≤ 23.
Hypothesis Heh : study_end_hour ≤ 23.

Local Abbreviation grid :=
  (slot_grid start_base days study_start_hour study_end_hour).
Local Abbreviation run_todo :=
  (schedule_todo fuel now days start_base max_minutes_per_day
     study_start_hour study_end_hour cram_or_not).

Lemma schedule_todo_first_fit todo st st' :
  cram_or_not = false ∨ TodoTask.exam_or_not todo = false →
  now < TodoTask.deadline todo →
  run_todo todo st = Ret st' →
  ∃ passed rest committed : list datetime,
    grid = passed ++ rest
    ∧ blocks st' = blocks st ++ (todo_block todo <$> committed)
    ∧ remaining st'
      = TodoTask.estimated_time_minutes todo
        - BLOCK_MINUTES * Z.of_nat (length committed)
    ∧ committed ⊆ passed
    ∧ Forall (λ s, s < TodoTask.deadline todo
                   ∧ no_room max_minutes_per_day s st') passed
    ∧ (remaining st' ≤ 0 ∨ Forall (λ s, TodoTask.deadline todo ≤ s) rest).
Proof.
  intros Hplain Hdue H. unfold schedule_todo in H.
  destruct (Z.leb_spec (TodoTask.deadline todo) now); [lia|].
  eapply for_slots_first_fit in H; [exact H | lia | done | |].
  - by apply iter_study_slots_drains.
  - by apply slot_grid_sorted.
Qed.

(** X7.  In a turn without cram deferral that ends with minutes still to place,
    every slot of the grid before the todo's deadline is taken or lies on a
    day that has reached the daily limit. *)
Theorem shortfall_leaves_no_room todo st st' slot :
  cram_or_not = false ∨ TodoTask.exam_or_not todo = false →
  now < TodoTask.deadline todo →
  run_todo todo st = Ret st' →
  0 < remaining st' →
  slot ∈ grid →
  slot < TodoTask.deadline todo →
  no_room max_minutes_per_day slot st'.
Proof.
  intros Hplain Hdue H Hrem Hslot Hdl.
  destruct (schedule_todo_first_fit todo st st' Hplain Hdue H)
    as (passed & rest & committed & Hgrid & _ & _ & _ & Hpassed & [?|Hrest]);
    [lia|].
  rewrite Hgrid in Hslot. apply elem_of_app in Hslot as [Hslot|Hslot].
  - rewrite Forall_forall in Hpassed. by apply Hpassed.
  - rewrite Forall_forall in Hrest. specialize (Hrest _ Hslot). lia.
Qed.

(** X8.  In a turn without cram deferral the blocks go to the earliest slots
    that can take them: when the turn is over, every slot of the grid that
    precedes one of the todo's new blocks is taken or lies on a day that has
    reached the daily limit. *)
Theorem todo_blocks_first_fit todo st st' :
  cram_or_not = false ∨ TodoTask.exam_or_not todo = false →
  now < TodoTask.deadline todo →
  run_todo todo st = Ret st' →
  ∃ committed : list datetime,
    blocks st' = blocks st ++ (todo_block todo <$> committed)
    ∧ committed ⊆ grid
    ∧ ∀ earlier slot,
        slot ∈ committed → earlier ∈ grid → earlier < slot →
        no_room max_minutes_per_day earlier st'.
Proof.
  intros Hplain Hdue H.
  destruct (schedule_todo_first_fit todo st st' Hplain Hdue H)
    as (passed & rest & committed & Hgrid & Hbs & _ & Hsub & Hpassed & _).
  exists committed. split_and!; [done | |].
  { rewrite Hgrid. intros x Hx. apply elem_of_app. left. by apply Hsub. }
  intros earlier slot Hslot Hearlier Hlt.
  pose proof (slot_grid_sorted start_base days study_start_hour study_end_hour
                HB Hsh Heh) as Hsorted.
  rewrite Hgrid in Hsorted, Hearlier.
  apply elem_of_app in Hearlier as [Hearlier|Hearlier].
  - rewrite Forall_forall in Hpassed. by apply Hpassed.
  - apply Hsub in Hslot.
    apply list_elem_of_split in Hearlier as (r1 & r2 & ->).
    apply list_elem_of_split in Hslot as (p1 & p2 & ->).
    rewrite <- (assoc_L (++)) in Hsorted.
    apply StronglySorted_app_1_r, StronglySorted_inv in Hsorted as [_ Hall].
    rewrite Forall_forall in Hall.
    assert (slot < earlier); [|lia]. apply Hall.
    rewrite !elem_of_app, elem_of_cons. auto.
Qed.

End TurnFirstFit.

(** *** Priority precedence *)

Section Precedence.
Variables (fuel : nat) (now : datetime) (days : Z) (start_base : datetime).
Variables (max_minutes_per_day : option Z).
Variables (study_start_hour study_end_hour : Z) (cram_or_not : bool).

Local Abbreviation g0 :=
  (_iter_study_slots start_base days study_start_hour study_end_hour).
Local Abbreviation body :=
  (todo_body fuel max_minutes_per_day study_start_hour study_end_hour cram_or_not).
Local Abbreviation run_todo :=
  (schedule_todo fuel now days start_base max_minutes_per_day
     study_start_hour study_end_hour cram_or_not).
Local Abbreviation run_todos :=
  (schedule_todos fuel now days start_base max_minutes_per_day
     study_start_hour study_end_hour cram_or_not).

(** What a turn grants: the blocks it appends, the minutes it leaves to be
    placed, and slots of the generator that had room when the turn began. *)
Lemma schedule_todo_granted todo st st' :
  run_todo todo st = Ret st' →
  ∃ granted : list datetime,
    blocks st' = blocks st ++ (todo_block todo <$> granted)
    ∧ remaining st'
      = TodoTask.estimated_time_minutes todo
        - BLOCK_MINUTES * Z.of_nat (length granted)
    ∧ (0 ≤ BLOCK_MINUTES →
       Forall (λ slot, yields g0 slot ∧ ¬ no_room max_minutes_per_day slot st)
         granted).
Proof.
  intros H. unfold schedule_todo in H.
  destruct (Z.leb_spec (TodoTask.deadline todo) now) as [|Hnow].
  { injection H as <-. exists []. simpl. rewrite (right_id_L [] (++)).
    split_and!; [done | lia | by constructor]. }
  pose (P := λ s : alloc,
          ∃ granted : list datetime,
            blocks s = blocks st ++ (todo_block todo <$> granted)
            ∧ remaining s
              = TodoTask.estimated_time_minutes todo
                - BLOCK_MINUTES * Z.of_nat (length granted)
            ∧ (0 ≤ BLOCK_MINUTES →
               Forall (λ slot, yields g0 slot
                               ∧ ¬ no_room max_minutes_per_day slot st) granted
               ∧ ∀ x, no_room max_minutes_per_day x st
                      → no_room max_minutes_per_day x s)).
  enough (P st') as (granted & ? & ? & Hroom).
  { exists granted. split_and!; [done | done |]. intros HB. by apply Hroom. }
  eapply (for_slots_inv P (body todo)); [|apply reach_start| |exact H].
  - intros slot s r Hy (granted & Hbs & Hrem & Hroom) Hr.
    apply todo_body_reasons in Hr
      as [[_ ->]|[(_ & _ & ->)
         |(_ & _ & [(_ & _ & ->)|[[_ ->]|(Hlim & Hfree & ->)]])]];
      simpl; try by exists granted.
    exists (granted ++ [slot]). split_and!.
    + unfold commit. simpl. by rewrite Hbs, fmap_app, <- (assoc_L (++)).
    + unfold commit. simpl. rewrite Hrem, length_app. simpl. lia.
    + intros HB. destruct (Hroom HB) as [Hall Hmono]. split.
      * apply Forall_app. split; [done|]. constructor; [|constructor].
        split; [done|]. intros Hno. apply Hmono in Hno.
        destruct Hno as [Hno|Hno]; congruence.
      * intros x Hx. apply no_room_commit; [done|]. by apply Hmono.
  - exists []. simpl. rewrite (right_id_L [] (++)).
    split_and!; [done | lia |]. intros _. split; [constructor | done].
Qed.

(** A slot without room stays without room through the turns. *)
Lemma schedule_todos_no_room todos st st' x :
  0 ≤ BLOCK_MINUTES →
  no_room max_minutes_per_day x st →
  run_todos todos st = Ret st' →
  no_room max_minutes_per_day x st'.
Proof.
  intros HB Hx H.
  eapply (schedule_todos_commits _ _ _ _ _ _ _ _ (no_room max_minutes_per_day x));
    [| |exact Hx|exact H].
  - done.
  - intros todo slot s Hs _ _. by apply no_room_commit.
Qed.

End Precedence.

(** C6, as the engine has it.  The engine works through the todos in
    ascending order of priority number, an earlier deadline first among
    equal priorities; the order is that of a stable sort by deadline
    followed by a stable sort by priority ([todo_order]).  So of two todos
    with different priority numbers the one with the smaller number has its
    whole turn, in which all its blocks are committed, before the turn of
    the other begins, and what it was granted stays in place.  Where the
    cram branch does not defer it (cram mode is off, or it is no exam), a
    due todo takes in its turn the slots with room before its deadline
    until its estimate is met: if the turn leaves minutes to be placed, no
    slot of the grid before the deadline has room left, and the todo with
    the larger number is granted a slot before that deadline only if the
    estimate of the first was met in full. *)
Theorem priority_precedence fuel now parsed days start_date max_hours_per_day
    study_start_hour study_end_hour cram_or_not out :
  build_schedule fuel now parsed days start_date max_hours_per_day
    study_start_hour study_end_hour cram_or_not = Ret out →
  let start_base := Datetime.combine_midnight (effective_date now start_date) in
  let cap := (λ h, h * 60) <$> max_hours_per_day in
  let sh := effective_start_hour study_start_hour in
  let eh := effective_end_hour study_start_hour study_end_hour in
  let run_todo := schedule_todo fuel now days start_base cap sh eh cram_or_not in
  let run_todos := schedule_todos fuel now days start_base cap sh eh cram_or_not in
  ∃ order st,
    todo_order parsed = Ret order
    ∧ order ≡ₚ normalize_estimate <$> ParsedInput.todos parsed
    ∧ StronglySorted goes_before order
    ∧ run_todos order (first_alloc parsed) = Ret st
    ∧ out ≡ₚ blocks st
    ∧ ∀ a b pa pb,
        a ∈ order → b ∈ order →
        TodoTask.priority a = Some pa → TodoTask.priority b = Some pb →
        pa < pb →
        ∃ l1 l2 l3 st1 st2 st3 st4 (granted_a granted_b : list datetime),
          order = l1 ++ a :: l2 ++ b :: l3
          ∧ run_todos l1 (first_alloc parsed) = Ret st1
          ∧ run_todo a st1 = Ret st2
          ∧ blocks st2 = blocks st1 ++ (todo_block a <$> granted_a)
          ∧ remaining st2
            = TodoTask.estimated_time_minutes a
              - BLOCK_MINUTES * Z.of_nat (length granted_a)
          ∧ run_todos l2 st2 = Ret st3
          ∧ blocks st2 `prefix_of` blocks st3
          ∧ run_todo b st3 = Ret st4
          ∧ blocks st4 = blocks st3 ++ (todo_block b <$> granted_b)
          ∧ run_todos l3 st4 = Ret st
          ∧ (0 < BLOCK_MINUTES ≤ 60 → 0 ≤ sh ≤ 23 → eh ≤ 23 →
             cram_or_not = false ∨ TodoTask.exam_or_not a = false →
             now < TodoTask.deadline a →
             (0 < remaining st2 →
              ∀ slot, slot ∈ slot_grid start_base days sh eh →
                      slot < TodoTask.deadline a →
                      no_room cap slot st2)
             ∧ (∀ slot, slot ∈ granted_b → slot < TodoTask.deadline a →
                        TodoTask.estimated_time_minutes a
                        ≤ BLOCK_MINUTES * Z.of_nat (length granted_a))).
Proof.
  intros H start_base cap sh eh run_todo run_todos.
  apply build_schedule_Ret in H as (order & st & Horder & Hst & Hout).
  pose proof (todo_order_sorted _ _ Horder) as Hsorted.
  exists order, st. split_and!; [done | by apply todo_order_perm | done..|].
  intros a b pa pb Ha Hb Hpa Hpb Hlt.
  destruct (sorted_split a b pa pb order) as (l1 & l2 & l3 & ->); try done.
  apply schedule_todos_app in Hst as (st1 & H1 & H).
  simpl in H. apply bind_Ret in H as (st2 & H2 & H).
  apply schedule_todos_app in H as (st3 & H3 & H).
  simpl in H. apply bind_Ret in H as (st4 & H4 & H).
  destruct (schedule_todo_granted _ _ _ _ _ _ _ _ _ _ _ H2)
    as (granted_a & Hbs_a & Hrem_a & _).
  destruct (schedule_todo_granted _ _ _ _ _ _ _ _ _ _ _ H4)
    as (granted_b & Hbs_b & _ & Hroom_b).
  exists l1, l2, l3, st1, st2, st3, st4, granted_a, granted_b.
  split_and!; try done; [by eapply schedule_todos_prefix|].
  intros HB Hsh Heh Hplain Hdue.
  assert (0 < remaining st2 →
          ∀ slot, slot ∈ slot_grid start_base days sh eh →
                  slot < TodoTask.deadline a →
                  no_room cap slot st2) as Hfit.
  { intros Hrem slot Hslot Hdl.
    destruct (schedule_todo_first_fit fuel now days start_base cap sh eh
                cram_or_not HB Hsh Heh a st1 st2 Hplain Hdue H2)
      as (passed & rest & committed & Hgrid & _ & _ & _ & Hpassed & [?|Hrest]);
      [lia|].
    rewrite Hgrid in Hslot. apply elem_of_app in Hslot as [Hslot|Hslot].
    - rewrite Forall_forall in Hpassed. by apply Hpassed.
    - rewrite Forall_forall in Hrest. specialize (Hrest _ Hslot). lia. }
  split; [exact Hfit|].
  intros slot Hslot Hdl.
  destruct (Z.le_gt_cases (remaining st2) 0) as [|Hrem]; [lia|].
  assert (0 ≤ BLOCK_MINUTES) as HB0 by lia.
  specialize (Hroom_b HB0). rewrite Forall_forall in Hroom_b.
  destruct (Hroom_b _ Hslot) as [Hy Hroom]. destruct Hroom.
  eapply schedule_todos_no_room; [exact HB0| |exact H3].
  apply Hfit; [done| |done].
  eapply yields_drained; [|exact Hy].
  by apply iter_study_slots_drains.
Qed.

(** *** On the grid *)

(** X9.  With a block of at most an hour, a start hour from 0 to 23 and a
    (normalized) end hour of at most 23, every "todo" block of the output
    starts at a slot of the grid and is one block long. *)
Theorem todo_blocks_on_grid fuel now parsed days start_date max_hours_per_day
    study_start_hour study_end_hour cram_or_not out b :
  0 < BLOCK_MINUTES ≤ 60 →
  0 ≤ effective_start_hour study_start_hour ≤ 23 →
  effective_end_hour study_start_hour study_end_hour ≤ 23 →
  build_schedule fuel now parsed days start_date max_hours_per_day
    study_start_hour study_end_hour cram_or_not = Ret out →
  b ∈ out →
  ScheduledBlock.kind b = "todo" →
  ScheduledBlock.start b
    ∈ slot_grid (Datetime.combine_midnight (effective_date now start_date))
        days (effective_start_hour study_start_hour)
        (effective_end_hour study_start_hour study_end_hour)
  ∧ ScheduledBlock.end_ b
    = Datetime.add_minutes (ScheduledBlock.start b) BLOCK_MINUTES.
Proof.
  intros HB Hsh Heh H Hb Hkind. apply build_schedule_accounted in H.
  unfold accounted in H. rewrite Forall_forall in H.
  destruct (H b Hb Hkind) as (todo & _ & Heq & _ & _ & Hy). split.
  - eapply yields_drained; [|exact Hy]. by apply iter_study_slots_drains.
  - by rewrite Heq at 1.
Qed.

(** X10.  No "todo" block starts before the midnight with which today began,
    whatever [start_date] is; the hours of today that are already over are
    not excluded. *)
Theorem todo_blocks_not_before_today fuel now parsed days start_date
    max_hours_per_day study_start_hour study_end_hour cram_or_not out b :
  0 < BLOCK_MINUTES ≤ 60 →
  effective_end_hour study_start_hour study_end_hour ≤ 23 →
  build_schedule fuel now parsed days start_date max_hours_per_day
    study_start_hour study_end_hour cram_or_not = Ret out →
  b ∈ out →
  ScheduledBlock.kind b = "todo" →
  Datetime.combine_midnight (Datetime.to_date now) ≤ ScheduledBlock.start b.
Proof.
  intros HB Heh H Hb Hkind. apply build_schedule_accounted in H.
  unfold accounted in H. rewrite Forall_forall in H.
  destruct (H b Hb Hkind) as (todo & _ & _ & _ & _ & Hy).
  apply yields_in_window in Hy as [Hw Hsh]; [|done|done].
  eapply in_window_horizon in Hw; [|exact HB|exact Heh|lia].
  destruct Hw as [Hlo _].
  unfold day_base, Datetime.combine_midnight, Datetime.to_date in *.
  rewrite Z.div_mul in Hlo by (unfold Datetime.US_PER_DAY; lia).
  assert (now / Datetime.US_PER_DAY ≤ effective_date now start_date).
  { unfold effective_date, Datetime.to_date. destruct start_date; lia. }
  unfold Datetime.US_PER_DAY in *. lia.
Qed.

(** *** A start hour that is no hour *)

Lemma schedule_todos_bad_hour fuel now days start_base max_minutes_per_day
    study_start_hour study_end_hour cram_or_not todos st e :
  (0 < fuel)%nat →
  gen_next (_iter_study_slots start_base days study_start_hour study_end_hour)
  = Raise e →
  Exists (λ t, now < TodoTask.deadline t) todos →
  schedule_todos fuel now days start_base max_minutes_per_day study_start_hour
    study_end_hour cram_or_not todos st = Raise e.
Proof.
  intros Hfuel Hnext Hdue. revert st.
  assert (∀ t st,
    now < TodoTask.deadline t →
    schedule_todo fuel now days start_base max_minutes_per_day study_start_hour
      study_end_hour cram_or_not t st = Raise e) as Hturn.
  { intros t st Ht. unfold schedule_todo.
    destruct (Z.leb_spec (TodoTask.deadline t) now); [lia|].
    destruct fuel as [|n]; [lia|]. simpl. by rewrite Hnext. }
  induction Hdue as [t todos Ht|t todos _ IH]; intros st; simpl.
  - by rewrite Hturn.
  - destruct (Z.leb_spec (TodoTask.deadline t) now) as [Hover|Ht].
    + unfold schedule_todo. destruct (Z.leb_spec (TodoTask.deadline t) now); [|lia].
      rewrite bind_Ret_l. apply IH.
    + by rewrite Hturn.
Qed.

(** X11.  A start hour outside 0..23 makes the call raise as soon as there is a
    day to plan and a todo that is still due: [ValueError] when the hour
    fits a C [int] of 32 bits, [OverflowError] when it does not.  The
    priorities are compared before that. *)
Theorem invalid_start_hour_raises fuel now parsed days start_date
    max_hours_per_day study_start_hour study_end_hour cram_or_not :
  (0 < fuel)%nat →
  priorities_comparable (ParsedInput.todos parsed) →
  0 < days →
  ¬ 0 ≤ effective_start_hour study_start_hour ≤ 23 →
  Exists (λ t, now < TodoTask.deadline t) (ParsedInput.todos parsed) →
  build_schedule fuel now parsed days start_date max_hours_per_day
    study_start_hour study_end_hour cram_or_not
  = Raise (if (- 2 ^ 31 <=? effective_start_hour study_start_hour)
              && (effective_start_hour study_start_hour <? 2 ^ 31)
           then ValueError else OverflowError).
Proof.
  intros Hfuel Hprio Hdays Hsh Hdue. unfold build_schedule, allocate, todo_order.
  destruct (sorted_by_int_total TodoTask.deadline
              (normalize_estimate <$> ParsedInput.todos parsed)) as [l1 Hl1].
  rewrite Hl1, bind_Ret_l.
  pose proof (sorted_by_perm _ _ _ _ Hl1) as Hp1.
  destruct (sorted_by_priority_returns l1) as [order Horder].
  { destruct Hprio as [Hall|Hshort]; [left|right].
    - rewrite Hp1. apply Forall_fmap. eapply Forall_impl; [exact Hall|].
      simpl. intros t. by rewrite normalize_estimate_priority.
    - by rewrite Hp1, length_fmap. }
  rewrite Horder, bind_Ret_l.
  pose proof (sorted_by_perm _ _ _ _ Horder) as Hp2.
  erewrite schedule_todos_bad_hour; [done | done | |].
  - unfold gen_next. simpl.
    destruct (Z.to_nat days) as [|n] eqn:Hn; [lia|]. simpl.
    unfold replace_hour.
    destruct (Z.leb_spec 0 (effective_start_hour study_start_hour));
      destruct (Z.leb_spec (effective_start_hour study_start_hour) 23);
      simpl; try lia; by destruct (_ && _).
  - rewrite Hp2, Hp1. apply Exists_fmap.
    eapply Exists_impl; [exact Hdue|]. simpl. intros t.
    by rewrite normalize_estimate_deadline.
Qed.

(** *** The order in which the todos are listed *)

Lemma goes_before_both a b :
  goes_before a b → goes_before b a →
  TodoTask.priority a = TodoTask.priority b
  ∧ TodoTask.deadline a = TodoTask.deadline b.
Proof.
  intros (pa & pb & Ha & Hb & Hab) (pb' & pa' & Hb' & Ha' & Hba).
  assert (pa' = pa) by congruence. assert (pb' = pb) by congruence.
  split; [rewrite Ha, Hb; f_equal; lia | lia].
Qed.

(** X12.  Listing the todos in another order does not change the result, as
    long as no two todos have both the same priority and the same
    deadline: the two stable sorts then leave no trace of the listing. *)
Theorem listing_order_irrelevant fuel now todos1 todos2 events days start_date
    max_hours_per_day study_start_hour study_end_hour cram_or_not :
  todos1 ≡ₚ todos2 →
  (∀ a b, a ∈ todos1 → b ∈ todos1 →
          TodoTask.priority a = TodoTask.priority b →
          TodoTask.deadline a = TodoTask.deadline b → a = b) →
  build_schedule fuel now (ParsedInput.mk todos1 events) days start_date
    max_hours_per_day study_start_hour study_end_hour cram_or_not
  = build_schedule fuel now (ParsedInput.mk todos2 events) days start_date
      max_hours_per_day study_start_hour study_end_hour cram_or_not.
Proof.
  intros Hperm Hkeys.
  destruct (decide (Forall (λ t, is_Some (TodoTask.priority t)) todos1
                    ∨ (length todos1 ≤ 1)%nat)) as [Hprio|Hprio].
  - assert (∀ todos,
      todos ≡ₚ todos1 →
      ∃ order,
        todo_order (ParsedInput.mk todos events) = Ret order
        ∧ StronglySorted goes_before order
        ∧ order ≡ₚ normalize_estimate <$> todos1) as Horder.
    { intros todos Hp. unfold todo_order. simpl.
      destruct (sorted_by_int_total TodoTask.deadline (normalize_estimate <$> todos))
        as [l1 Hl1].
      rewrite Hl1, bind_Ret_l.
      pose proof (sorted_by_perm _ _ _ _ Hl1) as Hp1.
      destruct (sorted_by_priority_returns l1) as [order Ho].
      { destruct Hprio as [Hall|Hshort]; [left|right].
        - rewrite Hp1, Hp. apply Forall_fmap. eapply Forall_impl; [exact Hall|].
          simpl. intros t. by rewrite normalize_estimate_priority.
        - by rewrite Hp1, length_fmap, Hp. }
      exists order. split_and!; [done| |].
      - eapply sorted_by_priority_sorted; [|exact Ho].
        by eapply sorted_by_int_sorted.
      - by rewrite (sorted_by_perm _ _ _ _ Ho), Hp1, Hp. }
    destruct (Horder todos1) as (o1 & Ho1 & Hs1 & Hp1); [done|].
    destruct (Horder todos2) as (o2 & Ho2 & Hs2 & Hp2); [done|].
    assert (o1 = o2) as ->.
    { apply (StronglySorted_unique_strong goes_before); [|done|done|].
      - intros x1 x2 Hx1 Hx2 H12 H21.
        rewrite Hp1 in Hx1. rewrite Hp2 in Hx2.
        apply list_elem_of_fmap in Hx1 as (a & -> & Ha).
        apply list_elem_of_fmap in Hx2 as (b & -> & Hb).
        destruct (goes_before_both _ _ H12 H21) as [Hp Hd].
        rewrite !normalize_estimate_priority in Hp.
        rewrite !normalize_estimate_deadline in Hd.
        by rewrite (Hkeys a b Ha Hb Hp Hd).
      - by rewrite Hp1, Hp2. }
    unfold build_schedule, allocate. by rewrite Ho1, Ho2.
  - rewrite !build_schedule_raises_without_priority; [done| |done].
    simpl. intros [Hall|Hshort]; apply Hprio; [left|right].
    + by rewrite Hperm.
    + by rewrite Hperm.
Qed.

(** *** The order in which the fixed events are listed *)

Lemma outcome_rel_bind {A B A' B'} (R : A → B → Prop) (R' : A' → B' → Prop)
    (m1 : outcome A) (m2 : outcome B) (f1 : A → outcome A') (f2 : B → outcome B') :
  outcome_rel R m1 m2 →
  (∀ a b, R a b → outcome_rel R' (f1 a) (f2 b)) →
  outcome_rel R' (m1 ≫= f1) (m2 ≫= f2).
Proof. destruct m1, m2; simpl; try done. intros Hm Hf. by apply Hf. Qed.

Lemma outcome_rel_eq {A} (o : outcome A) : outcome_rel (=) o o.
Proof. by destruct o. Qed.

Lemma for_slots_rel {A B} (R : A → B → Prop)
    (body1 : datetime → A → outcome (flow A))
    (body2 : datetime → B → outcome (flow B)) :
  (∀ slot a b, R a b → outcome_rel (flow_rel R) (body1 slot a) (body2 slot b)) →
  ∀ fuel g a b,
    R a b → outcome_rel R (for_slots fuel body1 g a) (for_slots fuel body2 g b).
Proof.
  intros Hbody. induction fuel as [|fuel IH]; intros g a b Hab; simpl; [done|].
  destruct (gen_next g) as [[[slot g']|]| |]; simpl; try done.
  apply (outcome_rel_bind (flow_rel R)); [by apply Hbody|].
  intros [a'|a'] [b'|b']; simpl; try done. apply IH.
Qed.

Section Listing.
Variables (fuel : nat) (now : datetime) (days : Z) (start_base : datetime).
Variables (max_minutes_per_day : option Z).
Variables (study_start_hour study_end_hour : Z) (cram_or_not : bool).

Lemma slot_verdict_same_blocks todo slot s1 s2 :
  same_blocks s1 s2 →
  slot_verdict fuel max_minutes_per_day study_start_hour study_end_hour cram_or_not
    todo slot s1
  = slot_verdict fuel max_minutes_per_day study_start_hour study_end_hour
      cram_or_not todo slot s2.
Proof.
  intros (Hperm & _ & Hdays & Hrem). unfold slot_verdict.
  rewrite Hrem.
  assert (cram_minutes fuel max_minutes_per_day study_start_hour study_end_hour
            todo slot (blocks s1)
          = cram_minutes fuel max_minutes_per_day study_start_hour study_end_hour
              todo slot (blocks s2)) as ->.
  { unfold cram_minutes. destruct max_minutes_per_day; [|done].
    rewrite !bind_Ret_l. apply for_slots_ext. intros x n.
    by rewrite (is_free_perm _ _ _ _ Hperm). }
  unfold over_daily_limit. rewrite Hdays.
  by rewrite (is_free_perm _ _ _ _ Hperm).
Qed.

Lemma todo_body_same_blocks todo slot s1 s2 :
  same_blocks s1 s2 →
  outcome_rel (flow_rel same_blocks)
    (todo_body fuel max_minutes_per_day study_start_hour study_end_hour cram_or_not
       todo slot s1)
    (todo_body fuel max_minutes_per_day study_start_hour study_end_hour cram_or_not
       todo slot s2).
Proof.
  intros Hs. unfold todo_body. rewrite (slot_verdict_same_blocks _ _ _ _ Hs).
  destruct (slot_verdict _ _ _ _ _ _ _ s2) as [v| |]; simpl; try done.
  destruct v; simpl; try done.
  destruct Hs as (Hperm & Htodo & Hdays & Hrem).
  unfold same_blocks, commit. simpl. split_and!.
  - by rewrite Hperm.
  - by rewrite !filter_app, Htodo.
  - by rewrite Hdays.
  - by rewrite Hrem.
Qed.

Lemma schedule_todos_same_blocks todos s1 s2 :
  same_blocks s1 s2 →
  outcome_rel same_blocks
    (schedule_todos fuel now days start_base max_minutes_per_day study_start_hour
       study_end_hour cram_or_not todos s1)
    (schedule_todos fuel now days start_base max_minutes_per_day study_start_hour
       study_end_hour cram_or_not todos s2).
Proof.
  revert s1 s2. induction todos as [|t todos IH]; intros s1 s2 Hs; simpl; [done|].
  apply (outcome_rel_bind same_blocks); [|by apply IH].
  assert (same_blocks (begin_todo t s1) (begin_todo t s2)) as Hbegin.
  { destruct Hs as (? & ? & ? & ?). by split_and!. }
  unfold schedule_todo. destruct (_ <=? _); [done|].
  apply for_slots_rel; [|done].
  intros slot a b. apply todo_body_same_blocks.
Qed.

End Listing.

Lemma filter_todo_fixed_blocks (events : list FixedEvent.t) :
  filter (λ b, ScheduledBlock.kind b = "todo") (fixed_block <$> events) = [].
Proof.
  induction events as [|e events IH]; csimpl; [done|].
  rewrite filter_cons. simpl. by rewrite IH.
Qed.

(** X13.  Listing the fixed events in another order changes nothing but the
    order in which fixed events with the same start come out: the call
    returns as before, with the same blocks and the same "todo" blocks in
    the same order. *)
Theorem fixed_listing_order_irrelevant fuel now todos events1 events2 days
    start_date max_hours_per_day study_start_hour study_end_hour cram_or_not out1 :
  events1 ≡ₚ events2 →
  build_schedule fuel now (ParsedInput.mk todos events1) days start_date
    max_hours_per_day study_start_hour study_end_hour cram_or_not = Ret out1 →
  ∃ out2,
    build_schedule fuel now (ParsedInput.mk todos events2) days start_date
      max_hours_per_day study_start_hour study_end_hour cram_or_not = Ret out2
    ∧ out1 ≡ₚ out2
    ∧ filter (λ b, ScheduledBlock.kind b = "todo") out1
      = filter (λ b, ScheduledBlock.kind b = "todo") out2.
Proof.
  intros Hperm H. unfold build_schedule, allocate in *.
  apply bind_Ret in H as (st1 & Hst1 & Hout1).
  apply bind_Ret in Hst1 as (order & Horder & Hst1).
  change (todo_order (ParsedInput.mk todos events2))
    with (todo_order (ParsedInput.mk todos events1)).
  rewrite Horder, bind_Ret_l.
  pose proof (schedule_todos_same_blocks fuel now days
                (Datetime.combine_midnight (effective_date now start_date))
                ((λ h, h * 60) <$> max_hours_per_day)
                (effective_start_hour study_start_hour)
                (effective_end_hour study_start_hour study_end_hour) cram_or_not
                order (first_alloc (ParsedInput.mk todos events1))
                (first_alloc (ParsedInput.mk todos events2))) as Hrel.
  rewrite Hst1 in Hrel.
  destruct (schedule_todos _ _ _ _ _ _ _ _ _ (first_alloc (ParsedInput.mk todos events2)))
    as [st2| |]; simpl in Hrel.
  - destruct Hrel as (Hblocks & Htodo & _ & _).
    { split_and!; simpl; try done.
      - by rewrite Hperm.
      - by rewrite !filter_todo_fixed_blocks. }
    rewrite bind_Ret_l.
    destruct (sorted_by_int_total ScheduledBlock.start (blocks st2)) as [out2 Hout2].
    exists out2. split_and!; [done| |].
    + by rewrite (sorted_by_perm _ _ _ _ Hout1), (sorted_by_perm _ _ _ _ Hout2).
    + apply (sorted_by_int_filter (λ b, ScheduledBlock.kind b = "todo")) in Hout1, Hout2.
      rewrite Htodo in Hout1. congruence.
  - destruct Hrel. split_and!; simpl; try done.
    + by rewrite Hperm.
    + by rewrite !filter_todo_fixed_blocks.
  - destruct Hrel. split_and!; simpl; try done.
    + by rewrite Hperm.
    + by rewrite !filter_todo_fixed_blocks.
Qed.

(** *** The todos app.py reports as not placed in full *)

Lemma no_room_full hours st out slot :
  out ≡ₚ blocks st →
  (∀ h, hours = Some h → day_tally st) →
  no_room ((λ h, h * 60) <$> hours) slot st →
  full hours out slot.
Proof.
  intros Hout Htally [Hfree|Hlimit]; [left|right].
  - by rewrite (is_free_perm _ _ _ _ Hout).
  - destruct hours as [h|]; [|done]. exists h. split; [done|].
    unfold over_daily_limit in Hlimit. simpl in Hlimit.
    rewrite (Htally h eq_refl) in Hlimit.
    rewrite (day_minutes_perm _ _ _ Hout). lia.
Qed.

(** X15.  A todo shown as not placed in full was left short by the engine for
    want of room: when the call is made without cram deferral for it, every
    slot of the grid before its deadline is taken in the schedule or lies on
    a day whose "todo" blocks have reached the daily limit. *)
Theorem unschedulable_for_want_of_room fuel now later parsed days start_date
    max_hours_per_day study_start_hour study_end_hour cram_or_not out row slot :
  0 < BLOCK_MINUTES ≤ 60 →
  0 ≤ effective_start_hour study_start_hour ≤ 23 →
  effective_end_hour study_start_hour study_end_hour ≤ 23 →
  build_schedule fuel now parsed days start_date max_hours_per_day
    study_start_hour study_end_hour cram_or_not = Ret out →
  now ≤ later →
  row ∈ unschedulable later (todos_after_call parsed) out →
  cram_or_not = false ∨ TodoTask.exam_or_not (sf_todo row) = false →
  slot ∈ slot_grid (Datetime.combine_midnight (effective_date now start_date))
           days (effective_start_hour study_start_hour)
           (effective_end_hour study_start_hour study_end_hour) →
  slot < TodoTask.deadline (sf_todo row) →
  full max_hours_per_day out slot.
Proof.
  intros HB Hsh Heh H Hlater Hrow Hplain Hslot Hdl.
  apply list_elem_of_omap in Hrow as (t & Ht & Hrow).
  unfold report_row in Hrow.
  destruct (Z.leb_spec (TodoTask.deadline t) later) as [|Hdue]; [discriminate|].
  destruct (Z.ltb_spec (scheduled (TodoTask.title t) out)
              (TodoTask.estimated_time_minutes t)) as [Hshort|]; [|discriminate].
  injection Hrow as <-. simpl in Hplain, Hdl.
  apply build_schedule_Ret in H as (order & st & Horder & Hst & Hout).
  apply todo_order_perm in Horder.
  assert (t ∈ order) as Hin by (by rewrite Horder).
  apply list_elem_of_split in Hin as (l1 & l2 & ->).
  pose proof Hst as Hall.
  apply schedule_todos_app in Hst as (st1 & H1 & Hst).
  simpl in Hst. apply bind_Ret in Hst as (st2 & H2 & H3).
  set (cap := (λ h, h * 60) <$> max_hours_per_day) in *.
  set (title := TodoTask.title t) in *.
  assert (∀ todos sa sb,
    schedule_todos fuel now days
      (Datetime.combine_midnight (effective_date now start_date)) cap
      (effective_start_hour study_start_hour)
      (effective_end_hour study_start_hour study_end_hour) cram_or_not
      todos sa = Ret sb →
    todo_minutes title (blocks sa) ≤ todo_minutes title (blocks sb)) as Hgrow.
  { intros todos sa sb Hrun.
    eapply (schedule_todos_commits _ _ _ _ _ _ _ _
              (λ s, todo_minutes title (blocks sa) ≤ todo_minutes title (blocks s)))
      in Hrun; [done|done| |done].
    intros todo x s Hs _ _. unfold commit. simpl.
    rewrite todo_minutes_app.
    change [todo_block todo x] with (todo_block todo <$> [x]).
    rewrite todo_minutes_todo_blocks. simpl. case_bool_decide; lia. }
  destruct (schedule_todo_first_fit fuel now days
              (Datetime.combine_midnight (effective_date now start_date)) cap
              (effective_start_hour study_start_hour)
              (effective_end_hour study_start_hour study_end_hour) cram_or_not
              HB Hsh Heh t st1 st2 Hplain ltac:(lia) H2)
    as (passed & rest & committed & Hgrid & Hbs & Hrem & _ & Hpassed & Hstop).
  assert (0 < remaining st2) as Hleft.
  { pose proof (Hgrow _ _ _ H1) as Hlo. pose proof (Hgrow _ _ _ H3) as Hhi.
    simpl in Hlo. rewrite todo_minutes_fixed in Hlo.
    rewrite Hbs, todo_minutes_app, todo_minutes_todo_blocks in Hhi.
    rewrite bool_decide_eq_true_2 in Hhi by done.
    rewrite scheduled_todo_minutes, (todo_minutes_perm _ _ _ Hout) in Hshort.
    lia. }
  destruct Hstop as [?|Hrest]; [lia|].
  assert (no_room cap slot st2) as Hroom.
  { rewrite Hgrid in Hslot. apply elem_of_app in Hslot as [Hslot|Hslot].
    - rewrite Forall_forall in Hpassed. by apply Hpassed.
    - rewrite Forall_forall in Hrest. specialize (Hrest _ Hslot). lia. }
  apply (no_room_full max_hours_per_day st); [done| |].
  - intros h Hh.
    eapply (schedule_todos_commits _ _ _ _ _ _ _ _ day_tally) in Hall;
      [exact Hall|done| |].
    + intros todo x s Hs _ _. subst cap. rewrite Hh. simpl.
      by apply commit_day_tally.
    + intros d. simpl. by rewrite lookup_empty, day_minutes_fixed.
  - eapply (schedule_todos_commits _ _ _ _ _ _ _ _ (no_room cap slot)) in H3;
      [exact H3|done| |done].
    intros todo x s Hs _ _. apply no_room_commit; [lia | done].
Qed.

(** *** The calendar files *)

Lemma pretty_N_char_no_dash x : pretty_N_char x ≠ "-"%char.
Proof. unfold pretty_N_char. repeat case_match; discriminate. Qed.

Lemma pretty_N_go_dash_free x s : dash_free s → dash_free (pretty_N_go x s).
Proof.
  revert s. induction (N.lt_wf_0 x) as [x _ IH]; intros s Hs.
  destruct (decide (x = 0%N)) as [->|Hx]; [by rewrite pretty_N_go_0|].
  rewrite pretty_N_go_step by lia. apply IH.
  - apply N.div_lt; lia.
  - split; [apply pretty_N_char_no_dash | done].
Qed.

Lemma pretty_nat_dash_free (n : nat) : dash_free (pretty n).
Proof.
  unfold pretty, pretty_nat, pretty, pretty_N. case_decide.
  - simpl. split; [discriminate | done].
  - by apply pretty_N_go_dash_free.
Qed.

Lemma dash_free_split d1 d2 r1 r2 :
  dash_free d1 → dash_free d2 →
  d1 +:+ "-" +:+ r1 = d2 +:+ "-" +:+ r2 → d1 = d2.
Proof.
  revert d2. induction d1 as [|c1 d1 IH]; intros [|c2 d2]; simpl.
  - done.
  - intros _ [Hc _] [= <- _]. done.
  - intros [Hc _] _ [= -> _]. done.
  - intros [_ H1] [_ H2] [= -> H]. f_equal. by apply IH.
Qed.

Lemma event_uid_index i j a b : event_uid i a = event_uid j b → i = j.
Proof.
  unfold event_uid. intros H.
  apply dash_free_split in H; [|apply pretty_nat_dash_free..].
  by apply (inj pretty) in H.
Qed.

(** X16.  The UIDs of the events of one calendar are pairwise distinct. *)
Theorem event_uids_distinct (blocks : list ScheduledBlock.t) :
  NoDup (imap event_uid blocks).
Proof.
  apply NoDup_alt. intros i j uid Hi Hj.
  apply list_lookup_imap_Some in Hi as (a & _ & ->).
  apply list_lookup_imap_Some in Hj as (b & _ & Hij).
  by apply event_uid_index in Hij.
Qed.

Lemma length_concat_imap {A B} (f : nat → A → list B) (n : nat) l :
  (∀ i x, length (f i x) = n) →
  length (concat (imap f l)) = (n * length l)%nat.
Proof.
  intros Hf. revert f Hf. induction l as [|x l IH]; intros f Hf; csimpl; [lia|].
  rewrite length_app, Hf, IH; [lia|]. intros i y. apply Hf.
Qed.

(** X17.  A calendar has five lines of header, nine lines for each block, in
    the order of the blocks, and one closing line: the event of the [k]-th
    block (from 0) is on the lines [5 + 9 * k] to [13 + 9 * k], with that
    index in its UID. *)
Theorem ics_lines_layout utcnow blocks :
  length (ics_lines utcnow blocks) = (6 + 9 * length blocks)%nat
  ∧ ∀ k b,
      blocks !! k = Some b →
      take 9 (drop (5 + 9 * k) (ics_lines utcnow blocks))
      = vevent (strftime_basic utcnow +:+ "Z") k b.
Proof.
  unfold ics_lines. set (dtstamp := strftime_basic utcnow +:+ "Z"). split.
  - rewrite !length_app, (length_concat_imap _ 9); [simpl; lia | done].
  - intros k b Hk.
    rewrite drop_app_ge by (simpl; lia).
    replace (5 + 9 * k - length ics_header)%nat with (9 * k)%nat by (simpl; lia).
    rewrite <- (take_drop_middle _ _ _ Hk), imap_app, concat_app.
    assert (length (take k blocks) = k) as Hlen.
    { apply length_take_le. apply lookup_lt_Some in Hk. lia. }
    rewrite <- (assoc_L (++)), drop_app_length'
      by (rewrite (length_concat_imap _ 9), Hlen; done).
    rewrite imap_cons, Hlen, Nat.add_0_r. simpl. done.
Qed.

(** X18.  Applied to the engine's output, the split puts the fixed events,
    stably sorted by start, into the first calendar and the "todo" blocks
    into the second; every block of the output is in exactly one of
    them. *)
Theorem split_of_schedule fuel now parsed days start_date max_hours_per_day
    study_start_hour study_end_hour cram_or_not out utcnow1 utcnow2 :
  build_schedule fuel now parsed days start_date max_hours_per_day
    study_start_hour study_end_hour cram_or_not = Ret out →
  ∃ fixed todo,
    sorted_by lt_int ScheduledBlock.start
      (fixed_block <$> ParsedInput.fixed_events parsed) = Ret fixed
    ∧ split_schedule_to_ics_for_google utcnow1 utcnow2 out
      = (schedule_to_ics utcnow1 fixed, schedule_to_ics utcnow2 todo)
    ∧ Forall (λ b, ScheduledBlock.kind b = "todo") todo
    ∧ fixed ++ todo ≡ₚ out.
Proof.
  intros H. apply build_schedule_kinds in H as (st & Hout & Hfixed & Hkinds).
  exists (filter (λ b, ScheduledBlock.kind b = "fixed") out),
         (filter (λ b, ScheduledBlock.kind b = "todo") out).
  split_and!.
  - rewrite <- Hfixed. by apply sorted_by_int_filter.
  - done.
  - apply Forall_forall. intros b Hb. by apply list_elem_of_filter in Hb as [? _].
  - apply sorted_by_perm in Hout. rewrite <- Hout in Hkinds. clear Hout Hfixed st.
    induction Hkinds as [|b l Hb _ IH]; [done|].
    rewrite !filter_cons. destruct Hb as [Hb|Hb]; rewrite Hb; simpl.
    + by rewrite IH.
    + by rewrite <- Permutation_middle, IH.
Qed.

(** *** The reply of the model *)

Lemma find_char_get c s i : find_char c s = Some i → String.get i s = Some c.
Proof.
  revert i. induction s as [|a s IH]; intros i; simpl; [done|].
  destruct (Ascii.eqb_spec a c) as [->|_].
  - by intros [= <-].
  - destruct (find_char c s) as [j|]; [|done]. intros [= <-]. by apply IH.
Qed.

Lemma rfind_char_get c s i : rfind_char c s = Some i → String.get i s = Some c.
Proof.
  revert i. induction s as [|a s IH]; intros i; simpl; [done|].
  destruct (rfind_char c s) as [j|].
  - intros [= <-]. by apply IH.
  - destruct (Ascii.eqb_spec a c) as [->|_]; [|done]. by intros [= <-].
Qed.

Lemma get_Some_length i s c : String.get i s = Some c → (i < String.length s)%nat.
Proof.
  revert i. induction s as [|a s IH]; intros i; simpl; [done|].
  destruct i as [|i]; [lia|]. intros H. apply IH in H. lia.
Qed.

Lemma length_substring n m s :
  (n + m ≤ String.length s)%nat → String.length (String.substring n m s) = m.
Proof.
  revert n m. induction s as [|a s IH]; intros n m; simpl.
  - intros H. destruct n, m; simpl; lia.
  - destruct n as [|n].
    + destruct m as [|m]; [done|]. simpl. intros H. rewrite (IH 0%nat); lia.
    + intros H. apply IH. lia.
Qed.

Lemma substring_empty n s : String.substring n 0 s = EmptyString.
Proof.
  revert n. induction s as [|a s IH]; intros [|n]; simpl; auto.
Qed.

(** X19.  The cut is made when the reply holds both braces.  If the first "{"
    is not after the last "}", the cut begins with the one and ends with
    the other; otherwise it is the empty string. *)
Theorem json_str_braces raw s :
  json_str raw = Some s →
  ∃ first last,
    find_char "{" raw = Some first
    ∧ rfind_char "}" raw = Some last
    ∧ ((first ≤ last)%nat →
       String.get 0 s = Some "{"%char
       ∧ String.get (last - first) s = Some "}"%char
       ∧ String.length s = S (last - first))
    ∧ ((last < first)%nat → s = EmptyString).
Proof.
  unfold json_str. intros H.
  destruct (find_char "{" raw) as [first|] eqn:Hfirst; [|done].
  destruct (rfind_char "}" raw) as [last|] eqn:Hlast; [|done].
  injection H as <-. exists first, last. split_and!; [done | done | |].
  - intros Hle.
    apply find_char_get in Hfirst. apply rfind_char_get in Hlast.
    pose proof (get_Some_length _ _ _ Hlast).
    replace (S last - first)%nat with (S (last - first)) by lia.
    split_and!.
    + by rewrite String.substring_correct1 by lia.
    + rewrite String.substring_correct1 by lia.
      by replace (last - first + first)%nat with last by lia.
    + apply length_substring. lia.
  - intros Hlt. replace (S last - first)%nat with 0%nat by lia.
    apply substring_empty.
Qed.

(** *** The launcher *)

Lemma first_with_app_spec path_join path_exists cs :
  match first_with_app path_join path_exists cs with
  | Some c =>
      ∃ cs1 cs2,
        cs = cs1 ++ c :: cs2
        ∧ Forall (λ c', path_exists (path_join c' "app.py") = false) cs1
        ∧ path_exists (path_join c "app.py") = true
  | None => Forall (λ c', path_exists (path_join c' "app.py") = false) cs
  end.
Proof.
  induction cs as [|c cs IH]; simpl; [constructor|].
  destruct (path_exists (path_join c "app.py")) eqn:Hc.
  - by exists [], cs.
  - destruct (first_with_app path_join path_exists cs) as [c'|].
    + destruct IH as (cs1 & cs2 & -> & Hcs1 & Hc').
      exists (c :: cs1), cs2. split_and!; [done | by constructor | done].
    + by constructor.
Qed.

Lemma first_hit_unique {A} (f : A → bool) l1 l1' x x' l2 l2' :
  l1 ++ x :: l2 = l1' ++ x' :: l2' →
  Forall (λ y, f y = false) l1 → f x = true →
  Forall (λ y, f y = false) l1' → f x' = true →
  x = x'.
Proof.
  revert l1'. induction l1 as [|y l1 IH]; intros [|y' l1']; simpl;
    intros Heq H1 Hx H1' Hx'.
  - by injection Heq.
  - injection Heq as <- _. apply Forall_cons in H1' as [? _]. congruence.
  - injection Heq as -> _. apply Forall_cons in H1 as [? _]. congruence.
  - injection Heq as _ Heq.
    apply Forall_cons in H1 as [_ H1]. apply Forall_cons in H1' as [_ H1'].
    by apply (IH l1').
Qed.

(** X20.  When frozen, the launcher starts streamlit on the app.py of the first
    candidate directory that holds one, and reports that app.py is missing
    exactly when no candidate holds one. *)
Theorem launcher_finds_app path_join path_exists meipass exe_dir here :
  let cs := candidates path_join meipass exe_dir in
  let has_app c := path_exists (path_join c "app.py") in
  (∀ cs1 c cs2,
     cs = cs1 ++ c :: cs2 → Forall (λ c', has_app c' = false) cs1 →
     has_app c = true →
     main_app_path path_join path_exists true meipass exe_dir here
     = Some (path_join c "app.py"))
  ∧ (main_app_path path_join path_exists true meipass exe_dir here = None
     ↔ Forall (λ c, has_app c = false) cs).
Proof.
  intros cs has_app. unfold main_app_path, _find_project_dir. fold cs.
  pose proof (first_with_app_spec path_join path_exists cs) as Hfirst.
  destruct (first_with_app path_join path_exists cs) as [c0|]; simpl.
  - destruct Hfirst as (cs1 & cs2 & Hcs & Hcs1 & Hc0). rewrite Hc0. split.
    + intros cs1' c cs2' Hcs' Hcs1' Hc.
      assert (c0 = c) as ->; [|done].
      rewrite Hcs in Hcs'.
      by apply (first_hit_unique (λ c', path_exists (path_join c' "app.py"))
                  cs1 cs1' c0 c cs2 cs2').
    + split; [done|]. intros Hall. rewrite Hcs in Hall.
      apply Forall_app in Hall as [_ Hall]. apply Forall_cons in Hall as [Hall _].
      unfold has_app in Hall. congruence.
  - assert (path_exists (path_join exe_dir "app.py") = false) as Hexe.
    { rewrite Forall_forall in Hfirst. apply Hfirst. subst cs. unfold candidates.
      apply elem_of_app. right. left. }
    rewrite Hexe. split; [|done].
    intros cs1 c cs2 Hcs _ Hc. rewrite Forall_forall in Hfirst.
    unfold has_app in Hc. rewrite Hfirst in Hc; [done|].
    rewrite Hcs. apply elem_of_app. right. left.
Qed.

End Scheduler.

Arguments Continue {St} st.
Arguments Break {St} st.

(** ** The engine on the samples

    The constants of config.py are taken as 19, 23 and 30: the window that
    app.py proposes and the block length of the specification's scenarios.
    Each loop may draw 100 slots. *)

Section Samples.
Import Sample.

Local Abbreviation run := (build_schedule 19 23 30 100 now).
Local Abbreviation start_of_loops :=
  ({| blocks := []; day_todo_minutes := ∅; remaining := 0 |}).

Example week_schedule_built :
  run week 7 None (Some 4) (Some 19) (Some 23) false = Ret week_schedule.
Proof. vm_compute. reflexivity. Qed.

(** The scenarios of the specification: 180 minutes in the window 19:00 to
    23:00 fill 19:00 to 22:00; a lecture from 19:00 to 20:00 moves them to
    20:00 to 23:00; with a daily limit of one hour they spread over three
    days; a todo due yesterday gets nothing. *)
Example scenario_a :
  run (ParsedInput.mk [todo "task" (Datetime.at_time (monday + 5) 23 59) 180
                         (Some 101) false] [])
    1 None None (Some 19) (Some 23) false
  = Ret [ block "task" monday 19 0 "todo"; block "task" monday 19 30 "todo";
          block "task" monday 20 0 "todo"; block "task" monday 20 30 "todo";
          block "task" monday 21 0 "todo"; block "task" monday 21 30 "todo" ].
Proof. vm_compute. reflexivity. Qed.

Example scenario_b :
  run (ParsedInput.mk [todo "task" (Datetime.at_time (monday + 5) 23 59) 180
                         (Some 101) false] [lecture])
    1 None None (Some 19) (Some 23) false
  = Ret [ fixed_block lecture;
          block "task" monday 20 0 "todo"; block "task" monday 20 30 "todo";
          block "task" monday 21 0 "todo"; block "task" monday 21 30 "todo";
          block "task" monday 22 0 "todo"; block "task" monday 22 30 "todo" ].
Proof. vm_compute. reflexivity. Qed.

Example scenario_c :
  run (ParsedInput.mk [todo "task" (Datetime.at_time (monday + 5) 23 59) 180
                         (Some 101) false] [])
    3 None (Some 1) (Some 19) (Some 23) false
  = Ret [ block "task" monday 19 0 "todo"; block "task" monday 19 30 "todo";
          block "task" (monday + 1) 19 0 "todo";
          block "task" (monday + 1) 19 30 "todo";
          block "task" (monday + 2) 19 0 "todo";
          block "task" (monday + 2) 19 30 "todo" ].
Proof. vm_compute. reflexivity. Qed.

Example scenario_d :
  run (ParsedInput.mk [overdue] []) 7 None (Some 4) (Some 19) (Some 23) true = Ret [].
Proof. vm_compute. reflexivity. Qed.

(** An exam on Friday 09:00 that needs three hours: in cram mode they are
    placed on Thursday evening, without it on Monday evening. *)
Example scenario_e :
  let final := todo "final" (Datetime.at_time (monday + 4) 9 0) 180 (Some 1) true in
  run (ParsedInput.mk [final] []) 7 None (Some 4) (Some 19) (Some 23) true
  = Ret [ block "final" (monday + 3) 20 0 "todo";
          block "final" (monday + 3) 20 30 "todo";
          block "final" (monday + 3) 21 0 "todo";
          block "final" (monday + 3) 21 30 "todo";
          block "final" (monday + 3) 22 0 "todo";
          block "final" (monday + 3) 22 30 "todo" ]
  ∧ run (ParsedInput.mk [final] []) 7 None (Some 4) (Some 19) (Some 23) false
    = Ret [ block "final" monday 19 0 "todo"; block "final" monday 19 30 "todo";
            block "final" monday 20 0 "todo"; block "final" monday 20 30 "todo";
            block "final" monday 21 0 "todo"; block "final" monday 21 30 "todo" ].
Proof. split; vm_compute; reflexivity. Qed.

Example evening_slots :
  list_slots 30 10 (_iter_study_slots now 1 19 23)
  = Ret [ Datetime.at_time monday 19 0; Datetime.at_time monday 19 30;
          Datetime.at_time monday 20 0; Datetime.at_time monday 20 30;
          Datetime.at_time monday 21 0; Datetime.at_time monday 21 30;
          Datetime.at_time monday 22 0; Datetime.at_time monday 22 30 ].
Proof. vm_compute. reflexivity. Qed.

Lemma budget_respect_whole_blocks_witness :
  (∀ title,
     scheduled title week_schedule
     ≤ title_budget 30 title (normalize_estimate <$> ParsedInput.todos week))
  ∧ (∀ todo,
       filter (λ t, TodoTask.title t = TodoTask.title todo)
         (ParsedInput.todos week) = [todo] →
       scheduled (TodoTask.title todo) week_schedule
       < TodoTask.estimated_time_minutes (normalize_estimate todo) + 30
       ∧ ((30 | TodoTask.estimated_time_minutes (normalize_estimate todo)) →
          scheduled (TodoTask.title todo) week_schedule
          ≤ TodoTask.estimated_time_minutes (normalize_estimate todo))).
Proof.
  apply (budget_respect_whole_blocks 19 23 30 100 now week 7 None (Some 4)
           (Some 19) (Some 23) false week_schedule).
  - lia.
  - vm_compute. reflexivity.
Defined.

(** The essay is estimated at 45 minutes and is given two blocks of 30.
    And two todos of 30 minutes with one title have 60 minutes under it. *)
Lemma budget_respect_counterexample :
  (∃ out,
     run (ParsedInput.mk [essay] []) 1 None None (Some 19) (Some 23) false = Ret out
     ∧ ¬ budget_respected (ParsedInput.mk [essay] []) out)
  ∧ (∃ out,
       run (ParsedInput.mk [reading; reading_again] [])
         1 None None (Some 19) (Some 23) false = Ret out
       ∧ ¬ budget_respected (ParsedInput.mk [reading; reading_again] []) out).
Proof.
  split.
  - exists [block "essay" monday 19 0 "todo"; block "essay" monday 19 30 "todo"].
    split; [vm_compute; reflexivity|].
    intros H. specialize (H essay (list_elem_of_here _ _)).
    vm_compute in H. by apply H.
  - exists [block "reading" monday 19 0 "todo"; block "reading" monday 19 30 "todo"].
    split; [vm_compute; reflexivity|].
    intros H. specialize (H reading (list_elem_of_here _ _)).
    vm_compute in H. by apply H.
Qed.

Lemma todo_block_starts_before_deadline_witness :
  ∃ todo,
    todo ∈ ParsedInput.todos week
    ∧ TodoTask.title todo = "essay"
    ∧ Datetime.at_time monday 21 30 < TodoTask.deadline todo
    ∧ Datetime.at_time monday 22 0
      = Datetime.add_minutes (Datetime.at_time monday 21 30) 30
    ∧ Datetime.at_time monday 22 0
      < Datetime.add_minutes (TodoTask.deadline todo) 30.
Proof.
  apply (todo_block_starts_before_deadline 19 23 30 100 now week 7 None (Some 4)
           (Some 19) (Some 23) false week_schedule
           (block "essay" monday 21 30 "todo")).
  - vm_compute. reflexivity.
  - unfold week_schedule. do 4 apply list_elem_of_further. apply list_elem_of_here.
  - reflexivity.
Defined.

(** The quiz is at 19:10 and its block runs from 19:00 to 19:30. *)
Lemma deadline_respect_counterexample :
  ∃ out,
    run (ParsedInput.mk [quiz] []) 1 None None (Some 19) (Some 23) false = Ret out
    ∧ ¬ deadline_respected (ParsedInput.mk [quiz] []) out.
Proof.
  exists [block "quiz" monday 19 0 "todo"].
  split; [vm_compute; reflexivity|].
  intros H.
  destruct (H (block "quiz" monday 19 0 "todo") (list_elem_of_here _ _) eq_refl)
    as (todo & Hin & _ & Hend).
  apply list_elem_of_singleton in Hin as ->.
  vm_compute in Hend. by apply Hend.
Qed.

Lemma build_schedule_no_overlap_witness : non_overlapping week_schedule.
Proof.
  apply (build_schedule_no_overlap 19 23 30 100 now week 7 None (Some 4)
           (Some 19) (Some 23) false week_schedule).
  - apply pairwise_apart_lookup.
    change (pairwise_apart [fixed_block lecture; fixed_block dinner]).
    repeat split; repeat constructor.
    intros (t & Ht1 & Ht2).
    cbv [fixed_block lecture dinner Datetime.at_time monday
         ScheduledBlock.start ScheduledBlock.end_
         FixedEvent.start FixedEvent.end_
         Datetime.US_PER_DAY Datetime.US_PER_HOUR Datetime.US_PER_MINUTE]
      in Ht1, Ht2.
    lia.
  - vm_compute. reflexivity.
Defined.

(** C4: the engine raises.  Whatever the parameters and the constants of
    config.py, sorting by priority compares [None] as soon as there are two
    todos; and in cram mode without a daily limit the first slot of an exam
    multiplies by [None], where the daily-limit check of the same loop does
    test for [None]. *)
Theorem build_schedule_type_errors :
  (∀ default_start default_end block_minutes fuel days start_date
     max_hours_per_day study_start_hour study_end_hour cram_or_not,
     build_schedule default_start default_end block_minutes fuel now
       (ParsedInput.mk [essay; notes] []) days start_date max_hours_per_day
       study_start_hour study_end_hour cram_or_not = Raise TypeError)
  ∧ (∀ default_start default_end block_minutes fuel,
       build_schedule default_start default_end block_minutes (S fuel) now
         (ParsedInput.mk [exam] []) 7 None None (Some 19) (Some 23) true
       = Raise TypeError).
Proof.
  split.
  - intros. apply build_schedule_raises_without_priority.
    intros [Hall|Hlen]; [|simpl in Hlen; lia].
    apply Forall_cons in Hall as [_ Hall]. apply Forall_cons in Hall as [[p Hp] _].
    discriminate Hp.
  - intros. vm_compute. reflexivity.
Qed.

Lemma iter_study_slots_finite_ascending_witness :
  ∃ fuel slots,
    (∀ fuel', (fuel ≤ fuel')%nat →
       list_slots 30 fuel' (_iter_study_slots now 2 19 23) = Ret slots)
    ∧ StronglySorted Z.lt slots
    ∧ Forall
        (λ slot,
           day_base now 0 ≤ slot < day_base now 2
           ∧ in_window 30 now 2 19 23 slot
           ∧ in_calendar slot
           ∧ in_calendar (Datetime.add_minutes slot 30))
        slots.
Proof.
  apply (iter_study_slots_finite_ascending 30 now 2 19 23); try lia.
  vm_compute. intuition discriminate.
Defined.

(** With the window 00:00 to 24:00 the generator never comes to the end of
    the first day: its 49th slot is Tuesday 00:00, past the horizon of one
    day.  With a start hour of 24 the first call of [next] raises. *)
Lemma iter_study_slots_counterexample :
  ¬ finite_ascending_in_horizon 30 now 1 0 24
  ∧ (∃ slots,
       first_slots 30 49 (_iter_study_slots now 1 0 24) = Ret slots
       ∧ last slots = Some (Datetime.at_time (monday + 1) 0 0)
       ∧ ¬ Datetime.at_time (monday + 1) 0 0 < day_base now 1)
  ∧ ¬ finite_ascending_in_horizon 30 now 1 24 25.
Proof.
  split_and!; [| |];
    [intros (fuel & slots & H & _) | | intros (fuel & slots & H & _)].
  2:{ eexists. split; [vm_compute; reflexivity|]. split; [reflexivity|].
      vm_compute. discriminate. }
  - destruct fuel as [|fuel]; [discriminate|].
    rewrite list_slots_S in H.
    assert (gen_next 30 (_iter_study_slots now 1 0 24)
            = Ret (Some (Datetime.at_time monday 0 0,
                         suspend 30 (_iter_study_slots now 1 0 24) 1 0
                           (Datetime.at_time monday 0 0)))) as Hnext
      by (vm_compute; reflexivity).
    rewrite Hnext, bind_Ret_l in H. apply bind_Ret in H as (slots' & H & _).
    by eapply (list_slots_open_end 30) in H.
  - destruct fuel as [|fuel]; [discriminate|].
    rewrite list_slots_S in H.
    assert (gen_next 30 (_iter_study_slots now 1 24 25) = Raise ValueError) as Hnext
      by (vm_compute; reflexivity).
    rewrite Hnext in H. discriminate H.
Qed.

(** Studying from 23:00 "to 24": the third block of the 90 minutes is on
    Tuesday, past the horizon of one day. *)
Lemma horizon_containment_counterexample :
  ∃ out b,
    run (ParsedInput.mk [homework] []) 1 None None (Some 23) (Some 24) false
    = Ret out
    ∧ b ∈ out
    ∧ ScheduledBlock.kind b = "todo"
    ∧ ¬ within_horizon_and_window (effective_date now None) 1
          (effective_start_hour 19 (Some 23))
          (effective_end_hour 19 23 (Some 23) (Some 24)) b.
Proof.
  exists [block "homework" monday 23 0 "todo";
          block "homework" monday 23 30 "todo";
          block "homework" (monday + 1) 0 0 "todo"],
         (block "homework" (monday + 1) 0 0 "todo").
  split_and!.
  - vm_compute. reflexivity.
  - do 2 apply list_elem_of_further. apply list_elem_of_here.
  - reflexivity.
  - intros ([_ Hday] & _). vm_compute in Hday. discriminate Hday.
Qed.



(** Across the end of a month the day numbers of the month run backwards:
    on Monday 31 March 19:00 an exam of Wednesday 2 April 20:00 gets
    (2 - 31 - 1) days for the one day between them, an estimate of -1500
    minutes where the calendar gives 360, and the slot is committed. *)
Example cram_across_month_end :
  let slot := Datetime.at_time (monday + 21) 19 0 in
  let final := Sample.todo "final" (Datetime.at_time (monday + 23) 20 0) 350 (Some 1) true in
  ¬ same_month slot (TodoTask.deadline final)
  ∧ cram_capacity 60 19 23 final slot = -1500
  ∧ calendar_capacity 60 19 23 final slot = 360
  ∧ slot_verdict 30 100 (Some 60) 19 23 true final slot
      ({| blocks := []; day_todo_minutes := ∅; remaining := 340 |})
    = Ret Commit.
Proof. split_and!; [|vm_compute; reflexivity..]. vm_compute. congruence. Qed.

Lemma overdue_exclusion_witness :
  overdue ∈ ParsedInput.todos week
  ∧ TodoTask.deadline overdue ≤ now
  ∧ Forall
      (λ b, ScheduledBlock.kind b = "todo" → ScheduledBlock.title b ≠ "report")
      week_schedule.
Proof.
  assert (overdue ∈ ParsedInput.todos week) as Hin.
  { apply list_elem_of_further, list_elem_of_here. }
  assert (TodoTask.deadline overdue ≤ now) as Hdue.
  { vm_compute. discriminate. }
  split_and!; [done | done |].
  apply Forall_forall.
  refine (proj2 (overdue_exclusion 19 23 30 100 now week 7 None (Some 4)
                   (Some 19) (Some 23) false overdue Hin Hdue)
            week_schedule _ _).
  - vm_compute. reflexivity.
  - intros t Ht Htitle. simpl in Ht.
    repeat (apply elem_of_cons in Ht as [->|Ht]); try discriminate Htitle.
    + exact Hdue.
    + by apply elem_of_nil in Ht.
Defined.

Lemma horizon_containment_witness :
  within_horizon_and_window monday 7 19 23 (block "essay" monday 21 30 "todo").
Proof.
  apply (horizon_containment 19 23 30 100 now week 7 None (Some 4)
           (Some 19) (Some 23) false week_schedule
           (block "essay" monday 21 30 "todo")).
  - lia.
  - exists 2. lia.
  - vm_compute. discriminate.
  - vm_compute. reflexivity.
  - unfold week_schedule. do 4 apply list_elem_of_further. apply list_elem_of_here.
  - reflexivity.
Defined.

Lemma cram_only_affects_exams_witness :
  run week 7 None (Some 4) (Some 19) (Some 23) true
  = run week 7 None (Some 4) (Some 19) (Some 23) false.
Proof.
  apply (cram_only_affects_exams 19 23 30 100 now week 7 None (Some 4)
           (Some 19) (Some 23)).
  repeat constructor.
Defined.


(** The crowded evening: the lecture and the seminar overlap, the thesis
    gets the three slots that are left before 22:00. *)
Example crowded_schedule_built :
  run crowded 1 None None (Some 19) (Some 22) false = Ret crowded_schedule.
Proof. vm_compute. reflexivity. Qed.

Local Abbreviation crowded_turn :=
  ({| blocks := crowded_schedule; day_todo_minutes := ∅; remaining := 90 |}).

Lemma daily_cap_respected_witness :
  day_minutes monday (take 4 crowded_schedule) ≤ 1 * 60.
Proof.
  apply (daily_cap_respected 19 23 30 100 now crowded 1 None 1 (Some 19) (Some 22)
           false (take 4 crowded_schedule) monday).
  - lia.
  - vm_compute. reflexivity.
Defined.

Lemma build_schedule_sorted_by_start_witness :
  StronglySorted (λ a b, ScheduledBlock.start a ≤ ScheduledBlock.start b)
    crowded_schedule.
Proof.
  apply (build_schedule_sorted_by_start 19 23 30 100 now crowded 1 None None
           (Some 19) (Some 22) false crowded_schedule).
  vm_compute. reflexivity.
Defined.

Lemma todo_blocks_overlap_nothing_witness :
  ¬ intersects (block "thesis" monday 20 30 "todo") (fixed_block seminar).
Proof.
  apply (todo_blocks_overlap_nothing 19 23 30 100 now crowded 1 None None
           (Some 19) (Some 22) false crowded_schedule 2 1).
  - vm_compute. reflexivity.
  - lia.
  - reflexivity.
  - reflexivity.
  - reflexivity.
Defined.

Lemma fixed_events_kept_in_order_witness :
  sorted_by lt_int ScheduledBlock.start
    (fixed_block <$> ParsedInput.fixed_events crowded)
  = Ret (filter (λ b, ScheduledBlock.kind b = "fixed") crowded_schedule).
Proof.
  apply (fixed_events_kept_in_order 19 23 30 100 now crowded 1 None None
           (Some 19) (Some 22) false crowded_schedule).
  vm_compute. reflexivity.
Defined.

Lemma nothing_to_schedule_witness :
  run week 7 None (Some 4) (Some 23) (Some 22) false
  = sorted_by lt_int ScheduledBlock.start
      (fixed_block <$> ParsedInput.fixed_events week).
Proof.
  apply (nothing_to_schedule 19 23 30 100 now week 7 None (Some 4) (Some 23)
           (Some 22) false).
  - lia.
  - left. repeat constructor; by eexists.
  - right; left. vm_compute. intuition discriminate.
Defined.

Lemma iter_study_slots_grid_witness :
  list_slots 30 10 (_iter_study_slots now 1 19 23) = Ret (slot_grid 30 now 1 19 23)
  ∧ Forall (λ slot, in_calendar slot ∧ in_calendar (Datetime.add_minutes slot 30))
      (slot_grid 30 now 1 19 23).
Proof.
  apply (iter_study_slots_grid 30 now 1 19 23 10).
  - lia.
  - lia.
  - lia.
  - vm_compute. intuition discriminate.
  - vm_compute. lia.
Defined.

Lemma shortfall_leaves_no_room_witness :
  no_room 30 None (Datetime.at_time monday 19 0) crowded_turn.
Proof.
  apply (shortfall_leaves_no_room 30 100 now 1 (Datetime.combine_midnight monday)
           None 19 22 false ltac:(lia) ltac:(lia) ltac:(lia) thesis
           (first_alloc crowded) crowded_turn (Datetime.at_time monday 19 0)).
  - by left.
  - vm_compute. reflexivity.
  - vm_compute. reflexivity.
  - simpl. lia.
  - vm_compute. left.
  - vm_compute. reflexivity.
Defined.

Lemma todo_blocks_first_fit_witness :
  ∃ committed : list datetime,
    blocks crowded_turn
    = blocks (first_alloc crowded) ++ (todo_block 30 thesis <$> committed)
    ∧ committed ⊆ slot_grid 30 (Datetime.combine_midnight monday) 1 19 22
    ∧ ∀ earlier slot,
        slot ∈ committed →
        earlier ∈ slot_grid 30 (Datetime.combine_midnight monday) 1 19 22 →
        earlier < slot →
        no_room 30 None earlier crowded_turn.
Proof.
  apply (todo_blocks_first_fit 30 100 now 1 (Datetime.combine_midnight monday)
           None 19 22 false ltac:(lia) ltac:(lia) ltac:(lia) thesis
           (first_alloc crowded) crowded_turn).
  - by left.
  - vm_compute. reflexivity.
  - vm_compute. reflexivity.
Defined.

Lemma todo_blocks_on_grid_witness :
  ScheduledBlock.start (block "thesis" monday 20 30 "todo")
    ∈ slot_grid 30 (Datetime.combine_midnight (effective_date now None)) 1
        (effective_start_hour 19 (Some 19))
        (effective_end_hour 19 23 (Some 19) (Some 22))
  ∧ ScheduledBlock.end_ (block "thesis" monday 20 30 "todo")
    = Datetime.add_minutes
        (ScheduledBlock.start (block "thesis" monday 20 30 "todo")) 30.
Proof.
  apply (todo_blocks_on_grid 19 23 30 100 now crowded 1 None None (Some 19)
           (Some 22) false crowded_schedule).
  - lia.
  - simpl. lia.
  - vm_compute. discriminate.
  - vm_compute. reflexivity.
  - unfold crowded_schedule. rewrite !elem_of_cons. auto.
  - reflexivity.
Defined.

Lemma invalid_start_hour_raises_witness :
  run crowded 1 None None (Some 24) (Some 22) false = Raise ValueError
  ∧ run crowded 1 None None (Some (2 ^ 31)) (Some 22) false = Raise OverflowError.
Proof.
  split.
  - apply (invalid_start_hour_raises 19 23 30 100 now crowded 1 None None (Some 24)
             (Some 22) false).
    + lia.
    + right. simpl. lia.
    + lia.
    + simpl. lia.
    + left. vm_compute. reflexivity.
  - apply (invalid_start_hour_raises 19 23 30 100 now crowded 1 None None
             (Some (2 ^ 31)) (Some 22) false).
    + lia.
    + right. simpl. lia.
    + lia.
    + simpl. lia.
    + left. vm_compute. reflexivity.
Defined.

Lemma unschedulable_for_want_of_room_witness :
  full 30 None crowded_schedule (Datetime.at_time monday 19 0).
Proof.
  apply (unschedulable_for_want_of_room 19 23 30 100 now (now + 1) crowded 1 None
           None (Some 19) (Some 22) false crowded_schedule
           (Shortfall thesis 180 90 90) (Datetime.at_time monday 19 0)).
  - lia.
  - simpl. lia.
  - vm_compute. discriminate.
  - vm_compute. reflexivity.
  - lia.
  - vm_compute. left.
  - by left.
  - vm_compute. left.
  - vm_compute. reflexivity.
Defined.

Lemma split_of_schedule_witness :
  ∃ fixed todo,
    sorted_by lt_int ScheduledBlock.start
      (fixed_block <$> ParsedInput.fixed_events crowded) = Ret fixed
    ∧ split_schedule_to_ics_for_google now (now + 1) crowded_schedule
      = (schedule_to_ics now fixed, schedule_to_ics (now + 1) todo)
    ∧ Forall (λ b, ScheduledBlock.kind b = "todo") todo
    ∧ fixed ++ todo ≡ₚ crowded_schedule.
Proof.
  apply (split_of_schedule 19 23 30 100 now crowded 1 None None (Some 19)
           (Some 22) false crowded_schedule now (now + 1)).
  vm_compute. reflexivity.
Defined.

Lemma json_str_braces_witness :
  ∃ first last,
    find_char "{" "reply {a} end" = Some first
    ∧ rfind_char "}" "reply {a} end" = Some last
    ∧ ((first ≤ last)%nat →
       String.get 0 "{a}" = Some "{"%char
       ∧ String.get (last - first) "{a}" = Some "}"%char
       ∧ String.length "{a}" = S (last - first))
    ∧ ((last < first)%nat → "{a}" = EmptyString).
Proof.
  apply (json_str_braces "reply {a} end" "{a}").
  vm_compute. reflexivity.
Defined.

Lemma build_schedule_returns_witness :
  ∃ fuel out, ∀ fuel', (fuel ≤ fuel')%nat →
    build_schedule 19 23 30 fuel' now crowded 1 None None (Some 19) (Some 22) false
    = Ret out.
Proof.
  apply (build_schedule_returns 19 23 30 now crowded 1 None None (Some 19)
           (Some 22) false).
  - lia.
  - simpl. lia.
  - vm_compute. discriminate.
  - vm_compute. intuition discriminate.
  - right. simpl. lia.
  - constructor; [by left | constructor].
Defined.

Lemma listing_order_irrelevant_witness :
  run (ParsedInput.mk [homework; overdue; essay] [lecture; dinner])
    7 None (Some 4) (Some 19) (Some 23) false
  = run (ParsedInput.mk [essay; homework; overdue] [lecture; dinner])
      7 None (Some 4) (Some 19) (Some 23) false.
Proof.
  apply (listing_order_irrelevant 19 23 30 100 now [homework; overdue; essay]
           [essay; homework; overdue] [lecture; dinner] 7 None (Some 4) (Some 19)
           (Some 23) false).
  - apply (Permutation_app_comm [homework; overdue] [essay]).
  - intros a b Ha Hb Hp _.
    repeat (apply elem_of_cons in Ha as [->|Ha]);
      repeat (apply elem_of_cons in Hb as [->|Hb]);
      try done; try (by apply elem_of_nil in Ha); try (by apply elem_of_nil in Hb).
Defined.

(** Called at 21:00, the engine still fills the slot of 20:30. *)
Example evening_already_begun :
  build_schedule 19 23 30 100 (Datetime.at_time monday 21 0) crowded 1 None None
    (Some 19) (Some 22) false = Ret crowded_schedule
  ∧ ScheduledBlock.start (block "thesis" monday 20 30 "todo")
    < Datetime.at_time monday 21 0.
Proof. split; vm_compute; reflexivity. Qed.

Lemma todo_blocks_not_before_today_witness :
  Datetime.combine_midnight (Datetime.to_date (Datetime.at_time monday 21 0))
  ≤ ScheduledBlock.start (block "thesis" monday 20 30 "todo").
Proof.
  apply (todo_blocks_not_before_today 19 23 30 100 (Datetime.at_time monday 21 0)
           crowded 1 None None (Some 19) (Some 22) false crowded_schedule).
  - lia.
  - vm_compute. discriminate.
  - vm_compute. reflexivity.
  - unfold crowded_schedule. rewrite !elem_of_cons. auto.
  - reflexivity.
Defined.

Lemma fixed_listing_order_irrelevant_witness :
  ∃ out2,
    run (ParsedInput.mk [thesis] [seminar; lecture]) 1 None None (Some 19) (Some 22)
      false = Ret out2
    ∧ crowded_schedule ≡ₚ out2
    ∧ filter (λ b, ScheduledBlock.kind b = "todo") crowded_schedule
      = filter (λ b, ScheduledBlock.kind b = "todo") out2.
Proof.
  apply (fixed_listing_order_irrelevant 19 23 30 100 now [thesis] [lecture; seminar]
           [seminar; lecture] 1 None None (Some 19) (Some 22) false crowded_schedule).
  - apply perm_swap.
  - vm_compute. reflexivity.
Defined.

(** In cram mode the midterm, first in priority, lets Monday's first two
    slots pass (its estimate of what is ahead, 180 minutes, exceeds the 150
    it needs), the worksheet takes them in its turn, and the midterm is
    left at 120 minutes of 150 with its deadline on Tuesday 20:00. *)
Lemma priority_precedence_counterexample :
  run rivals 3 None (Some 2) (Some 19) (Some 21) true = Ret rivals_schedule
  ∧ scheduled "midterm" rivals_schedule = 120
  ∧ ¬ served_by_priority now rivals rivals_schedule.
Proof.
  split_and!; [vm_compute; reflexivity..|].
  intros H.
  specialize (H midterm worksheet 1 2).
  assert (150 ≤ 120) as Hle; [|lia].
  apply H.
  - apply list_elem_of_further, list_elem_of_here.
  - apply list_elem_of_here.
  - reflexivity.
  - reflexivity.
  - lia.
  - vm_compute. reflexivity.
  - exists (block "worksheet" monday 19 0 "todo").
    split_and!; [apply list_elem_of_here | reflexivity | reflexivity |].
    vm_compute. reflexivity.
Qed.

(** The last day of the calendar, and the day after. *)
Example last_day_of_calendar :
  year_month_day LAST_DAY = (9999, 12, 31)
  ∧ year_month_day (LAST_DAY + 1) = (10000, 1, 1).
Proof. split; vm_compute; reflexivity. Qed.

(** Without cram mode the midterm is served first and in full. *)
Example rivals_plain_served :
  run rivals 3 None (Some 2) (Some 19) (Some 21) false = Ret rivals_plain_schedule
  ∧ scheduled "midterm" rivals_plain_schedule = 150
  ∧ served_by_priority now rivals rivals_plain_schedule.
Proof.
  split_and!; [vm_compute; reflexivity..|].
  intros a b pa pb Ha Hb Hpa Hpb Hlt _ _. simpl in Ha, Hb.
  repeat (apply elem_of_cons in Ha as [->|Ha]); [| |by apply elem_of_nil in Ha];
    repeat (apply elem_of_cons in Hb as [->|Hb]); try (by apply elem_of_nil in Hb);
    injection Hpa as <-; injection Hpb as <-; try lia.
  vm_compute. discriminate.
Qed.

Local Abbreviation rivals_turn :=
  (schedule_todo 30 100 now 3 (Datetime.combine_midnight (effective_date now None))
     ((λ h, h * 60) <$> Some 2) (effective_start_hour 19 (Some 19))
     (effective_end_hour 19 23 (Some 19) (Some 21)) false).
Local Abbreviation rivals_turns :=
  (schedule_todos 30 100 now 3 (Datetime.combine_midnight (effective_date now None))
     ((λ h, h * 60) <$> Some 2) (effective_start_hour 19 (Some 19))
     (effective_end_hour 19 23 (Some 19) (Some 21)) false).

(** Without cram mode the midterm has its 150 minutes before the worksheet
    is given Tuesday 19:30. *)
Lemma priority_precedence_witness :
  ∃ order st,
    todo_order rivals = Ret order
    ∧ order ≡ₚ normalize_estimate <$> ParsedInput.todos rivals
    ∧ StronglySorted goes_before order
    ∧ rivals_turns order (first_alloc rivals) = Ret st
    ∧ rivals_plain_schedule ≡ₚ blocks st
    ∧ ∀ a b pa pb,
        a ∈ order → b ∈ order →
        TodoTask.priority a = Some pa → TodoTask.priority b = Some pb →
        pa < pb →
        ∃ l1 l2 l3 st1 st2 st3 st4 (granted_a granted_b : list datetime),
          order = l1 ++ a :: l2 ++ b :: l3
          ∧ rivals_turns l1 (first_alloc rivals) = Ret st1
          ∧ rivals_turn a st1 = Ret st2
          ∧ blocks st2 = blocks st1 ++ (todo_block 30 a <$> granted_a)
          ∧ remaining st2
            = TodoTask.estimated_time_minutes a - 30 * Z.of_nat (length granted_a)
          ∧ rivals_turns l2 st2 = Ret st3
          ∧ blocks st2 `prefix_of` blocks st3
          ∧ rivals_turn b st3 = Ret st4
          ∧ blocks st4 = blocks st3 ++ (todo_block 30 b <$> granted_b)
          ∧ rivals_turns l3 st4 = Ret st
          ∧ (0 < 30 ≤ 60 →
             0 ≤ effective_start_hour 19 (Some 19) ≤ 23 →
             effective_end_hour 19 23 (Some 19) (Some 21) ≤ 23 →
             false = false ∨ TodoTask.exam_or_not a = false →
             now < TodoTask.deadline a →
             (0 < remaining st2 →
              ∀ slot,
                slot ∈ slot_grid 30
                         (Datetime.combine_midnight (effective_date now None)) 3
                         (effective_start_hour 19 (Some 19))
                         (effective_end_hour 19 23 (Some 19) (Some 21)) →
                slot < TodoTask.deadline a →
                no_room 30 ((λ h, h * 60) <$> Some 2) slot st2)
             ∧ (∀ slot, slot ∈ granted_b → slot < TodoTask.deadline a →
                        TodoTask.estimated_time_minutes a
                        ≤ 30 * Z.of_nat (length granted_a))).
Proof.
  apply (priority_precedence 19 23 30 100 now rivals 3 None (Some 2) (Some 19)
           (Some 21) false rivals_plain_schedule).
  vm_compute. reflexivity.
Defined.


End Samples.
